(** * Loudness sampling and windowed aggregation: the React Native dB graphs

    A shallow embedding of the aggregation logic of the four components of
    the repository:

    - [DbGraph]        src/components/DbGraph.jsx  (VoiceDBGraph, real audio)
    - [SimGraph]       the chart-kit VoiceDBGraph whose level is simulated
    - [SimpleDBGraph]  the SimpleDBGraph component (window only)
    - [SoundMeter]     src/App.js (percentage meter with a 50 reading history)

    Conventions of the embedding.

    - A JavaScript number is an exact rational ([Q]); rounding of doubles is
      outside the model.  The one value of these components that can be NaN
      or -Infinity is the decibel value DbGraph.jsx computes from an audio
      payload: [DbGraph] is the component on payloads whose buffer is not
      empty, and [DbGraphRaw] is the same component on any payload, with
      NaN and -Infinity as values.  [Date.now()] is an integer number of
      milliseconds ([Z]) passed to every handler that reads the clock.
    - A component's [useState] cells and [useRef] cells are the fields of one
      [State] record; a handler is a function from the state before to the
      state after (React applies the queued setters of one handler together).
    - Console output, alerts, the pulse animation and the parent callbacks
      [onSpeechTimeUpdate] / [onAverageUpdate] do not feed back into the
      state and are left out.
    - The outcome of an awaited call into the native recorder is an explicit
      argument ([Resolved] or [Rejected]). *)

From Stdlib Require Import QArith Qround ZArith List Sorted Bool Lia Lqa.
Import ListNotations.

Open Scope Q_scope.

(** ** JavaScript arithmetic on numbers *)

Module Js.

(** [a <= b] and [a < b] as the booleans JavaScript computes. *)
Definition leb (a b : Q) : bool := Qle_bool a b.
Definition ltb (a b : Q) : bool := negb (Qle_bool b a).
(** [a >= b] and [a > b]. *)
Definition geb (a b : Q) : bool := leb b a.
Definition gtb (a b : Q) : bool := ltb b a.

(** Truthiness of a number: every number except 0 is truthy. *)
Definition truthy (a : Q) : bool := negb (Qeq_bool a 0).

(** [a || b] on numbers. *)
Definition or_else (a b : Q) : Q := if truthy a then a else b.

Definition Math_max (a b : Q) : Q := if leb a b then b else a.
Definition Math_min (a b : Q) : Q := if leb a b then a else b.

(** [Math.round]: the nearest integer, ties towards plus infinity. *)
Definition Math_round (a : Q) : Z := Qfloor (a + (1 # 2)).

(** [arr.reduce((acc, v) => acc + v, 0)]. *)
Definition sum (l : list Q) : Q := fold_left Qplus l 0.

(** [arr.length] as a number. *)
Definition len {A : Type} (l : list A) : Q := inject_Z (Z.of_nat (length l)).

(** [(Date.now() - start) / 1000]: milliseconds to seconds. *)
Definition seconds_since (start now : Z) : Q := inject_Z (now - start) / 1000.

(** Outcome of an awaited promise of the native recorder. *)
Inductive Outcome : Type := Resolved | Rejected.

End Js.

(** A point of the wave form: [x] is the session time in seconds, [y] the
    display level.  (DbGraph.jsx and SimpleDBGraph also store a wall-clock
    [timestamp] in the point; it is never read and is not modelled.) *)
Record Point : Type := mkPoint { px : Q; py : Q }.

(** ** src/components/DbGraph.jsx *)

Module DbGraph.

Import Js.

Record State : Type := mkState {
  waveformData : list Point;
  running : bool;
  time : Q;
  averageDB : Q;
  currentDB : Q;
  recordingDuration : Q;
  isPaused : bool;
  startTimeRef : Z;
  (** the armed auto-stop timer, with its delay in milliseconds *)
  timeoutRef : option Q;
  activeSpeechTimeRef : Q
}.

(** The state of a freshly mounted component. *)
Definition initial : State :=
  {| waveformData := []; running := false; time := 0; averageDB := 0;
     currentDB := 0; recordingDuration := 0; isPaused := false;
     startTimeRef := 0%Z; timeoutRef := None; activeSpeechTimeRef := 0 |}.

(** [Math.max(0, Math.min(100, db))], where [db] is the value of
    [20 * Math.log10(rms / 32767) + 90] for a buffer that is not empty.  An
    all-zero buffer gives [db = -Infinity], which the clamp treats like any
    [db <= 0].  An empty buffer gives NaN, which is no [Q]: see
    [DbGraph_normalizedDB] and [DbGraphRaw]. *)
Definition normalize (db : Q) : Q := Math_max 0 (Math_min 100 db).

(** [Math.max(0, currentTime - (duration || 30))]. *)
Definition windowStart (duration currentTime : Q) : Q :=
  Math_max 0 (currentTime - or_else duration 30).

(** The updater passed to [setWaveformData]: the new wave form. *)
Definition filteredForDisplay (duration currentTime : Q) (newPoint : Point)
    (prev : list Point) : list Point :=
  let updated := prev ++ [newPoint] in
  filter (fun p => geb (px p) (windowStart duration currentTime)) updated.

Definition activePoints (window : list Point) : list Point :=
  filter (fun point => geb (py point) 8) window.

(** The ['data'] handler of the recorder, on an event whose buffer is not
    empty; [db] is its decibel value. *)
Definition onData (duration : Q) (now : Z) (db : Q) (s : State) : State :=
  let normalizedDB := normalize db in
  let currentTime := seconds_since (startTimeRef s) now in
  let newPoint := mkPoint currentTime normalizedDB in
  let window := filteredForDisplay duration currentTime newPoint (waveformData s) in
  let active := activePoints window in
  {| waveformData := window;
     running := running s;
     time := currentTime;
     averageDB :=
       if (0 <? length active)%nat
       then sum (map py active) / len active
       else averageDB s;
     currentDB := normalizedDB;
     recordingDuration := recordingDuration s;
     isPaused := isPaused s;
     startTimeRef := startTimeRef s;
     timeoutRef := timeoutRef s;
     activeSpeechTimeRef :=
       if gtb normalizedDB 12
       then activeSpeechTimeRef s + (1 # 10)
       else activeSpeechTimeRef s |}.

(** [startAudio]: [hasPermission] is the answer of the permission prompt,
    [started] the outcome of [AudioRecord.start()].  Returns the new state
    and the boolean the function returns. *)
Definition startAudio (hasPermission : bool) (started : Outcome)
    (duration : Q) (now : Z) (s : State) : State * bool :=
  if negb hasPermission then (s, false)
  else
    match started with
    | Resolved =>
        ({| waveformData := [];
            running := true;
            time := 0;
            averageDB := averageDB s;
            currentDB := currentDB s;
            recordingDuration := 0;
            isPaused := false;
            startTimeRef := now;
            timeoutRef :=
              if truthy duration && gtb duration 0
              then Some (duration * 1000)
              else timeoutRef s;
            activeSpeechTimeRef := 0 |}, true)
    | Rejected =>
        (* the catch block: the resets made before the throw stay *)
        ({| waveformData := [];
            running := false;
            time := 0;
            averageDB := averageDB s;
            currentDB := currentDB s;
            recordingDuration := 0;
            isPaused := false;
            startTimeRef := now;
            timeoutRef := timeoutRef s;
            activeSpeechTimeRef := 0 |}, false)
    end.

(** [stopAudio], called through the latest render (the handle or the stop
    button), whose [averageDB] is the one of the state: [stopped] is the
    outcome of [await AudioRecord.stop()].  Returns the new state and the
    value the function resolves to. *)
Definition stopAudio (stopped : Outcome) (now : Z) (s : State) : State * Q :=
  match stopped with
  | Resolved =>
      let finalRecordingDuration := seconds_since (startTimeRef s) now in
      let finalAverageDB :=
        if ltb (activeSpeechTimeRef s) 1 then 0 else averageDB s in
      ({| waveformData := waveformData s;
          running := false;
          time := time s;
          averageDB := finalAverageDB;
          currentDB := currentDB s;
          recordingDuration := finalRecordingDuration;
          isPaused := isPaused s;
          startTimeRef := startTimeRef s;
          timeoutRef := None;
          activeSpeechTimeRef := activeSpeechTimeRef s |}, finalAverageDB)
  | Rejected =>
      (* the catch block *)
      ({| waveformData := waveformData s;
          running := false;
          time := time s;
          averageDB := averageDB s;
          currentDB := currentDB s;
          recordingDuration := recordingDuration s;
          isPaused := isPaused s;
          startTimeRef := startTimeRef s;
          timeoutRef := None;
          activeSpeechTimeRef := activeSpeechTimeRef s |}, averageDB s)
  end.

Definition clearData (s : State) : State :=
  {| waveformData := [];
     running := running s;
     time := 0;
     averageDB := 0;
     currentDB := 0;
     recordingDuration := 0;
     isPaused := false;
     startTimeRef := 0%Z;
     timeoutRef := None;
     activeSpeechTimeRef := 0 |}.

End DbGraph.

(** ** The chart-kit VoiceDBGraph with a simulated level

    [processAudioData] draws the amplitude at random as a stand-in for real
    audio processing; the model takes the decibel value
    [dB = 20 * Math.log10(rms || 0.0001)] as the input of a tick. *)

Module SimGraph.

Import Js.

Record State : Type := mkState {
  waveformData : list Point;
  running : bool;
  time : Q;
  averageDB : Q;
  currentDB : Q;
  recordingDuration : Q;
  startTimeRef : Z;
  lastCurrentUpdateRef : Z;
  timeoutRef : option Q;
  activeSpeechTimeRef : Q
}.

Definition initial : State :=
  {| waveformData := []; running := false; time := 0; averageDB := 0;
     currentDB := 0; recordingDuration := 0; startTimeRef := 0%Z;
     lastCurrentUpdateRef := 0%Z; timeoutRef := None;
     activeSpeechTimeRef := 0 |}.

(** Fixed DB offset of 50. *)
Definition dbOffset : Q := 50.

(** [Math.max(0, dB + 100 - dbOffset)]. *)
Definition processAudioData (dB : Q) : Q := Math_max 0 (dB + 100 - dbOffset).

(** The updater passed to [setWaveformData]: the new wave form. *)
Definition updated (duration currentElapsedTime : Q) (newPoint : Point)
    (prev : list Point) : list Point :=
  filter (fun p => geb (px p) (currentElapsedTime - duration))
         (prev ++ [newPoint]).

(** Average dB, excluding the 1-10 dB range. *)
Definition validPoints (window : list Point) : list Point :=
  filter (fun point => ltb (py point) 1 || gtb (py point) 10) window.

Definition startAudio (hasPermission : bool) (started : Outcome)
    (duration : Q) (now : Z) (s : State) : State * bool :=
  if negb hasPermission then (s, false)
  else
    ({| waveformData := waveformData s;
        running := true;
        time := 0;
        averageDB := averageDB s;
        currentDB := currentDB s;
        recordingDuration := 0;
        startTimeRef := now;
        lastCurrentUpdateRef := lastCurrentUpdateRef s;
        timeoutRef :=
          match started with
          | Resolved =>
              if Qeq_bool duration 5 then Some 5000 else timeoutRef s
          | Rejected => timeoutRef s
          end;
        activeSpeechTimeRef := 0 |},
     match started with Resolved => true | Rejected => false end).

(** [stopAudio], called through the latest render (the handle or the stop
    button), whose [averageDB] is the one of the state. *)
Definition stopAudio (now : Z) (s : State) : State * Q :=
  let finalRecordingDuration := seconds_since (startTimeRef s) now in
  let finalAverageDB :=
    if ltb (activeSpeechTimeRef s) 1 then 0 else averageDB s in
  ({| waveformData := waveformData s;
      running := false;
      time := time s;
      averageDB := finalAverageDB;
      currentDB := currentDB s;
      recordingDuration := finalRecordingDuration;
      startTimeRef := startTimeRef s;
      lastCurrentUpdateRef := lastCurrentUpdateRef s;
      timeoutRef := None;
      activeSpeechTimeRef := activeSpeechTimeRef s |}, finalAverageDB).

Definition clearData (s : State) : State :=
  {| waveformData := [];
     running := running s;
     time := 0;
     averageDB := 0;
     currentDB := 0;
     recordingDuration := 0;
     startTimeRef := 0%Z;
     lastCurrentUpdateRef := lastCurrentUpdateRef s;
     timeoutRef := None;
     activeSpeechTimeRef := 0 |}.

(** The part of a tick that runs once the guards have passed: a sample
    with level [processAudioData dB] is pushed at [currentElapsedTime].
    The two clock readings of the callback are both [now]. *)
Definition pushSample (duration : Q) (now : Z) (dB : Q) (s : State) : State :=
  let currentElapsedTime := seconds_since (startTimeRef s) now in
  let normalizedDB := processAudioData dB in
  let refresh :=
    (lastCurrentUpdateRef s =? 0)%Z
    || (200 <? now - lastCurrentUpdateRef s)%Z in
  let newPoint := mkPoint currentElapsedTime normalizedDB in
  let window := updated duration currentElapsedTime newPoint (waveformData s) in
  let valid := validPoints window in
  {| waveformData := window;
     running := running s;
     time := currentElapsedTime;
     averageDB :=
       if (0 <? length valid)%nat
       then sum (map py valid) / len valid
       else 0;
     currentDB := if refresh then normalizedDB else currentDB s;
     recordingDuration := recordingDuration s;
     startTimeRef := startTimeRef s;
     lastCurrentUpdateRef :=
       if refresh then now else lastCurrentUpdateRef s;
     timeoutRef := timeoutRef s;
     activeSpeechTimeRef :=
       if gtb normalizedDB 10
       then activeSpeechTimeRef s + (5 # 100)
       else activeSpeechTimeRef s |}.

(** One firing of the 50 ms interval. *)
Definition tick (duration : Q) (now : Z) (dB : Q) (s : State) : State :=
  if negb (running s) then s
  else
    let currentElapsedTime := seconds_since (startTimeRef s) now in
    if truthy duration && geb currentElapsedTime duration
    then fst (stopAudio now s)
    else pushSample duration now dB s.

End SimGraph.

(** ** The SimpleDBGraph component *)

Module SimpleDBGraph.

Import Js.

Record State : Type := mkState {
  waveformData : list Point;
  isRecording : bool;
  currentDB : Q;
  elapsedTime : Q;
  startTimeRef : Z
}.

(** The updater passed to [setWaveformData]: the points within the time
    window. *)
Definition filtered (duration currentTime : Q) (newPoint : Point)
    (prev : list Point) : list Point :=
  let updated := prev ++ [newPoint] in
  let timeWindow := duration in
  filter (fun point => geb (px point) (Math_max 0 (currentTime - timeWindow)))
         updated.

(** One firing of the monitoring interval; [dbValue] is the value of
    [generateDBValue()]. *)
Definition tick (duration : Q) (now : Z) (dbValue : Q) (s : State) : State :=
  let currentTime := seconds_since (startTimeRef s) now in
  {| waveformData :=
       filtered duration currentTime (mkPoint currentTime dbValue)
                (waveformData s);
     (* auto-stop after duration *)
     isRecording := if geb currentTime duration then false else isRecording s;
     currentDB := dbValue;
     elapsedTime := currentTime;
     startTimeRef := startTimeRef s |}.

Definition clearData (s : State) : State :=
  {| waveformData := [];
     isRecording := isRecording s;
     currentDB := 0;
     elapsedTime := 0;
     startTimeRef := 0%Z |}.

End SimpleDBGraph.

(** ** src/App.js: the percentage meter *)

Module SoundMeter.

Import Js.

Record State : Type := mkState {
  isRecording : bool;
  currentDecibels : Z;
  averageDecibels : Z;
  hasPermission : bool;
  decibelHistory : list Z;
  rawSoundLevel : Q
}.

Definition initial : State :=
  {| isRecording := false; currentDecibels := 0%Z; averageDecibels := 0%Z;
     hasPermission := false; decibelHistory := []; rawSoundLevel := 0 |}.

(** A frame of the sound-level library; a missing field is [None]. *)
Record Frame : Type := mkFrame { value : option Q; rawValue : option Q }.

(** [field || 0]. *)
Definition or_zero (field : option Q) : Q :=
  match field with
  | Some v => or_else v 0
  | None => 0
  end.

(** Convert sound level to a 0-100 scale for display. *)
Definition soundLevelToPercentage (soundLevel : Q) : Z :=
  if leb soundLevel 0 then 0%Z
  else
    let normalizedValue :=
      Math_min 100 (Math_max 0 (soundLevel / 80 * 100)) in
    Math_round normalizedValue.

(** [newHistory.reduce((sum, val) => sum + val, 0)]. *)
Definition total (history : list Z) : Z := fold_left Z.add history 0%Z.

(** The updater passed to [setDecibelHistory]. *)
Definition newHistory (percentage : Z) (prev : list Z) : list Z :=
  let appended := prev ++ [percentage] in
  if (50 <? length appended)%nat
  then tl appended          (* shift(): keep only last 50 readings *)
  else appended.

Definition average (history : list Z) : Q :=
  inject_Z (total history) / len history.

(** The [onNewFrame] listener installed by [startRecording]. *)
Definition onNewFrame (data : Frame) (s : State) : State :=
  let soundLevel := or_zero (value data) in
  let rawDb := or_zero (rawValue data) in
  let percentage := soundLevelToPercentage soundLevel in
  let history := newHistory percentage (decibelHistory s) in
  {| isRecording := isRecording s;
     currentDecibels := percentage;
     averageDecibels := Math_round (average history);
     hasPermission := hasPermission s;
     decibelHistory := history;
     rawSoundLevel := rawDb |}.

Definition startRecording (s : State) : State :=
  if negb (hasPermission s) then s
  else
    {| isRecording := true;
       currentDecibels := currentDecibels s;
       averageDecibels := averageDecibels s;
       hasPermission := hasPermission s;
       decibelHistory := [];
       rawSoundLevel := rawSoundLevel s |}.

Definition stopRecording (s : State) : State :=
  {| isRecording := false;
     currentDecibels := 0%Z;
     averageDecibels := averageDecibels s;
     hasPermission := hasPermission s;
     decibelHistory := decibelHistory s;
     rawSoundLevel := 0 |}.

End SoundMeter.

(** ** Runs and observations *)

(** Modelled from the spec: [snapshot()] has no function of its own in the
    components; it reads the five observable values, which the components
    keep in [currentDB], [averageDB], [activeSpeechTimeRef], [time] and the
    length of [waveformData]. *)
Record Snapshot : Type := mkSnapshot {
  currentLevel : Q;
  runningAverage : Q;
  activeDurationSeconds : Q;
  elapsedSeconds : Q;
  sampleCount : nat
}.

Definition DbGraph_snapshot (s : DbGraph.State) : Snapshot :=
  {| currentLevel := DbGraph.currentDB s;
     runningAverage := DbGraph.averageDB s;
     activeDurationSeconds := DbGraph.activeSpeechTimeRef s;
     elapsedSeconds := DbGraph.time s;
     sampleCount := length (DbGraph.waveformData s) |}.

Definition SimGraph_snapshot (s : SimGraph.State) : Snapshot :=
  {| currentLevel := SimGraph.currentDB s;
     runningAverage := SimGraph.averageDB s;
     activeDurationSeconds := SimGraph.activeSpeechTimeRef s;
     elapsedSeconds := SimGraph.time s;
     sampleCount := length (SimGraph.waveformData s) |}.

(** An audio event: the clock reading at which it is handled and the raw
    decibel value it carries. *)
Definition Event : Type := (Z * Q)%type.

(** The handlers run over a sequence of events, oldest first. *)
Definition DbGraph_run (duration : Q) (events : list Event)
    (s : DbGraph.State) : DbGraph.State :=
  fold_left (fun st e => DbGraph.onData duration (fst e) (snd e) st) events s.

Definition SimGraph_run (duration : Q) (events : list Event)
    (s : SimGraph.State) : SimGraph.State :=
  fold_left (fun st e => SimGraph.pushSample duration (fst e) (snd e) st) events s.

Definition SimpleDBGraph_run (duration : Q) (events : list Event)
    (s : SimpleDBGraph.State) : SimpleDBGraph.State :=
  fold_left (fun st e => SimpleDBGraph.tick duration (fst e) (snd e) st) events s.

Definition SoundMeter_run (frames : list SoundMeter.Frame)
    (s : SoundMeter.State) : SoundMeter.State :=
  fold_left (fun st f => SoundMeter.onNewFrame f st) frames s.

(** The percentage the meter derives from a frame. *)
Definition SoundMeter_reading (data : SoundMeter.Frame) : Z :=
  SoundMeter.soundLevelToPercentage (SoundMeter.or_zero (SoundMeter.value data)).

(** The point each component builds from an event of a session started at
    clock reading [start]. *)
Definition DbGraph_point (start : Z) (e : Event) : Point :=
  mkPoint (Js.seconds_since start (fst e)) (DbGraph.normalize (snd e)).

Definition SimGraph_point (start : Z) (e : Event) : Point :=
  mkPoint (Js.seconds_since start (fst e)) (SimGraph.processAudioData (snd e)).

Definition SimpleDBGraph_point (start : Z) (e : Event) : Point :=
  mkPoint (Js.seconds_since start (fst e)) (snd e).

(** The points of a list whose time is at least [from]. *)
Definition since (from : Q) (points : list Point) : list Point :=
  filter (fun p => Js.geb (px p) from) points.

(** The arithmetic mean of a list of levels. *)
Definition mean (levels : list Q) : Q := Js.sum levels / Js.len levels.

(** The last [n] elements of a list. *)
Definition lastn {A : Type} (n : nat) (l : list A) : list A :=
  skipn (length l - n) l.

(** ** Sample states and sessions

    Concrete states used to evaluate the handlers. *)

(** A DbGraph recording with [active] seconds of speech and running
    average [average]. *)
Definition DbGraph_recording (active average : Q) : DbGraph.State :=
  {| DbGraph.waveformData := [mkPoint (1 # 2) average];
     DbGraph.running := true;
     DbGraph.time := 1 # 2;
     DbGraph.averageDB := average;
     DbGraph.currentDB := average;
     DbGraph.recordingDuration := 0;
     DbGraph.isPaused := false;
     DbGraph.startTimeRef := 0%Z;
     DbGraph.timeoutRef := Some 5000;
     DbGraph.activeSpeechTimeRef := active |}.

(** The same for the simulated graph. *)
Definition SimGraph_recording (active average : Q) : SimGraph.State :=
  {| SimGraph.waveformData := [mkPoint (1 # 2) average];
     SimGraph.running := true;
     SimGraph.time := 1 # 2;
     SimGraph.averageDB := average;
     SimGraph.currentDB := average;
     SimGraph.recordingDuration := 0;
     SimGraph.startTimeRef := 0%Z;
     SimGraph.lastCurrentUpdateRef := 500%Z;
     SimGraph.timeoutRef := Some 5000;
     SimGraph.activeSpeechTimeRef := active |}.

(** A DbGraph session of five seconds started at clock reading 0 on a
    fresh component, and the same session after the events handled at
    2000 ms and then at 1000 ms (the clock stepped back), both at 50 dB. *)
Definition DbGraph_session : DbGraph.State :=
  fst (DbGraph.startAudio true Js.Resolved 5 0 DbGraph.initial).

Definition DbGraph_after_2000 : DbGraph.State :=
  DbGraph.onData 5 2000 50 DbGraph_session.

Definition DbGraph_after_2000_1000 : DbGraph.State :=
  DbGraph.onData 5 1000 50 DbGraph_after_2000.

(** The session after two loud events handled at 100 ms and 600 ms. *)
Definition DbGraph_after_100 : DbGraph.State :=
  DbGraph.onData 5 100 50 DbGraph_session.

Definition DbGraph_after_100_600 : DbGraph.State :=
  DbGraph.onData 5 600 50 DbGraph_after_100.

(** A simulated session started at clock reading 0 on a fresh component. *)
Definition SimGraph_session (duration : Q) : SimGraph.State :=
  fst (SimGraph.startAudio true Js.Resolved duration 0 SimGraph.initial).

(** ** The charts and the indicators

    An SVG path is the list of its commands; the text the components format
    from it is not modelled. *)

Inductive PathCommand : Type :=
| MoveTo (x y : Q)
| LineTo (x y : Q).

Definition isLineTo (c : PathCommand) : Prop :=
  match c with
  | LineTo _ _ => True
  | MoveTo _ _ => False
  end.

(** The slots of [themeColors] that the indicators of DbGraph.jsx use. *)
Inductive ThemeColor : Type := warning | success | danger | accent | cardBg.

(** [CustomChart] and the colour functions of src/components/DbGraph.jsx. *)
Module DbGraphChart.

Import Js.

Definition maxDB : Q := 80.

(** [graphHeight - (level / maxDB) * graphHeight]. *)
Definition plotY (graphHeight level : Q) : Q :=
  graphHeight - (level / maxDB) * graphHeight.

(** [((point.x - startTime) / timeWindow) * graphWidth]. *)
Definition plotX (graphWidth timeWindow startTime x : Q) : Q :=
  ((x - startTime) / timeWindow) * graphWidth.

(** [M 0 y L graphWidth y] with [y = graphHeight]. *)
Definition baseline (graphWidth graphHeight : Q) : list PathCommand :=
  [MoveTo 0 graphHeight; LineTo graphWidth graphHeight].

(** The body of the [forEach] of [createPath], on the pair of [pathData]
    and [hasStarted]. *)
Definition addPoint (graphWidth graphHeight timeWindow startTime : Q)
    (acc : list PathCommand * bool) (point : Point)
    : list PathCommand * bool :=
  let (pathData, hasStarted) := acc in
  let x := plotX graphWidth timeWindow startTime (px point) in
  let y := plotY graphHeight (py point) in
  if geb x 0 && leb x graphWidth
  then
    if negb hasStarted
    then (pathData ++ [MoveTo (Math_max 0 x) y], true)
    else (pathData ++ [LineTo x y], hasStarted)
  else (pathData, hasStarted).

Definition createPath (duration graphWidth graphHeight time : Q)
    (waveformData : list Point) : list PathCommand :=
  let timeWindow := or_else duration 30 in
  if (length waveformData <? 2)%nat
  then baseline graphWidth graphHeight
  else
    let currentTime := time in
    let startTime := Math_max 0 (currentTime - timeWindow) in
    let (pathData, hasStarted) :=
      fold_left (addPoint graphWidth graphHeight timeWindow startTime)
                waveformData ([], false) in
    if negb hasStarted
    then baseline graphWidth graphHeight
    else pathData.

(** The path of the chart as rendered from a state. *)
Definition render (duration graphWidth graphHeight : Q) (s : DbGraph.State)
    : list PathCommand :=
  createPath duration graphWidth graphHeight (DbGraph.time s)
             (DbGraph.waveformData s).

Definition getColorForRange (averageDB : Q) (rangeIndex : Z) : ThemeColor :=
  match rangeIndex with
  | 0%Z => if geb averageDB 0 && leb averageDB 25 then warning else cardBg
  | 1%Z => if geb averageDB 26 && leb averageDB 50 then success else cardBg
  | 2%Z => if geb averageDB 51 then danger else cardBg
  | _ => cardBg
  end.

Definition getAverageDbColor (averageDB : Q) : ThemeColor :=
  if geb averageDB 0 && leb averageDB 25 then warning
  else if geb averageDB 26 && leb averageDB 50 then success
  else if geb averageDB 51 then danger
  else accent.

End DbGraphChart.

(** [DBChart] and [generateDBValue] of the SimpleDBGraph component. *)
Module SimpleDBChart.

Import Js.

(** [generateDBValue]: [r1], [r2] and [r3] are the values of the calls to
    [Math.random()], in the order of the source. *)
Definition generateDBValue (maxDB r1 r2 r3 : Q) : Q :=
  let baseNoise := r1 * 15 in
  let speechBurst := if gtb r2 (7 # 10) then r3 * 40 else 0 in
  let totalDB := Math_min maxDB (baseNoise + speechBurst) in
  totalDB.

Definition baseline (graphWidth graphHeight : Q) : list PathCommand :=
  [MoveTo 0 graphHeight; LineTo graphWidth graphHeight].

(** The points in the time window, in chart coordinates. *)
Definition points (duration maxDB graphWidth graphHeight startTime : Q)
    (waveformData : list Point) : list Point :=
  map (fun point =>
         mkPoint (((px point - startTime) / duration) * graphWidth)
                 (graphHeight - (py point / maxDB) * graphHeight))
      (filter (fun p => geb (px p) startTime) waveformData).

Definition createSmoothPath (duration maxDB graphWidth graphHeight
    elapsedTime : Q) (waveformData : list Point) : list PathCommand :=
  if (length waveformData <? 2)%nat
  then baseline graphWidth graphHeight
  else
    let currentTime := elapsedTime in
    let startTime := Math_max 0 (currentTime - duration) in
    match points duration maxDB graphWidth graphHeight startTime waveformData with
    | [] => baseline graphWidth graphHeight
    | first :: rest =>
        MoveTo (px first) (py first)
        :: map (fun currentPoint => LineTo (px currentPoint) (py currentPoint))
               rest
    end.

Definition render (duration maxDB graphWidth graphHeight : Q)
    (s : SimpleDBGraph.State) : list PathCommand :=
  createSmoothPath duration maxDB graphWidth graphHeight
                   (SimpleDBGraph.elapsedTime s) (SimpleDBGraph.waveformData s).

End SimpleDBChart.

(** The amplitude that [processAudioData] of the simulated graph draws:
    [Math.random() * 0.5 + (Math.random() > 0.7 ? 0.3 : 0.1)], with [r1] and
    [r2] the values of the two calls. *)
Definition SimGraph_simulatedAmplitude (r1 r2 : Q) : Q :=
  r1 * (5 # 10) + (if Js.gtb r2 (7 # 10) then 3 # 10 else 1 # 10).

(** ** Sequences of operations

    What can happen to a mounted component, and the state after a sequence
    of such actions. *)

Inductive DbGraph_action : Type :=
| DbStart (hasPermission : bool) (started : Js.Outcome) (now : Z)
| DbData (now : Z) (db : Q)
| DbStop (stopped : Js.Outcome) (now : Z)
| DbClear.

Definition DbGraph_do (duration : Q) (s : DbGraph.State) (a : DbGraph_action)
    : DbGraph.State :=
  match a with
  | DbStart hasPermission started now =>
      fst (DbGraph.startAudio hasPermission started duration now s)
  | DbData now db => DbGraph.onData duration now db s
  | DbStop stopped now => fst (DbGraph.stopAudio stopped now s)
  | DbClear => DbGraph.clearData s
  end.

Definition DbGraph_trace (duration : Q) (actions : list DbGraph_action)
    : DbGraph.State :=
  fold_left (DbGraph_do duration) actions DbGraph.initial.

Inductive SimGraph_action : Type :=
| SimStart (hasPermission : bool) (started : Js.Outcome) (now : Z)
| SimTick (now : Z) (dB : Q)
| SimStop (now : Z)
| SimClear.

Definition SimGraph_do (duration : Q) (s : SimGraph.State)
    (a : SimGraph_action) : SimGraph.State :=
  match a with
  | SimStart hasPermission started now =>
      fst (SimGraph.startAudio hasPermission started duration now s)
  | SimTick now dB => SimGraph.tick duration now dB s
  | SimStop now => fst (SimGraph.stopAudio now s)
  | SimClear => SimGraph.clearData s
  end.

Definition SimGraph_trace (duration : Q) (actions : list SimGraph_action)
    : SimGraph.State :=
  fold_left (SimGraph_do duration) actions SimGraph.initial.

(** The decibel value a tick action carries, if it is one. *)
Definition SimGraph_input (a : SimGraph_action) : option Q :=
  match a with
  | SimTick _ dB => Some dB
  | _ => None
  end.

(** The number of events of a list whose level exceeds a threshold. *)
Definition count_above (level : Q -> Q) (threshold : Q)
    (events : list Event) : nat :=
  length (filter (fun e => Js.gtb (level (snd e)) threshold) events).

(** The simulated graph run over ticks (guards included). *)
Definition SimGraph_ticks (duration : Q) (events : list Event)
    (s : SimGraph.State) : SimGraph.State :=
  fold_left (fun st e => SimGraph.tick duration (fst e) (snd e) st) events s.

(** [handleStartStop] of src/App.js. *)
Definition SoundMeter_handleStartStop (s : SoundMeter.State)
    : SoundMeter.State :=
  if SoundMeter.isRecording s
  then SoundMeter.stopRecording s
  else SoundMeter.startRecording s.

(** ** Bounds kept by the components *)

(** The values a simulated graph shows are between 0 and [top]. *)
Definition SimGraph_bounded (top : Q) (s : SimGraph.State) : Prop :=
  0 <= SimGraph.averageDB s <= top
  /\ 0 <= SimGraph.currentDB s <= top
  /\ 0 <= SimGraph.activeSpeechTimeRef s
  /\ Forall (fun p => 0 <= py p <= top) (SimGraph.waveformData s).

(** Every tick of a sequence of actions carries at most [top] decibels. *)
Definition SimGraph_inputs_at_most (top : Q) (actions : list SimGraph_action)
    : Prop :=
  Forall (fun a => match SimGraph_input a with
                   | Some dB => dB <= top
                   | None => True
                   end) actions.

(** A path that can be drawn: one [MoveTo] followed by [LineTo]s only. *)
Definition well_formed_path (path : list PathCommand) : Prop :=
  exists x y rest, path = MoveTo x y :: rest /\ Forall isLineTo rest.

(** The path through all the points of a list, given the chart coordinates
    of a point. *)
Definition path_through (X Y : Point -> Q) (points : list Point)
    : list PathCommand :=
  match points with
  | [] => []
  | first :: rest =>
      MoveTo (X first) (Y first) :: map (fun p => LineTo (X p) (Y p)) rest
  end.

(** The data the simulated graph prepares for its line chart.  A label is
    the number whose decimal text the source pushes. *)
Module SimGraphChart.

Import Js.

(** [Math.max(1, Math.floor(maxTime / 10))]. *)
Definition labelInterval (maxTime : Q) : Z :=
  Z.max 1 (Qfloor (maxTime / 10)).

(** [for (let i = ...; i <= maxTime; i += labelInterval) push(i)], run for
    at most [fuel] iterations. *)
Fixpoint labelsFrom (fuel : nat) (i interval : Z) (maxTime : Q) : list Z :=
  match fuel with
  | O => []
  | S fuel' =>
      if leb (inject_Z i) maxTime
      then i :: labelsFrom fuel' (i + interval) interval maxTime
      else []
  end.

(** A number of iterations the loop cannot exceed, its step being at
    least 1. *)
Definition loopBound (maxTime : Q) : nat := Z.to_nat (Qfloor maxTime + 1).

(** [data[index] = v] on an index within the array. *)
Fixpoint assign (data : list Q) (index : nat) (v : Q) : list Q :=
  match data, index with
  | [], _ => []
  | _ :: rest, O => v :: rest
  | d :: rest, S index' => d :: assign rest index' v
  end.

(** The body of the [forEach] that maps the points to the chart.  (For a
    negative [labelIndex] the assignment of the source does not touch the
    elements of the array.) *)
Definition plot (interval : Z) (data : list Q) (point : Point) : list Q :=
  let labelIndex := Math_round (px point / inject_Z interval) in
  if (labelIndex <? Z.of_nat (length data))%Z
  then
    if (0 <=? labelIndex)%Z
    then assign data (Z.to_nat labelIndex) (py point)
    else data
  else data.

Definition chartLabels (duration time : Q) (waveformData : list Point)
    : list Z :=
  match waveformData with
  | [] => [0%Z; Math_round duration]
  | _ :: _ =>
      let maxTime := Math_max duration time in
      labelsFrom (loopBound maxTime) 0 (labelInterval maxTime) maxTime
  end.

Definition chartDataPoints (duration time : Q) (waveformData : list Point)
    : list Q :=
  match waveformData with
  | [] => [0; 0]
  | _ :: _ =>
      let maxTime := Math_max duration time in
      let labelInterval := labelInterval maxTime in
      fold_left (plot labelInterval) waveformData
                (repeat 0 (length (chartLabels duration time waveformData)))
  end.

End SimGraphChart.

(** ** Calls through the closure of an earlier render

    [stopAudio] reads [averageDB] from the render that created it.  The
    handle and the stop button call the [stopAudio] of the latest render:
    that call is [DbGraph.stopAudio], resp. [SimGraph.stopAudio].  The
    auto-stop timer armed by [startAudio] and the interval of the simulated
    graph call the [stopAudio] of the render in which the session was
    started; [captured] is the value [averageDB] had in that render. *)

Definition DbGraph_stopAudio_from (captured : Q) (stopped : Js.Outcome)
    (now : Z) (s : DbGraph.State) : DbGraph.State * Q :=
  match stopped with
  | Js.Resolved =>
      let finalRecordingDuration :=
        Js.seconds_since (DbGraph.startTimeRef s) now in
      let tooShort := Js.ltb (DbGraph.activeSpeechTimeRef s) 1 in
      let finalAverageDB := if tooShort then 0 else captured in
      ({| DbGraph.waveformData := DbGraph.waveformData s;
          DbGraph.running := false;
          DbGraph.time := DbGraph.time s;
          (* setAverageDB(0) under the override, no setter otherwise *)
          DbGraph.averageDB := if tooShort then 0 else DbGraph.averageDB s;
          DbGraph.currentDB := DbGraph.currentDB s;
          DbGraph.recordingDuration := finalRecordingDuration;
          DbGraph.isPaused := DbGraph.isPaused s;
          DbGraph.startTimeRef := DbGraph.startTimeRef s;
          DbGraph.timeoutRef := None;
          DbGraph.activeSpeechTimeRef := DbGraph.activeSpeechTimeRef s |},
       finalAverageDB)
  | Js.Rejected =>
      (fst (DbGraph.stopAudio Js.Rejected now s), captured)
  end.

Definition SimGraph_stopAudio_from (captured : Q) (now : Z)
    (s : SimGraph.State) : SimGraph.State * Q :=
  let tooShort := Js.ltb (SimGraph.activeSpeechTimeRef s) 1 in
  let finalAverageDB := if tooShort then 0 else captured in
  (fst (SimGraph.stopAudio now s), finalAverageDB).

(** A session started from state [s] at clock reading [start], with the
    events handled, and ended at [stop] by the auto-stop timer: the timer
    calls the [stopAudio] of the render in which [startAudio] was called,
    where [averageDB] was the one of [s]. *)
Definition DbGraph_auto_stopped (duration : Q) (start stop : Z)
    (events : list Event) (s : DbGraph.State) : DbGraph.State * Q :=
  let session := fst (DbGraph.startAudio true Js.Resolved duration start s) in
  DbGraph_stopAudio_from (DbGraph.averageDB s) Js.Resolved stop
                         (DbGraph_run duration events session).

(** The same for the simulated graph, ended by its interval once the
    duration has elapsed: the interval was set up by the render that
    followed [startAudio], in which [averageDB] was still the one of [s]. *)
Definition SimGraph_auto_stopped (duration : Q) (start stop : Z)
    (events : list Event) (s : SimGraph.State) : SimGraph.State * Q :=
  let session := fst (SimGraph.startAudio true Js.Resolved duration start s) in
  SimGraph_stopAudio_from (SimGraph.averageDB s) stop
                          (SimGraph_run duration events session).

(** [count] events at [step] milliseconds from each other after [start],
    all with the same decibel value. *)
Definition steady_events (start step : Z) (count : nat) (value : Q)
    : list Event :=
  map (fun k => ((start + step * Z.of_nat k)%Z, value)) (seq 1 count).

(** Two sessions of five seconds on a fresh DbGraph component: twelve
    events of 30 dB, stopped with the stop button at 2000 ms; then, from
    10000 ms on, twelve events of 50 dB. *)
Definition DbGraph_first_session : DbGraph.State :=
  fst (DbGraph.stopAudio Js.Resolved 2000
         (DbGraph_run 5 (steady_events 0 100 12 30) DbGraph_session)).

Definition DbGraph_second_session : DbGraph.State :=
  DbGraph_run 5 (steady_events 10000 100 12 50)
    (fst (DbGraph.startAudio true Js.Resolved 5 10000 DbGraph_first_session)).

(** The same on the simulated graph, with 24 ticks of -20 dB (level 30) and
    then 24 ticks of -10 dB (level 40). *)
Definition SimGraph_first_session : SimGraph.State :=
  fst (SimGraph.stopAudio 2000
         (SimGraph_run 5 (steady_events 0 50 24 (-20))
            (fst (SimGraph.startAudio true Js.Resolved 5 0 SimGraph.initial)))).

Definition SimGraph_second_session : SimGraph.State :=
  SimGraph_run 5 (steady_events 10000 50 24 (-10))
    (fst (SimGraph.startAudio true Js.Resolved 5 10000 SimGraph_first_session)).


(** Every tick of a sequence of actions carries a decibel value between
    [low] and [high].  The amplitudes [processAudioData] draws lie in
    [0.1, 0.8), so that its decibel values lie between -20 and 0. *)
Definition SimGraph_inputs_between (low high : Q)
    (actions : list SimGraph_action) : Prop :=
  Forall (fun a => match SimGraph_input a with
                   | Some dB => low <= dB <= high
                   | None => True
                   end) actions.

(** ** The decibel value of an audio payload

    DbGraph.jsx computes the decibel value from the payload of the event:
    [rms = Math.sqrt(sum / buffer.length)] and
    [db = 20 * Math.log10(rms / 32767) + 90].  For a buffer that is not
    empty this is a number, or -Infinity when all its samples are 0; for
    an empty buffer [sum / buffer.length] is [0 / 0], which is NaN, and so
    are [rms] and [db]. *)

Inductive JsNumber : Type :=
| NaN
| MinusInfinity
| Num (q : Q).

(** JavaScript operations on these values. *)
Module JsNum.

(** [Math.min(a, b)]: NaN when an argument is NaN. *)
Definition min (a b : JsNumber) : JsNumber :=
  match a, b with
  | NaN, _ | _, NaN => NaN
  | MinusInfinity, _ | _, MinusInfinity => MinusInfinity
  | Num p, Num q => Num (Js.Math_min p q)
  end.

(** [Math.max(a, b)]: NaN when an argument is NaN. *)
Definition max (a b : JsNumber) : JsNumber :=
  match a, b with
  | NaN, _ | _, NaN => NaN
  | MinusInfinity, other | other, MinusInfinity => other
  | Num p, Num q => Num (Js.Math_max p q)
  end.

(** [a >= b]: false when an operand is NaN. *)
Definition geb (a b : JsNumber) : bool :=
  match a, b with
  | NaN, _ | _, NaN => false
  | _, MinusInfinity => true
  | MinusInfinity, Num _ => false
  | Num p, Num q => Js.geb p q
  end.

(** [a > b]: false when an operand is NaN. *)
Definition gtb (a b : JsNumber) : bool :=
  match a, b with
  | NaN, _ | _, NaN => false
  | MinusInfinity, _ => false
  | Num _, MinusInfinity => true
  | Num p, Num q => Js.gtb p q
  end.

(** [a + b]. *)
Definition add (a b : JsNumber) : JsNumber :=
  match a, b with
  | NaN, _ | _, NaN => NaN
  | MinusInfinity, _ | _, MinusInfinity => MinusInfinity
  | Num p, Num q => Num (p + q)
  end.

(** [a / count] for the length [count] of an array that is not empty. *)
Definition over (a : JsNumber) (count : Q) : JsNumber :=
  match a with
  | NaN => NaN
  | MinusInfinity => MinusInfinity
  | Num p => Num (p / count)
  end.

End JsNum.

(** [calculateRMS] and the conversion to decibels.  [toDecibels m] stands
    for [20 * Math.log10(Math.sqrt(m) / 32767) + 90] at the mean square [m]
    of a buffer that is not empty. *)
Definition DbGraph_db (toDecibels : Q -> JsNumber) (buffer : list Z)
    : JsNumber :=
  match buffer with
  | [] => NaN
  | _ :: _ =>
      toDecibels
        (inject_Z (fold_left (fun sum v => sum + v * v)%Z buffer 0%Z)
         / Js.len buffer)
  end.

(** [Math.max(0, Math.min(100, db))] on any decibel value. *)
Definition DbGraph_normalizedDB (db : JsNumber) : JsNumber :=
  JsNum.max (Num 0) (JsNum.min (Num 100) db).

(** A value that is a number between two bounds. *)
Definition on_scale (low high : Q) (v : JsNumber) : Prop :=
  match v with
  | Num q => low <= q <= high
  | NaN | MinusInfinity => False
  end.

(** A value that is a number between 0 and 100, or NaN. *)
Definition level_or_NaN (v : JsNumber) : Prop :=
  match v with
  | NaN => True
  | MinusInfinity => False
  | Num q => 0 <= q <= 100
  end.

(** A point of the wave form whose level is any JavaScript value. *)
Record Sample : Type := mkSample { sx : Q; sy : JsNumber }.

(** ** DbGraph.jsx on any payload

    The component of [DbGraph] with the cells that can hold NaN typed as
    JavaScript values.  [DbGraph] is this component on events whose buffer
    is not empty. *)
Module DbGraphRaw.

Import Js.

Record State : Type := mkState {
  waveformData : list Sample;
  running : bool;
  time : Q;
  averageDB : JsNumber;
  currentDB : JsNumber;
  recordingDuration : Q;
  isPaused : bool;
  startTimeRef : Z;
  timeoutRef : option Q;
  activeSpeechTimeRef : Q
}.

Definition initial : State :=
  {| waveformData := []; running := false; time := 0; averageDB := Num 0;
     currentDB := Num 0; recordingDuration := 0; isPaused := false;
     startTimeRef := 0%Z; timeoutRef := None; activeSpeechTimeRef := 0 |}.

Definition filteredForDisplay (duration currentTime : Q) (newPoint : Sample)
    (prev : list Sample) : list Sample :=
  let updated := prev ++ [newPoint] in
  filter (fun p => geb (sx p) (DbGraph.windowStart duration currentTime))
         updated.

Definition activePoints (window : list Sample) : list Sample :=
  filter (fun point => JsNum.geb (sy point) (Num 8)) window.

(** [activePoints.reduce((acc, point) => acc + point.y, 0)]. *)
Definition sum (points : list Sample) : JsNumber :=
  fold_left JsNum.add (map sy points) (Num 0).

(** The ['data'] handler; [db] is the decibel value of the payload. *)
Definition onData (duration : Q) (now : Z) (db : JsNumber) (s : State)
    : State :=
  let normalizedDB := DbGraph_normalizedDB db in
  let currentTime := seconds_since (startTimeRef s) now in
  let newPoint := mkSample currentTime normalizedDB in
  let window :=
    filteredForDisplay duration currentTime newPoint (waveformData s) in
  let active := activePoints window in
  {| waveformData := window;
     running := running s;
     time := currentTime;
     averageDB :=
       if (0 <? length active)%nat
       then JsNum.over (sum active) (len active)
       else averageDB s;
     currentDB := normalizedDB;
     recordingDuration := recordingDuration s;
     isPaused := isPaused s;
     startTimeRef := startTimeRef s;
     timeoutRef := timeoutRef s;
     activeSpeechTimeRef :=
       if JsNum.gtb normalizedDB (Num 12)
       then activeSpeechTimeRef s + (1 # 10)
       else activeSpeechTimeRef s |}.

Definition startAudio (hasPermission : bool) (started : Outcome)
    (duration : Q) (now : Z) (s : State) : State * bool :=
  if negb hasPermission then (s, false)
  else
    match started with
    | Resolved =>
        ({| waveformData := [];
            running := true;
            time := 0;
            averageDB := averageDB s;
            currentDB := currentDB s;
            recordingDuration := 0;
            isPaused := false;
            startTimeRef := now;
            timeoutRef :=
              if truthy duration && gtb duration 0
              then Some (duration * 1000)
              else timeoutRef s;
            activeSpeechTimeRef := 0 |}, true)
    | Rejected =>
        ({| waveformData := [];
            running := false;
            time := 0;
            averageDB := averageDB s;
            currentDB := currentDB s;
            recordingDuration := 0;
            isPaused := false;
            startTimeRef := now;
            timeoutRef := timeoutRef s;
            activeSpeechTimeRef := 0 |}, false)
    end.

(** [stopAudio] of a render in which [averageDB] was [captured]. *)
Definition stopAudio (captured : JsNumber) (stopped : Outcome) (now : Z)
    (s : State) : State * JsNumber :=
  match stopped with
  | Resolved =>
      let finalRecordingDuration := seconds_since (startTimeRef s) now in
      let tooShort := ltb (activeSpeechTimeRef s) 1 in
      let finalAverageDB := if tooShort then Num 0 else captured in
      ({| waveformData := waveformData s;
          running := false;
          time := time s;
          averageDB := if tooShort then Num 0 else averageDB s;
          currentDB := currentDB s;
          recordingDuration := finalRecordingDuration;
          isPaused := isPaused s;
          startTimeRef := startTimeRef s;
          timeoutRef := None;
          activeSpeechTimeRef := activeSpeechTimeRef s |}, finalAverageDB)
  | Rejected =>
      ({| waveformData := waveformData s;
          running := false;
          time := time s;
          averageDB := averageDB s;
          currentDB := currentDB s;
          recordingDuration := recordingDuration s;
          isPaused := isPaused s;
          startTimeRef := startTimeRef s;
          timeoutRef := None;
          activeSpeechTimeRef := activeSpeechTimeRef s |}, captured)
  end.

Definition clearData (s : State) : State :=
  {| waveformData := [];
     running := running s;
     time := 0;
     averageDB := Num 0;
     currentDB := Num 0;
     recordingDuration := 0;
     isPaused := false;
     startTimeRef := 0%Z;
     timeoutRef := None;
     activeSpeechTimeRef := 0 |}.

(** A state of [DbGraph] as a state of this component. *)
Definition of_numbers (s : DbGraph.State) : State :=
  {| waveformData :=
       map (fun p => mkSample (px p) (Num (py p))) (DbGraph.waveformData s);
     running := DbGraph.running s;
     time := DbGraph.time s;
     averageDB := Num (DbGraph.averageDB s);
     currentDB := Num (DbGraph.currentDB s);
     recordingDuration := DbGraph.recordingDuration s;
     isPaused := DbGraph.isPaused s;
     startTimeRef := DbGraph.startTimeRef s;
     timeoutRef := DbGraph.timeoutRef s;
     activeSpeechTimeRef := DbGraph.activeSpeechTimeRef s |}.

End DbGraphRaw.

(** What can happen to a mounted DbGraph component, with any payload. *)
Inductive DbGraphRaw_action : Type :=
| RawStart (hasPermission : bool) (started : Js.Outcome) (now : Z)
| RawData (now : Z) (db : JsNumber)
| RawStop (captured : JsNumber) (stopped : Js.Outcome) (now : Z)
| RawClear.

Definition DbGraphRaw_do (duration : Q) (s : DbGraphRaw.State)
    (a : DbGraphRaw_action) : DbGraphRaw.State :=
  match a with
  | RawStart hasPermission started now =>
      fst (DbGraphRaw.startAudio hasPermission started duration now s)
  | RawData now db => DbGraphRaw.onData duration now db s
  | RawStop captured stopped now =>
      fst (DbGraphRaw.stopAudio captured stopped now s)
  | RawClear => DbGraphRaw.clearData s
  end.

Definition DbGraphRaw_trace (duration : Q) (actions : list DbGraphRaw_action)
    : DbGraphRaw.State :=
  fold_left (DbGraphRaw_do duration) actions DbGraphRaw.initial.

(** The running average is a number on the scale, the current level and the
    levels of the window are on the scale or NaN, and the active speech
    time is not negative. *)
Definition DbGraphRaw_bounded (s : DbGraphRaw.State) : Prop :=
  on_scale 0 100 (DbGraphRaw.averageDB s)
  /\ level_or_NaN (DbGraphRaw.currentDB s)
  /\ 0 <= DbGraphRaw.activeSpeechTimeRef s
  /\ Forall (fun p => level_or_NaN (sy p)) (DbGraphRaw.waveformData s).

(** An action of [DbGraph] as an action on any payload: an audio event with
    a buffer that is not empty carries a number. *)
Definition DbGraphRaw_of_action (a : DbGraph_action) : DbGraphRaw_action :=
  match a with
  | DbStart hasPermission started now => RawStart hasPermission started now
  | DbData now db => RawData now (Num db)
  | DbStop stopped now => RawStop NaN stopped now
  | DbClear => RawClear
  end.


(** ** Facts about JavaScript arithmetic *)

Section JsFacts.

Import Js.

Lemma leb_le (a b : Q) : leb a b = true <-> a <= b.
Proof. apply Qle_bool_iff. Qed.

Lemma leb_gt (a b : Q) : leb a b = false <-> b < a.
Proof.
  unfold leb. split; intro H.
  - apply Qnot_le_lt. intro Hle. apply Qle_bool_iff in Hle. congruence.
  - destruct (Qle_bool a b) eqn:E; [|reflexivity].
    apply Qle_bool_iff in E. exfalso. lra.
Qed.

Lemma ltb_lt (a b : Q) : ltb a b = true <-> a < b.
Proof.
  unfold ltb. rewrite negb_true_iff. apply leb_gt.
Qed.

Lemma ltb_ge (a b : Q) : ltb a b = false <-> b <= a.
Proof.
  unfold ltb. rewrite negb_false_iff. apply leb_le.
Qed.

Lemma truthy_nonzero (a : Q) : truthy a = true <-> ~ a == 0.
Proof.
  unfold truthy. rewrite negb_true_iff. split; intro H.
  - intro E. apply Qeq_bool_iff in E. congruence.
  - destruct (Qeq_bool a 0) eqn:E; [|reflexivity].
    apply Qeq_bool_iff in E. contradiction.
Qed.

Lemma or_else_nonzero (a b : Q) : ~ a == 0 -> or_else a b = a.
Proof.
  intro H. unfold or_else. apply truthy_nonzero in H. now rewrite H.
Qed.

Lemma Math_max_cases (a b : Q) :
  (a <= b /\ Math_max a b = b) \/ (b < a /\ Math_max a b = a).
Proof.
  unfold Math_max. destruct (leb a b) eqn:E.
  - left. split; [now apply leb_le | reflexivity].
  - right. split; [now apply leb_gt | reflexivity].
Qed.

Lemma Math_min_cases (a b : Q) :
  (a <= b /\ Math_min a b = a) \/ (b < a /\ Math_min a b = b).
Proof.
  unfold Math_min. destruct (leb a b) eqn:E.
  - left. split; [now apply leb_le | reflexivity].
  - right. split; [now apply leb_gt | reflexivity].
Qed.

Lemma Math_round_mono (a b : Q) : a <= b -> (Math_round a <= Math_round b)%Z.
Proof.
  intro H. unfold Math_round. apply Qfloor_resp_le. lra.
Qed.

Lemma Math_round_between (lo hi : Z) (a : Q) :
  inject_Z lo <= a <= inject_Z hi -> (lo <= Math_round a <= hi)%Z.
Proof.
  intros [Hlo Hhi]. unfold Math_round. split.
  - rewrite <- (Qfloor_Z lo). apply Qfloor_resp_le. lra.
  - assert (Hf : inject_Z (Qfloor (a + (1 # 2))) <= a + (1 # 2))
      by apply Qfloor_le.
    assert (Hlt : inject_Z (Qfloor (a + (1 # 2))) < inject_Z (hi + 1)).
    { rewrite inject_Z_plus. change (inject_Z 1) with 1. lra. }
    rewrite <- Zlt_Qlt in Hlt. lia.
Qed.

Lemma seconds_since_mono (start a b : Z) :
  (a <= b)%Z -> seconds_since start a <= seconds_since start b.
Proof.
  intro H. unfold seconds_since.
  assert (Hq : inject_Z (a - start) <= inject_Z (b - start)).
  { rewrite <- Zle_Qle. lia. }
  unfold Qdiv. apply Qmult_le_compat_r; [exact Hq | discriminate].
Qed.

Lemma seconds_since_nonneg (start a : Z) :
  (start <= a)%Z -> 0 <= seconds_since start a.
Proof.
  intro H. unfold seconds_since.
  assert (Hq : inject_Z 0 <= inject_Z (a - start)).
  { rewrite <- Zle_Qle. lia. }
  change (inject_Z 0) with 0 in Hq.
  unfold Qdiv. apply Qmult_le_0_compat; [exact Hq | discriminate].
Qed.

End JsFacts.

(** Case analysis on every [Math.max] / [Math.min] of the goal, closed by
    linear arithmetic. *)
Ltac clamp_cases :=
  repeat match goal with
  | |- context [Js.Math_max ?a ?b] =>
      let H := fresh "Hmax" in
      let E := fresh "Emax" in
      destruct (Math_max_cases a b) as [[H E] | [H E]]; rewrite E in *; clear E
  | |- context [Js.Math_min ?a ?b] =>
      let H := fresh "Hmin" in
      let E := fresh "Emin" in
      destruct (Math_min_cases a b) as [[H E] | [H E]]; rewrite E in *; clear E
  | _ : context [Js.Math_max ?a ?b] |- _ =>
      let H := fresh "Hmax" in
      let E := fresh "Emax" in
      destruct (Math_max_cases a b) as [[H E] | [H E]]; rewrite E in *; clear E
  | _ : context [Js.Math_min ?a ?b] |- _ =>
      let H := fresh "Hmin" in
      let E := fresh "Emin" in
      destruct (Math_min_cases a b) as [[H E] | [H E]]; rewrite E in *; clear E
  end.

(** ** The normalisation functions (claim C4) *)

Section Normalisation.

Import Js.

Lemma DbGraph_normalize_range (db : Q) : 0 <= DbGraph.normalize db <= 100.
Proof. unfold DbGraph.normalize. clamp_cases; lra. Qed.

Lemma DbGraph_normalize_mono (a b : Q) :
  a <= b -> DbGraph.normalize a <= DbGraph.normalize b.
Proof. intro H. unfold DbGraph.normalize. clamp_cases; lra. Qed.

Lemma scaled_clamp_mono (a b : Q) :
  a <= b ->
  Math_min 100 (Math_max 0 (a / 80 * 100))
    <= Math_min 100 (Math_max 0 (b / 80 * 100)).
Proof.
  intro H.
  assert (Hs : a / 80 * 100 <= b / 80 * 100).
  { unfold Qdiv. change (/ 80) with (1 # 80). lra. }
  revert Hs. generalize (a / 80 * 100) (b / 80 * 100). intros u v Hs.
  clamp_cases; lra.
Qed.

Lemma scaled_clamp_range (a : Q) :
  inject_Z 0 <= Math_min 100 (Math_max 0 (a / 80 * 100)) <= inject_Z 100.
Proof.
  change (inject_Z 0) with 0. change (inject_Z 100) with 100.
  generalize (a / 80 * 100). intro u.
  clamp_cases; lra.
Qed.

Lemma soundLevelToPercentage_range (level : Q) :
  (0 <= SoundMeter.soundLevelToPercentage level <= 100)%Z.
Proof.
  unfold SoundMeter.soundLevelToPercentage.
  destruct (leb level 0); [lia|].
  apply Math_round_between, scaled_clamp_range.
Qed.

Lemma soundLevelToPercentage_mono (a b : Q) :
  a <= b ->
  (SoundMeter.soundLevelToPercentage a
     <= SoundMeter.soundLevelToPercentage b)%Z.
Proof.
  intro H. unfold SoundMeter.soundLevelToPercentage.
  destruct (leb a 0) eqn:Ea; destruct (leb b 0) eqn:Eb.
  - lia.
  - apply Math_round_between with (hi := 100%Z), scaled_clamp_range.
  - apply leb_gt in Ea. apply leb_le in Eb. lra.
  - now apply Math_round_mono, scaled_clamp_mono.
Qed.

Lemma processAudioData_nonneg (dB : Q) : 0 <= SimGraph.processAudioData dB.
Proof.
  unfold SimGraph.processAudioData, SimGraph.dbOffset. clamp_cases; lra.
Qed.

Lemma processAudioData_mono (a b : Q) :
  a <= b -> SimGraph.processAudioData a <= SimGraph.processAudioData b.
Proof.
  intro H. unfold SimGraph.processAudioData, SimGraph.dbOffset.
  clamp_cases; lra.
Qed.

Lemma processAudioData_lower (dB : Q) :
  dB + 50 <= SimGraph.processAudioData dB.
Proof.
  unfold SimGraph.processAudioData, SimGraph.dbOffset. clamp_cases; lra.
Qed.

Lemma processAudioData_upper (dB : Q) :
  dB <= 0 -> SimGraph.processAudioData dB <= 50.
Proof.
  intro H. unfold SimGraph.processAudioData, SimGraph.dbOffset.
  clamp_cases; lra.
Qed.

End Normalisation.

(** On numbers every normalisation is monotonically non-decreasing and never
    below 0.  The DbGraph clamp and the App.js percentage stay within
    [0, 100].  The simulated graph has no upper clamp: its level is
    [max(0, dB + 50)], which stays within [0, 50] for [dB <= 0], as the
    decibel values of its simulated amplitudes are. *)
Lemma normalisation_on_numbers :
  forall x y : Q,
    x <= y ->
    (DbGraph.normalize x <= DbGraph.normalize y
     /\ 0 <= DbGraph.normalize x <= 100)
    /\ ((SoundMeter.soundLevelToPercentage x
           <= SoundMeter.soundLevelToPercentage y)%Z
        /\ (0 <= SoundMeter.soundLevelToPercentage x <= 100)%Z)
    /\ (SimGraph.processAudioData x <= SimGraph.processAudioData y
        /\ 0 <= SimGraph.processAudioData x
        /\ (x <= 0 -> SimGraph.processAudioData x <= 50)).
Proof.
  intros x y Hxy. repeat split.
  - now apply DbGraph_normalize_mono.
  - apply DbGraph_normalize_range.
  - apply DbGraph_normalize_range.
  - now apply soundLevelToPercentage_mono.
  - apply soundLevelToPercentage_range.
  - apply soundLevelToPercentage_range.
  - now apply processAudioData_mono.
  - apply processAudioData_nonneg.
  - apply processAudioData_upper.
Qed.

(** The clamp of DbGraph.jsx on any decibel value: NaN stays NaN, -Infinity
    becomes 0, and a number is clamped as by [DbGraph.normalize]. *)
Lemma DbGraph_normalizedDB_cases (db : JsNumber) :
  DbGraph_normalizedDB db
  = match db with
    | NaN => NaN
    | MinusInfinity => Num 0
    | Num q => Num (DbGraph.normalize q)
    end.
Proof. destruct db; reflexivity. Qed.

Lemma DbGraph_normalizedDB_level (db : JsNumber) :
  level_or_NaN (DbGraph_normalizedDB db).
Proof.
  rewrite DbGraph_normalizedDB_cases. destruct db; cbn.
  - exact I.
  - lra.
  - apply DbGraph_normalize_range.
Qed.

(** C4 at the audio event with an empty buffer.  The decibel value of an
    empty buffer is NaN, whatever the conversion of mean squares is, and the
    clamp [Math.max(0, Math.min(100, db))] of DbGraph.jsx returns NaN for
    it: the normalised level is no number of [0, 100] and is not at or above
    itself.  The handler stores it as the current level and does not count
    the event as speech; on a session started at 0 the event at 100 ms puts
    a point of level NaN into the window.  NaN is the only value the clamp
    lets leave the scale: -Infinity becomes 0 and a number is clamped into
    [0, 100]. *)
Theorem C4_empty_buffer_level_is_NaN :
  forall (toDecibels : Q -> JsNumber) (duration : Q) (now : Z)
         (s : DbGraphRaw.State),
    let db := DbGraph_db toDecibels [] in
    let s' := DbGraphRaw.onData duration now db s in
    let session :=
      fst (DbGraphRaw.startAudio true Js.Resolved 5 0 DbGraphRaw.initial) in
    DbGraph_normalizedDB db = NaN
    /\ ~ on_scale 0 100 (DbGraph_normalizedDB db)
    /\ JsNum.geb (DbGraph_normalizedDB db) (DbGraph_normalizedDB db) = false
    /\ DbGraphRaw.currentDB s' = NaN
    /\ DbGraphRaw.activeSpeechTimeRef s' = DbGraphRaw.activeSpeechTimeRef s
    /\ map sy (DbGraphRaw.waveformData (DbGraphRaw.onData 5 100 db session))
       = [NaN]
    /\ (forall other : JsNumber,
          match DbGraph_normalizedDB other with
          | NaN => other = NaN
          | MinusInfinity => False
          | Num level => 0 <= level <= 100
          end).
Proof.
  intros toDecibels duration now s db s' session.
  split; [reflexivity|]. split; [intros []|]. split; [reflexivity|].
  split; [reflexivity|]. split; [reflexivity|]. split; [reflexivity|].
  intro other. rewrite DbGraph_normalizedDB_cases. destruct other.
  - reflexivity.
  - lra.
  - apply DbGraph_normalize_range.
Qed.

(** ** Stopping a session (claims C1 and C7) *)

(** A call of [stopAudio] through the latest render: when the active speech
    time is below one second the value returned is exactly 0 whatever the
    running average and the window hold; otherwise the running average is
    returned unchanged.  (For DbGraph.jsx: when the awaited recorder stop
    resolves.) *)
Lemma stopAudio_of_latest_render :
  forall (now : Z) (d : DbGraph.State) (g : SimGraph.State),
    (DbGraph.activeSpeechTimeRef d < 1 ->
       snd (DbGraph.stopAudio Js.Resolved now d) = 0)
    /\ (1 <= DbGraph.activeSpeechTimeRef d ->
       snd (DbGraph.stopAudio Js.Resolved now d) = DbGraph.averageDB d)
    /\ (SimGraph.activeSpeechTimeRef g < 1 ->
       snd (SimGraph.stopAudio now g) = 0)
    /\ (1 <= SimGraph.activeSpeechTimeRef g ->
       snd (SimGraph.stopAudio now g) = SimGraph.averageDB g).
Proof.
  intros now d g. cbn [DbGraph.stopAudio SimGraph.stopAudio snd].
  repeat split; intro H.
  - apply ltb_lt in H. now rewrite H.
  - apply ltb_ge in H. now rewrite H.
  - apply ltb_lt in H. now rewrite H.
  - apply ltb_ge in H. now rewrite H.
Qed.

(** The [stopAudio] of any render does to the state what the one of the
    latest render does, and it is the one of the latest render when the
    captured average is the average of the state. *)
Lemma stopAudio_from_state :
  forall (captured : Q) (stopped : Js.Outcome) (now : Z)
         (d : DbGraph.State) (g : SimGraph.State),
    fst (DbGraph_stopAudio_from captured stopped now d)
    = fst (DbGraph.stopAudio stopped now d)
    /\ fst (SimGraph_stopAudio_from captured now g)
       = fst (SimGraph.stopAudio now g)
    /\ DbGraph_stopAudio_from (DbGraph.averageDB d) stopped now d
       = DbGraph.stopAudio stopped now d
    /\ SimGraph_stopAudio_from (SimGraph.averageDB g) now g
       = SimGraph.stopAudio now g.
Proof.
  intros captured stopped now d g.
  repeat split; try reflexivity; destruct stopped; reflexivity.
Qed.

(** The [stopAudio] of any render returns 0 when the active speech time is
    below one second, and otherwise the average its render captured. *)
Lemma stopAudio_from_reports_captured :
  forall (captured : Q) (now : Z) (d : DbGraph.State) (g : SimGraph.State),
    (DbGraph.activeSpeechTimeRef d < 1 ->
       snd (DbGraph_stopAudio_from captured Js.Resolved now d) = 0)
    /\ (1 <= DbGraph.activeSpeechTimeRef d ->
       snd (DbGraph_stopAudio_from captured Js.Resolved now d) = captured)
    /\ (SimGraph.activeSpeechTimeRef g < 1 ->
       snd (SimGraph_stopAudio_from captured now g) = 0)
    /\ (1 <= SimGraph.activeSpeechTimeRef g ->
       snd (SimGraph_stopAudio_from captured now g) = captured).
Proof.
  intros captured now d g.
  cbn [DbGraph_stopAudio_from SimGraph_stopAudio_from snd].
  repeat split; intro H.
  - apply ltb_lt in H. now rewrite H.
  - apply ltb_ge in H. now rewrite H.
  - apply ltb_lt in H. now rewrite H.
  - apply ltb_ge in H. now rewrite H.
Qed.

(** C1.  The code departs from the claim when a session is ended by the
    auto-stop.  On a DbGraph component of duration 5, after a first session
    that left an average of 30, a second session of twelve events of 50 dB
    has an active speech time of at least one second and a running average
    of 50; the [stopAudio] the timer calls reports 30, the average from
    before the session, where the stop button would return 50.  On the
    simulated graph the second session has a running average of 35 and the
    [stopAudio] of the interval reports 30.  On a fresh DbGraph component
    the same twelve events of 50 dB, ended by the timer, are reported
    as 0, the average the component was mounted with. *)
Theorem C1_auto_stop_reports_average_from_before_session :
  (DbGraph.averageDB DbGraph_first_session == 30
   /\ 1 <= DbGraph.activeSpeechTimeRef DbGraph_second_session
   /\ DbGraph.averageDB DbGraph_second_session == 50
   /\ snd (DbGraph_auto_stopped 5 10000 15000 (steady_events 10000 100 12 50)
             DbGraph_first_session) == 30
   /\ snd (DbGraph.stopAudio Js.Resolved 15000 DbGraph_second_session) == 50)
  /\ (SimGraph.averageDB SimGraph_first_session == 30
      /\ 1 <= SimGraph.activeSpeechTimeRef SimGraph_second_session
      /\ SimGraph.averageDB SimGraph_second_session == 35
      /\ snd (SimGraph_auto_stopped 5 10000 15000
                (steady_events 10000 50 24 (-10)) SimGraph_first_session)
         == 30
      /\ snd (SimGraph.stopAudio 15000 SimGraph_second_session) == 35)
  /\ (let loud := DbGraph_run 5 (steady_events 0 100 12 50) DbGraph_session in
      1 <= DbGraph.activeSpeechTimeRef loud
      /\ DbGraph.averageDB loud == 50
      /\ snd (DbGraph_auto_stopped 5 0 5000 (steady_events 0 100 12 50)
                DbGraph.initial) == 0
      /\ snd (DbGraph.stopAudio Js.Resolved 5000 loud) == 50).
Proof.
  split; [|split]; repeat split; vm_compute; discriminate.
Qed.

(** C7.  A session that is started and stopped with no sample handled in
    between reports final average 0, active speech time 0 and elapsed
    time 0; both calls complete normally. *)
Theorem C7_start_then_stop_without_samples :
  forall (duration : Q) (now now' : Z) (d : DbGraph.State) (g : SimGraph.State),
    (let started := DbGraph.startAudio true Js.Resolved duration now d in
     let stopped := DbGraph.stopAudio Js.Resolved now' (fst started) in
     snd started = true
     /\ snd stopped = 0
     /\ DbGraph.activeSpeechTimeRef (fst stopped) = 0
     /\ DbGraph.time (fst stopped) = 0
     /\ DbGraph.running (fst stopped) = false)
    /\ (let started := SimGraph.startAudio true Js.Resolved duration now g in
     let stopped := SimGraph.stopAudio now' (fst started) in
     snd started = true
     /\ snd stopped = 0
     /\ SimGraph.activeSpeechTimeRef (fst stopped) = 0
     /\ SimGraph.time (fst stopped) = 0
     /\ SimGraph.running (fst stopped) = false).
Proof.
  intros duration now now' d g. split; cbn; repeat split; reflexivity.
Qed.

(** ** Clearing (claim C6) *)

(** C6.  In every state [clearData] empties the window and zeroes the
    accumulated values, so the snapshot taken right after it is all zero,
    and it leaves the [running] flag as it was. *)
Theorem C6_clear_resets_data_keeps_running :
  forall (d : DbGraph.State) (g : SimGraph.State),
    (DbGraph_snapshot (DbGraph.clearData d) = mkSnapshot 0 0 0 0 0
     /\ DbGraph.waveformData (DbGraph.clearData d) = []
     /\ DbGraph.recordingDuration (DbGraph.clearData d) = 0
     /\ DbGraph.running (DbGraph.clearData d) = DbGraph.running d)
    /\ (SimGraph_snapshot (SimGraph.clearData g) = mkSnapshot 0 0 0 0 0
     /\ SimGraph.waveformData (SimGraph.clearData g) = []
     /\ SimGraph.recordingDuration (SimGraph.clearData g) = 0
     /\ SimGraph.running (SimGraph.clearData g) = SimGraph.running g).
Proof.
  intros d g. repeat split.
Qed.

(** ** Starting (claim C9) *)

(** C9, as amended.  [startAudio] does not validate the window duration.
    With permission granted and the recorder started it succeeds for a
    duration that is zero or negative as for any other: it returns [true],
    sets [running], and resets the elapsed and the active speech time
    (DbGraph.jsx also empties the window and leaves the auto-stop timer as
    it was).  The call is refused only when the permission is denied, and
    then the state stays as it was. *)
Theorem C9_start_accepts_any_duration :
  forall (duration : Q) (now : Z) (d : DbGraph.State) (g : SimGraph.State),
    duration <= 0 ->
    (let started := DbGraph.startAudio true Js.Resolved duration now d in
     snd started = true
     /\ DbGraph.running (fst started) = true
     /\ DbGraph.waveformData (fst started) = []
     /\ DbGraph.time (fst started) = 0
     /\ DbGraph.activeSpeechTimeRef (fst started) = 0
     /\ DbGraph.timeoutRef (fst started) = DbGraph.timeoutRef d)
    /\ (let started := SimGraph.startAudio true Js.Resolved duration now g in
     snd started = true
     /\ SimGraph.running (fst started) = true
     /\ SimGraph.time (fst started) = 0
     /\ SimGraph.activeSpeechTimeRef (fst started) = 0)
    /\ (forall started : Js.Outcome,
       DbGraph.startAudio false started duration now d = (d, false)
       /\ SimGraph.startAudio false started duration now g = (g, false)).
Proof.
  intros duration now d g Hd. split; [|split].
  - cbn. repeat split.
    assert (E : Js.gtb duration 0 = false) by now apply ltb_ge.
    rewrite E. now rewrite andb_false_r.
  - cbn. repeat split.
  - intros started. split; reflexivity.
Qed.

Lemma C9_witness :
  -1 <= 0
  /\ snd (DbGraph.startAudio true Js.Resolved (-1) 1000 DbGraph.initial) = true
  /\ DbGraph.running
       (fst (DbGraph.startAudio true Js.Resolved (-1) 1000 DbGraph.initial))
     = true.
Proof.
  assert (H : -1 <= 0) by (vm_compute; discriminate).
  pose proof (C9_start_accepts_any_duration (-1) 1000 DbGraph.initial
                SimGraph.initial H) as [[Hr [Hrun _]] _].
  split; [exact H | split; [exact Hr | exact Hrun]].
Defined.

(** C9, as stated, fails: with a window duration of 0 the call on a fresh
    component succeeds and moves it to the running state. *)
Lemma C9_counterexample :
  0 <= 0
  /\ (snd (DbGraph.startAudio true Js.Resolved 0 1000 DbGraph.initial) = true
      /\ fst (DbGraph.startAudio true Js.Resolved 0 1000 DbGraph.initial)
         <> DbGraph.initial)
  /\ (snd (SimGraph.startAudio true Js.Resolved 0 1000 SimGraph.initial) = true
      /\ fst (SimGraph.startAudio true Js.Resolved 0 1000 SimGraph.initial)
         <> SimGraph.initial).
Proof.
  split; [vm_compute; discriminate|].
  split; (split; [reflexivity | cbn; discriminate]).
Qed.

(** ** Active speech time (claim C5) *)

(** C5, as amended.  A handled sample whose level is strictly above the
    activity threshold (12 in DbGraph.jsx, 10 in the simulated graph) adds a
    fixed nominal tick (0.1 s, resp. 0.05 s) to the active speech time,
    whatever the time elapsed since the previous sample; a sample at or
    below the threshold leaves it unchanged.  The active speech time never
    decreases. *)
Theorem C5_active_time_grows_by_fixed_tick :
  forall (duration : Q) (now : Z) (raw : Q)
         (d : DbGraph.State) (g : SimGraph.State),
    ((12 < DbGraph.normalize raw ->
        DbGraph.activeSpeechTimeRef (DbGraph.onData duration now raw d)
        = DbGraph.activeSpeechTimeRef d + (1 # 10))
     /\ (DbGraph.normalize raw <= 12 ->
        DbGraph.activeSpeechTimeRef (DbGraph.onData duration now raw d)
        = DbGraph.activeSpeechTimeRef d)
     /\ DbGraph.activeSpeechTimeRef d
        <= DbGraph.activeSpeechTimeRef (DbGraph.onData duration now raw d))
    /\
    ((10 < SimGraph.processAudioData raw ->
        SimGraph.activeSpeechTimeRef (SimGraph.pushSample duration now raw g)
        = SimGraph.activeSpeechTimeRef g + (5 # 100))
     /\ (SimGraph.processAudioData raw <= 10 ->
        SimGraph.activeSpeechTimeRef (SimGraph.pushSample duration now raw g)
        = SimGraph.activeSpeechTimeRef g)
     /\ SimGraph.activeSpeechTimeRef g
        <= SimGraph.activeSpeechTimeRef (SimGraph.pushSample duration now raw g)).
Proof.
  intros duration now raw d g.
  cbn [DbGraph.onData DbGraph.activeSpeechTimeRef
       SimGraph.pushSample SimGraph.activeSpeechTimeRef].
  unfold Js.gtb. split; (split; [|split]).
  - intro H. apply ltb_lt in H. now rewrite H.
  - intro H. apply ltb_ge in H. now rewrite H.
  - destruct (Js.ltb 12 (DbGraph.normalize raw)); lra.
  - intro H. apply ltb_lt in H. now rewrite H.
  - intro H. apply ltb_ge in H. now rewrite H.
  - destruct (Js.ltb 10 (SimGraph.processAudioData raw)); lra.
Qed.

Lemma C5_witness :
  (12 < DbGraph.normalize 50 /\ DbGraph.normalize 5 <= 12
   /\ 10 < SimGraph.processAudioData (-10)
   /\ SimGraph.processAudioData (-45) <= 10)
  /\ DbGraph.activeSpeechTimeRef (DbGraph.onData 5 100 50 DbGraph_session)
     = 0 + (1 # 10)
  /\ DbGraph.activeSpeechTimeRef (DbGraph.onData 5 100 5 DbGraph_session) = 0
  /\ SimGraph.activeSpeechTimeRef
       (SimGraph.pushSample 5 100 (-10) (SimGraph_session 5)) = 0 + (5 # 100)
  /\ SimGraph.activeSpeechTimeRef
       (SimGraph.pushSample 5 100 (-45) (SimGraph_session 5)) = 0.
Proof.
  assert (H1 : 12 < DbGraph.normalize 50) by reflexivity.
  assert (H2 : DbGraph.normalize 5 <= 12) by (vm_compute; discriminate).
  assert (H3 : 10 < SimGraph.processAudioData (-10)) by reflexivity.
  assert (H4 : SimGraph.processAudioData (-45) <= 10)
    by (vm_compute; discriminate).
  pose proof (C5_active_time_grows_by_fixed_tick 5 100 50 DbGraph_session
                (SimGraph_session 5)) as [[Ha _] _].
  pose proof (C5_active_time_grows_by_fixed_tick 5 100 5 DbGraph_session
                (SimGraph_session 5)) as [[_ [Hb _]] _].
  pose proof (C5_active_time_grows_by_fixed_tick 5 100 (-10) DbGraph_session
                (SimGraph_session 5)) as [_ [Hc _]].
  pose proof (C5_active_time_grows_by_fixed_tick 5 100 (-45) DbGraph_session
                (SimGraph_session 5)) as [_ [_ [Hd _]]].
  split; [tauto|].
  split; [exact (Ha H1)|]. split; [exact (Hb H2)|].
  split; [exact (Hc H3) | exact (Hd H4)].
Defined.

(** C5, as stated, fails: two loud samples handled 0.1 s and 0.6 s into a
    session leave an active speech time of 0.2 s; the second one added
    0.1 s, not the 0.5 s elapsed since the first. *)
Lemma C5_counterexample :
  12 < DbGraph.currentDB DbGraph_after_100_600
  /\ DbGraph.time DbGraph_after_100_600 - DbGraph.time DbGraph_after_100
     == 5 # 10
  /\ DbGraph.activeSpeechTimeRef DbGraph_after_100_600 == 2 # 10
  /\ ~ DbGraph.activeSpeechTimeRef DbGraph_after_100_600
       == DbGraph.activeSpeechTimeRef DbGraph_after_100
          + (DbGraph.time DbGraph_after_100_600
             - DbGraph.time DbGraph_after_100).
Proof.
  repeat split; vm_compute; discriminate.
Qed.

(** ** Appending to a window *)

Section OutOfOrder.

Import Js.

Lemma since_snoc_kept (from : Q) (points : list Point) (p : Point) :
  from <= px p -> since from (points ++ [p]) = since from points ++ [p].
Proof.
  intro H. unfold since. rewrite filter_app. cbn.
  unfold geb. apply leb_le in H. now rewrite H.
Qed.

Lemma snoc_changes_last (kept older : list Point) (p prev : Point) :
  px p < px prev -> kept ++ [p] <> older ++ [prev].
Proof.
  intros Hlt E. apply app_inj_tail in E. destruct E as [_ E].
  subst prev. lra.
Qed.

Lemma windowStart_le (duration t : Q) :
  0 < duration -> 0 <= t -> DbGraph.windowStart duration t <= t.
Proof.
  intros Hd Ht. unfold DbGraph.windowStart.
  rewrite or_else_nonzero by lra. clamp_cases; lra.
Qed.

End OutOfOrder.

(** ** The running average (claim C3) *)

Section RunningAverage.

Import Js.

Lemma activePoints_In (p : Point) (window : list Point) :
  In p (DbGraph.activePoints window) <-> In p window /\ 8 <= py p.
Proof.
  unfold DbGraph.activePoints. rewrite filter_In. unfold geb.
  now rewrite leb_le.
Qed.

Lemma validPoints_In (p : Point) (window : list Point) :
  In p (SimGraph.validPoints window)
  <-> In p window /\ (py p < 1 \/ 10 < py p).
Proof.
  unfold SimGraph.validPoints. rewrite filter_In, orb_true_iff.
  unfold gtb. now rewrite !ltb_lt.
Qed.

Lemma positive_length {A : Type} (l : list A) :
  (0 <? length l)%nat = true <-> l <> [].
Proof.
  destruct l; cbn; split; intro H; congruence.
Qed.

End RunningAverage.

(** What the two updaters compute, for any level.  In DbGraph.jsx the
    running average after a handled sample is the arithmetic mean of the
    levels of the window samples at or above 8, and it keeps its previous
    value when there is none.  In the simulated graph it is the mean over
    the window samples whose level is below 1 or above 10, and 0 when there
    is none. *)
Lemma running_average_by_formula :
  forall (duration : Q) (now : Z) (raw : Q)
         (d : DbGraph.State) (g : SimGraph.State),
    (let d' := DbGraph.onData duration now raw d in
     let active := DbGraph.activePoints (DbGraph.waveformData d') in
     (forall p, In p active <-> In p (DbGraph.waveformData d') /\ 8 <= py p)
     /\ (active <> [] -> DbGraph.averageDB d' = mean (map py active))
     /\ (active = [] -> DbGraph.averageDB d' = DbGraph.averageDB d))
    /\
    (let g' := SimGraph.pushSample duration now raw g in
     let valid := SimGraph.validPoints (SimGraph.waveformData g') in
     (forall p, In p valid
                <-> In p (SimGraph.waveformData g') /\ (py p < 1 \/ 10 < py p))
     /\ (valid <> [] -> SimGraph.averageDB g' = mean (map py valid))
     /\ (valid = [] -> SimGraph.averageDB g' = 0)).
Proof.
  intros duration now raw d g. split.
  - cbn [DbGraph.onData DbGraph.waveformData DbGraph.averageDB].
    split; [|split].
    + intro p. apply activePoints_In.
    + intro H. apply positive_length in H. rewrite H.
      unfold mean, Js.len. now rewrite length_map.
    + intro H. now rewrite H.
  - cbn [SimGraph.pushSample SimGraph.waveformData SimGraph.averageDB].
    split; [|split].
    + intro p. apply validPoints_In.
    + intro H. apply positive_length in H. rewrite H.
      unfold mean, Js.len. now rewrite length_map.
    + intro H. now rewrite H.
Qed.

Section ReceivableLevels.

Import Js.


Lemma Forall_filter_stays {A : Type} (P : A -> Prop) (f : A -> bool)
    (l : list A) :
  Forall P l -> Forall P (filter f l).
Proof.
  rewrite !Forall_forall. intros H x Hx. apply filter_In in Hx.
  now apply H.
Qed.

(** The level of a decibel value the simulation can draw. *)
Lemma processAudioData_receivable (dB : Q) :
  -20 <= dB <= 0 -> 30 <= SimGraph.processAudioData dB <= 50.
Proof.
  intros [Hlo Hhi].
  unfold SimGraph.processAudioData, SimGraph.dbOffset. clamp_cases; lra.
Qed.


(** The levels in the window of the simulated graph are at least 30 as long
    as the ticks carry decibel values between -20 and 0. *)
Lemma SimGraph_window_levels_receivable (duration : Q)
    (actions : list SimGraph_action) :
  SimGraph_inputs_between (-20) 0 actions ->
  Forall (fun p => 30 <= py p)
         (SimGraph.waveformData (SimGraph_trace duration actions)).
Proof.
  unfold SimGraph_trace, SimGraph_inputs_between.
  assert (H0 : Forall (fun p => 30 <= py p)
                 (SimGraph.waveformData SimGraph.initial)) by constructor.
  revert H0. generalize SimGraph.initial.
  induction actions as [|a actions IH]; intros s Hs Hin; [exact Hs|].
  cbn [fold_left]. inversion Hin as [|a' l' Ha Hl]; subst.
  apply IH; [|exact Hl]. clear IH Hl Hin.
  destruct a as [perm started now | now dB | now |]; cbn in Ha.
  - destruct perm, started; exact Hs.
  - cbn [SimGraph_do]. unfold SimGraph.tick.
    destruct (negb (SimGraph.running s)); [exact Hs|].
    destruct (truthy duration && _); [exact Hs|].
    cbn [SimGraph.pushSample SimGraph.waveformData]. unfold SimGraph.updated.
    apply Forall_filter_stays, Forall_app. split; [exact Hs|].
    constructor; [|constructor]. cbn [py].
    now apply processAudioData_receivable.
  - exact Hs.
  - constructor.
Qed.

End ReceivableLevels.

(** ** The average on any payload *)

Section Payloads.

Import Js.

Lemma filter_map_comm {A B : Type} (e : A -> B) (f : B -> bool)
    (l : list A) :
  filter f (map e l) = map e (filter (fun x => f (e x)) l).
Proof.
  induction l as [|x l IH]; [reflexivity|].
  cbn [map filter]. destruct (f (e x)); cbn [map]; now rewrite IH.
Qed.

Lemma JsNum_sum_of_numbers (l : list Q) (a : Q) :
  fold_left JsNum.add (map Num l) (Num a) = Num (fold_left Qplus l a).
Proof.
  revert a. induction l as [|x l IH]; intro a; [reflexivity|].
  cbn [map fold_left JsNum.add]. apply IH.
Qed.

(** The points that enter the average carry numbers of at least 8: NaN and
    -Infinity are not at or above 8.  They keep what holds of every level
    of the window. *)
Lemma activePoints_are_numbers (P : JsNumber -> Prop) (window : list Sample) :
  Forall (fun p => P (sy p)) window ->
  exists levels : list Q,
    map sy (DbGraphRaw.activePoints window) = map Num levels
    /\ Forall (fun q => 8 <= q /\ P (Num q)) levels.
Proof.
  induction 1 as [|p window Hp Hw [levels [E Hl]]].
  - exists []. split; [reflexivity | constructor].
  - unfold DbGraphRaw.activePoints in *. cbn [filter].
    destruct (sy p) as [| |q] eqn:Ep; cbn [JsNum.geb].
    + exists levels. now split.
    + exists levels. now split.
    + destruct (geb q 8) eqn:Eq.
      * exists (q :: levels). cbn [map]. rewrite Ep, E. split; [reflexivity|].
        constructor; [|exact Hl]. unfold geb in Eq.
        apply leb_le in Eq. now split.
      * exists levels. now split.
Qed.


End Payloads.



(** ** Samples that arrive out of order (claim C8) *)

(** C8, as amended.  The handlers make no ordering check.  A sample whose
    time is strictly less than the time of the newest sample of the window
    is handled like any other: it becomes the newest element of the window,
    behind the earlier samples that are still within the window, and the
    elapsed time is set to its time; so the window and the session state do
    change, and no error is raised. *)
Theorem C8_out_of_order_sample_is_accepted :
  forall (duration : Q) (now : Z) (raw : Q),
    0 < duration ->
    (forall (d : DbGraph.State) (older : list Point) (prev : Point),
       DbGraph.waveformData d = older ++ [prev] ->
       let t := Js.seconds_since (DbGraph.startTimeRef d) now in
       0 <= t ->
       t < px prev ->
       let d' := DbGraph.onData duration now raw d in
       DbGraph.waveformData d'
       = since (DbGraph.windowStart duration t) (DbGraph.waveformData d)
           ++ [mkPoint t (DbGraph.normalize raw)]
       /\ DbGraph.time d' = t
       /\ DbGraph.waveformData d' <> DbGraph.waveformData d)
    /\
    (forall (g : SimGraph.State) (older : list Point) (prev : Point),
       SimGraph.running g = true ->
       SimGraph.waveformData g = older ++ [prev] ->
       let t := Js.seconds_since (SimGraph.startTimeRef g) now in
       t < duration ->
       t < px prev ->
       let g' := SimGraph.tick duration now raw g in
       SimGraph.waveformData g'
       = since (t - duration) (SimGraph.waveformData g)
           ++ [mkPoint t (SimGraph.processAudioData raw)]
       /\ SimGraph.time g' = t
       /\ SimGraph.waveformData g' <> SimGraph.waveformData g).
Proof.
  intros duration now raw Hd. split.
  - intros d older prev Hw t Ht Hlt d'.
    assert (E : DbGraph.waveformData d'
                = since (DbGraph.windowStart duration t) (DbGraph.waveformData d)
                    ++ [mkPoint t (DbGraph.normalize raw)]).
    { subst d'. cbn [DbGraph.onData DbGraph.waveformData].
      unfold DbGraph.filteredForDisplay.
      apply (since_snoc_kept (DbGraph.windowStart duration t)).
      cbn [px]. now apply windowStart_le. }
    split; [exact E|]. split; [reflexivity|].
    rewrite E, Hw. now apply snoc_changes_last.
  - intros g older prev Hrun Hw t Htd Hlt g'.
    assert (Hguard : Js.truthy duration
                     && Js.geb (Js.seconds_since (SimGraph.startTimeRef g) now)
                               duration = false).
    { apply andb_false_iff. right. unfold Js.geb. apply leb_gt. exact Htd. }
    assert (Etick : g' = SimGraph.pushSample duration now raw g).
    { subst g'. unfold SimGraph.tick. now rewrite Hrun, Hguard. }
    assert (E : SimGraph.waveformData g'
                = since (t - duration) (SimGraph.waveformData g)
                    ++ [mkPoint t (SimGraph.processAudioData raw)]).
    { rewrite Etick. cbn [SimGraph.pushSample SimGraph.waveformData].
      unfold SimGraph.updated.
      apply (since_snoc_kept (t - duration)). cbn [px]. lra. }
    split; [exact E|]. split; [now rewrite Etick|].
    rewrite E, Hw. now apply snoc_changes_last.
Qed.

Lemma C8_witness :
  let t := Js.seconds_since (DbGraph.startTimeRef DbGraph_after_2000) 1000 in
  let u := Js.seconds_since (SimGraph.startTimeRef (SimGraph_recording 0 40)) 400 in
  (0 < 5 /\ 0 <= t /\ t < px (DbGraph_point 0 (2000%Z, 50))
   /\ u < 5 /\ u < px (mkPoint (1 # 2) 40))
  /\ DbGraph.time DbGraph_after_2000_1000 = t
  /\ DbGraph.waveformData DbGraph_after_2000_1000
     <> DbGraph.waveformData DbGraph_after_2000
  /\ SimGraph.waveformData (SimGraph.tick 5 400 0 (SimGraph_recording 0 40))
     <> SimGraph.waveformData (SimGraph_recording 0 40).
Proof.
  intros t u.
  assert (H0 : 0 < 5) by reflexivity.
  assert (H1 : 0 <= t) by (vm_compute; discriminate).
  assert (H2 : t < px (DbGraph_point 0 (2000%Z, 50))) by reflexivity.
  assert (H3 : u < 5) by reflexivity.
  assert (H4 : u < px (mkPoint (1 # 2) 40)) by reflexivity.
  pose proof (C8_out_of_order_sample_is_accepted 5 1000 50 H0) as [Hd _].
  pose proof (C8_out_of_order_sample_is_accepted 5 400 0 H0) as [_ Hg].
  specialize (Hd DbGraph_after_2000 [] (DbGraph_point 0 (2000%Z, 50))
                 eq_refl H1 H2).
  specialize (Hg (SimGraph_recording 0 40) [] (mkPoint (1 # 2) 40)
                 eq_refl eq_refl H3 H4).
  destruct Hd as [_ [Hd1 Hd2]]. destruct Hg as [_ [_ Hg2]].
  split; [tauto|].
  split; [exact Hd1|]. split; [exact Hd2 | exact Hg2].
Defined.

(** C8, as stated, fails: after a sample handled 2 s into a session, a
    sample handled at 1 s is not dropped; the window grows from one to two
    points and the elapsed time goes back to 1 s. *)
Lemma C8_counterexample :
  DbGraph.time DbGraph_after_2000_1000 < DbGraph.time DbGraph_after_2000
  /\ DbGraph.waveformData DbGraph_after_2000
     = [DbGraph_point 0 (2000%Z, 50)]
  /\ DbGraph.waveformData DbGraph_after_2000_1000
     = [DbGraph_point 0 (2000%Z, 50); DbGraph_point 0 (1000%Z, 50)]
  /\ DbGraph.waveformData DbGraph_after_2000_1000
     <> DbGraph.waveformData DbGraph_after_2000
  /\ DbGraph_after_2000_1000 <> DbGraph_after_2000.
Proof.
  split; [reflexivity|]. split; [reflexivity|]. split; [reflexivity|].
  split.
  - vm_compute. discriminate.
  - intro E. apply (f_equal DbGraph.waveformData) in E.
    vm_compute in E. discriminate.
Qed.

(** ** The sliding window (claim C2) *)

Section TrailingWindow.

Import Js.

Lemma since_app (a : Q) (front back : list Point) :
  since a (front ++ back) = since a front ++ since a back.
Proof. apply filter_app. Qed.

(** Two successive evictions amount to the later one. *)
Lemma since_since (a b : Q) (points : list Point) :
  b <= a -> since a (since b points) = since a points.
Proof.
  intro H. unfold since. induction points as [|p points IH]; [reflexivity|].
  cbn. destruct (geb (px p) b) eqn:Eb.
  - cbn. now rewrite IH.
  - rewrite IH. destruct (geb (px p) a) eqn:Ea; [|reflexivity].
    unfold geb in *. apply leb_le in Ea. apply leb_gt in Eb. lra.
Qed.

(** Clamping the window start at 0 changes nothing for session times. *)
Lemma since_clamped (a : Q) (points : list Point) :
  Forall (fun p => 0 <= px p) points ->
  since (Math_max 0 a) points = since a points.
Proof.
  intro H. unfold since. apply filter_ext_in. intros p Hp.
  rewrite Forall_forall in H. specialize (H p Hp). unfold geb.
  destruct (Math_max_cases 0 a) as [[Ha E] | [Ha E]]; rewrite E;
    [reflexivity|].
  assert (E0 : leb 0 (px p) = true) by now apply leb_le.
  assert (Ea : leb a (px p) = true) by (apply leb_le; lra).
  now rewrite E0, Ea.
Qed.

Lemma StronglySorted_snoc {A : Type} (R : A -> A -> Prop)
    (l : list A) (a : A) :
  StronglySorted R (l ++ [a]) ->
  StronglySorted R l /\ Forall (fun x => R x a) l.
Proof.
  induction l as [|x l IH]; cbn; intro H.
  - split; constructor.
  - apply StronglySorted_inv in H. destruct H as [Hs Hx].
    destruct (IH Hs) as [Hl Ha]. apply Forall_app in Hx.
    destruct Hx as [Hxl Hxa]. split.
    + now constructor.
    + constructor; [now inversion Hxa | exact Ha].
Qed.

Variable windowStart : Q -> Q.
Hypothesis windowStart_mono :
  forall a b : Q, a <= b -> windowStart a <= windowStart b.

(** Appending each point and evicting from its window start, one point
    after the other, leaves the points that are within the window of the
    last one. *)
Lemma fold_since (points : list Point) (p : Point) :
  StronglySorted (fun a b => px a <= px b) (points ++ [p]) ->
  fold_left (fun w q => since (windowStart (px q)) (w ++ [q]))
            (points ++ [p]) []
  = since (windowStart (px p)) (points ++ [p]).
Proof.
  revert p. induction points as [|q points IH] using rev_ind; intros p Hs.
  - reflexivity.
  - rewrite fold_left_app. cbn [fold_left].
    apply StronglySorted_snoc in Hs. destruct Hs as [Hs Hle].
    rewrite (IH q Hs).
    assert (Hq : px q <= px p).
    { rewrite Forall_forall in Hle. apply Hle, in_or_app. right. now left. }
    rewrite since_app, since_since by now apply windowStart_mono.
    now rewrite <- since_app.
Qed.

End TrailingWindow.

Section Sessions.

Import Js.

Variable start : Z.

(** The points built from events whose clock readings never decrease are
    in time order, and their times are not negative when no reading is
    before the start of the session. *)
Lemma points_sorted (mk : Event -> Point) (events : list Event) :
  (forall e, px (mk e) = seconds_since start (fst e)) ->
  StronglySorted Z.le (map fst events) ->
  StronglySorted (fun a b => px a <= px b) (map mk events).
Proof.
  intros Hmk. induction events as [|e events IH]; cbn; intro H.
  - constructor.
  - apply StronglySorted_inv in H. destruct H as [Hs He].
    constructor; [now apply IH|].
    rewrite Forall_map in *. rewrite Forall_forall in *.
    intros e' He'. rewrite !Hmk. apply seconds_since_mono. now apply He.
Qed.

Lemma points_nonneg (mk : Event -> Point) (events : list Event) :
  (forall e, px (mk e) = seconds_since start (fst e)) ->
  Forall (fun e => (start <= fst e)%Z) events ->
  Forall (fun p => 0 <= px p) (map mk events).
Proof.
  intros Hmk H. rewrite Forall_map. rewrite Forall_forall in *.
  intros e He. rewrite Hmk. now apply seconds_since_nonneg, H.
Qed.

(** The window of each component after a run, as a fold over the points. *)
Lemma DbGraph_run_window (duration : Q) (events : list Event)
    (d : DbGraph.State) :
  DbGraph.startTimeRef d = start ->
  DbGraph.waveformData (DbGraph_run duration events d)
  = fold_left (fun w q => since (DbGraph.windowStart duration (px q)) (w ++ [q]))
              (map (DbGraph_point start) events) (DbGraph.waveformData d).
Proof.
  unfold DbGraph_run. revert d.
  induction events as [|e events IH]; intros d Hd; [reflexivity|].
  cbn [fold_left map].
  rewrite IH by exact Hd. cbn [DbGraph.onData DbGraph.waveformData].
  now rewrite Hd.
Qed.

Lemma SimGraph_run_window (duration : Q) (events : list Event)
    (g : SimGraph.State) :
  SimGraph.startTimeRef g = start ->
  SimGraph.waveformData (SimGraph_run duration events g)
  = fold_left (fun w q => since (px q - duration) (w ++ [q]))
              (map (SimGraph_point start) events) (SimGraph.waveformData g).
Proof.
  unfold SimGraph_run. revert g.
  induction events as [|e events IH]; intros g Hg; [reflexivity|].
  cbn [fold_left map].
  rewrite IH by exact Hg. cbn [SimGraph.pushSample SimGraph.waveformData].
  now rewrite Hg.
Qed.

Lemma SimpleDBGraph_run_window (duration : Q) (events : list Event)
    (b : SimpleDBGraph.State) :
  SimpleDBGraph.startTimeRef b = start ->
  SimpleDBGraph.waveformData (SimpleDBGraph_run duration events b)
  = fold_left (fun w q => since (Math_max 0 (px q - duration)) (w ++ [q]))
              (map (SimpleDBGraph_point start) events)
              (SimpleDBGraph.waveformData b).
Proof.
  unfold SimpleDBGraph_run. revert b.
  induction events as [|e events IH]; intros b Hb; [reflexivity|].
  cbn [fold_left map].
  rewrite IH by exact Hb. cbn [SimpleDBGraph.tick SimpleDBGraph.waveformData].
  now rewrite Hb.
Qed.

End Sessions.

Section WindowStarts.

Import Js.

Lemma DbGraph_windowStart_mono (duration a b : Q) :
  a <= b -> DbGraph.windowStart duration a <= DbGraph.windowStart duration b.
Proof.
  intro H. unfold DbGraph.windowStart.
  generalize (or_else duration 30). intro w. clamp_cases; lra.
Qed.

Lemma clamped_start_mono (duration a b : Q) :
  a <= b -> Math_max 0 (a - duration) <= Math_max 0 (b - duration).
Proof. intro H. clamp_cases; lra. Qed.

Lemma plain_start_mono (duration a b : Q) :
  a <= b -> a - duration <= b - duration.
Proof. intro H. lra. Qed.

End WindowStarts.

(** C2.  For a window duration greater than 0 and a sequence of samples
    whose times never decrease (and are not before the start of the
    session), the window after the last push holds exactly the pushed
    samples whose time is at least the time of the last one minus the
    window duration, in their order of arrival; the boundary is inclusive.
    This holds for DbGraph.jsx, for the simulated graph and for
    SimpleDBGraph, and, the sequence being arbitrary, after each push. *)
Theorem C2_window_holds_trailing_duration :
  forall (duration : Q) (start : Z) (events : list Event) (last : Event),
    0 < duration ->
    StronglySorted Z.le (map fst (events ++ [last])) ->
    Forall (fun e => (start <= fst e)%Z) (events ++ [last]) ->
    let from := Js.seconds_since start (fst last) - duration in
    (forall d : DbGraph.State,
       DbGraph.waveformData d = [] ->
       DbGraph.startTimeRef d = start ->
       DbGraph.waveformData (DbGraph_run duration (events ++ [last]) d)
       = since from (map (DbGraph_point start) (events ++ [last])))
    /\ (forall g : SimGraph.State,
       SimGraph.waveformData g = [] ->
       SimGraph.startTimeRef g = start ->
       SimGraph.waveformData (SimGraph_run duration (events ++ [last]) g)
       = since from (map (SimGraph_point start) (events ++ [last])))
    /\ (forall b : SimpleDBGraph.State,
       SimpleDBGraph.waveformData b = [] ->
       SimpleDBGraph.startTimeRef b = start ->
       SimpleDBGraph.waveformData
         (SimpleDBGraph_run duration (events ++ [last]) b)
       = since from (map (SimpleDBGraph_point start) (events ++ [last]))).
Proof.
  intros duration start events last Hd Hsorted Hstart from.
  split; [|split].
  - intros d Hw Hs.
    rewrite (DbGraph_run_window start) by exact Hs. rewrite Hw.
    pose proof (points_sorted start (DbGraph_point start) (events ++ [last])
                  (fun e => eq_refl) Hsorted) as Hp.
    pose proof (points_nonneg start (DbGraph_point start) (events ++ [last])
                  (fun e => eq_refl) Hstart) as Hn.
    rewrite map_app in *. cbn [map] in *.
    rewrite (fold_since (DbGraph.windowStart duration)
               (DbGraph_windowStart_mono duration) _ _ Hp).
    unfold DbGraph.windowStart. rewrite or_else_nonzero by lra.
    now apply since_clamped.
  - intros g Hw Hs.
    rewrite (SimGraph_run_window start) by exact Hs. rewrite Hw.
    pose proof (points_sorted start (SimGraph_point start) (events ++ [last])
                  (fun e => eq_refl) Hsorted) as Hp.
    rewrite map_app in *. cbn [map] in *.
    now rewrite (fold_since (fun t => t - duration)
                   (plain_start_mono duration) _ _ Hp).
  - intros b Hw Hs.
    rewrite (SimpleDBGraph_run_window start) by exact Hs. rewrite Hw.
    pose proof (points_sorted start (SimpleDBGraph_point start)
                  (events ++ [last]) (fun e => eq_refl) Hsorted) as Hp.
    pose proof (points_nonneg start (SimpleDBGraph_point start)
                  (events ++ [last]) (fun e => eq_refl) Hstart) as Hn.
    rewrite map_app in *. cbn [map] in *.
    rewrite (fold_since (fun t => Js.Math_max 0 (t - duration))
               (clamped_start_mono duration) _ _ Hp).
    now apply since_clamped.
Qed.

Lemma C2_witness :
  let events : list Event := [(0%Z, 50); (500%Z, 60); (1000%Z, 5)] in
  let last : Event := (6000%Z, 70) in
  (0 < 5
   /\ StronglySorted Z.le (map fst (events ++ [last]))
   /\ Forall (fun e => (0 <= fst e)%Z) (events ++ [last]))
  /\ DbGraph.waveformData (DbGraph_run 5 (events ++ [last]) DbGraph_session)
     = since (Js.seconds_since 0 (fst last) - 5)
             (map (DbGraph_point 0) (events ++ [last]))
  /\ since (Js.seconds_since 0 (fst last) - 5)
           (map (DbGraph_point 0) (events ++ [last]))
     = [DbGraph_point 0 (1000%Z, 5); DbGraph_point 0 last].
Proof.
  intros events last.
  assert (H0 : 0 < 5) by reflexivity.
  assert (H1 : StronglySorted Z.le (map fst (events ++ [last])))
    by (repeat constructor; cbn; lia).
  assert (H2 : Forall (fun e => (0 <= fst e)%Z) (events ++ [last]))
    by (repeat constructor; cbn; lia).
  pose proof (C2_window_holds_trailing_duration 5 0 events last H0 H1 H2)
    as [Hd _].
  split; [exact (conj H0 (conj H1 H2))|].
  split; [exact (Hd DbGraph_session eq_refl eq_refl) | reflexivity].
Defined.

(** ** The App.js meter: a history of 50 readings (claim C10) *)

Section History.

Import Js.

Lemma lastn_short {A : Type} (n : nat) (l : list A) :
  (length l <= n)%nat -> lastn n l = l.
Proof.
  intro H. unfold lastn. now replace (length l - n)%nat with 0%nat by lia.
Qed.

Lemma lastn_length {A : Type} (n : nat) (l : list A) :
  length (lastn n l) = Nat.min n (length l).
Proof. unfold lastn. rewrite length_skipn. lia. Qed.

Lemma lastn_In {A : Type} (n : nat) (l : list A) (x : A) :
  In x (lastn n l) -> In x l.
Proof.
  unfold lastn. intro H. rewrite <- (firstn_skipn (length l - n) l).
  apply in_or_app. now right.
Qed.

(** Appending a reading and shifting once when more than 50 are held
    keeps the last 50 of all readings. *)
Lemma newHistory_lastn (p : Z) (readings : list Z) :
  SoundMeter.newHistory p (lastn 50 readings) = lastn 50 (readings ++ [p]).
Proof.
  unfold SoundMeter.newHistory.
  rewrite length_app, lastn_length. cbn [length].
  destruct (Nat.le_gt_cases 50 (length readings)) as [Hlong | Hshort].
  - replace (50 <? Nat.min 50 (length readings) + 1)%nat with true
      by (symmetry; apply Nat.ltb_lt; lia).
    unfold lastn. rewrite length_app. cbn [length].
    replace (length readings + 1 - 50)%nat
      with (1 + (length readings - 50))%nat by lia.
    rewrite <- skipn_skipn. rewrite skipn_app.
    replace (length readings - 50 - length readings)%nat with 0%nat by lia.
    reflexivity.
  - replace (50 <? Nat.min 50 (length readings) + 1)%nat with false
      by (symmetry; apply Nat.ltb_ge; lia).
    rewrite !lastn_short; [reflexivity | | lia].
    rewrite length_app. cbn [length]. lia.
Qed.

Lemma fold_add_shift (l : list Z) (a : Z) :
  fold_left Z.add l a = (a + fold_left Z.add l 0)%Z.
Proof.
  revert a. induction l as [|x l IH]; intro a; cbn.
  - lia.
  - rewrite (IH (a + x)%Z), (IH x). lia.
Qed.

Lemma total_bounds (l : list Z) :
  Forall (fun x => 0 <= x <= 100)%Z l ->
  (0 <= SoundMeter.total l <= 100 * Z.of_nat (length l))%Z.
Proof.
  unfold SoundMeter.total. induction 1 as [|x l Hx Hl IH].
  - cbn. lia.
  - cbn [fold_left length]. rewrite fold_add_shift. lia.
Qed.

Lemma fold_plus_inject (l : list Z) (a : Z) :
  fold_left Qplus (map inject_Z l) (inject_Z a)
  = inject_Z (fold_left Z.add l a).
Proof.
  revert a. induction l as [|x l IH]; intro a; cbn; [reflexivity|].
  now rewrite <- inject_Z_plus, IH.
Qed.

(** The average of the source is the arithmetic mean of the readings. *)
Lemma average_is_mean (history : list Z) :
  SoundMeter.average history = mean (map inject_Z history).
Proof.
  unfold SoundMeter.average, mean, sum, len, SoundMeter.total.
  rewrite length_map. change 0 with (inject_Z 0).
  now rewrite fold_plus_inject.
Qed.

Lemma average_range (history : list Z) :
  history <> [] ->
  Forall (fun x => 0 <= x <= 100)%Z history ->
  inject_Z 0 <= SoundMeter.average history <= inject_Z 100.
Proof.
  intros Hne Hall. apply total_bounds in Hall. destruct Hall as [Hlo Hhi].
  assert (Hlen : (0 < Z.of_nat (length history))%Z)
    by (destruct history; [congruence | cbn [length]; lia]).
  rewrite Zlt_Qlt in Hlen. rewrite Zle_Qle in Hlo, Hhi.
  rewrite inject_Z_mult in Hhi.
  unfold SoundMeter.average, len. split.
  - apply Qle_shift_div_l; [exact Hlen|].
    change (inject_Z 0) with 0 in *. lra.
  - apply Qle_shift_div_r; [exact Hlen | exact Hhi].
Qed.

Lemma SoundMeter_run_history (frames : list SoundMeter.Frame)
    (s : SoundMeter.State) :
  SoundMeter.decibelHistory s = [] ->
  SoundMeter.decibelHistory (SoundMeter_run frames s)
  = lastn 50 (map SoundMeter_reading frames).
Proof.
  intro Hs. unfold SoundMeter_run.
  induction frames as [|f frames IH] using rev_ind.
  - cbn. now rewrite Hs.
  - rewrite fold_left_app, map_app. cbn [fold_left map].
    cbn [SoundMeter.onNewFrame SoundMeter.decibelHistory].
    rewrite IH. apply newHistory_lastn.
Qed.

End History.

(** C10.  After every sound-level frame of a monitoring session the history
    holds the last 50 readings at most (the older ones are dropped from the
    front), the average shown is the rounded arithmetic mean of exactly the
    readings held, and it lies between 0 and 100. *)
Theorem C10_history_keeps_last_50_readings :
  forall (frames : list SoundMeter.Frame) (data : SoundMeter.Frame)
         (s : SoundMeter.State),
    SoundMeter.decibelHistory s = [] ->
    let s' := SoundMeter_run (frames ++ [data]) s in
    let history := SoundMeter.decibelHistory s' in
    history = lastn 50 (map SoundMeter_reading (frames ++ [data]))
    /\ (length history <= 50)%nat
    /\ SoundMeter.averageDecibels s'
       = Js.Math_round (mean (map inject_Z history))
    /\ (0 <= SoundMeter.averageDecibels s' <= 100)%Z.
Proof.
  intros frames data s Hs s' history.
  assert (Hh : history = lastn 50 (map SoundMeter_reading (frames ++ [data])))
    by (apply SoundMeter_run_history; exact Hs).
  assert (Ha : SoundMeter.averageDecibels s'
               = Js.Math_round (SoundMeter.average history)).
  { subst history s'. unfold SoundMeter_run. rewrite fold_left_app.
    reflexivity. }
  split; [exact Hh|]. split; [|split].
  - rewrite Hh, lastn_length. lia.
  - now rewrite Ha, average_is_mean.
  - rewrite Ha. apply Math_round_between, average_range.
    + intro E. apply (f_equal (@length Z)) in E.
      rewrite Hh, lastn_length, length_map, length_app in E.
      cbn [length] in E. lia.
    + rewrite Hh. apply Forall_forall. intros x Hx.
      apply lastn_In, in_map_iff in Hx. destruct Hx as [f [<- _]].
      apply soundLevelToPercentage_range.
Qed.

Lemma C10_witness :
  let quiet := SoundMeter.mkFrame (Some 8) (Some (-40)) in
  let loud := SoundMeter.mkFrame (Some 72) (Some (-5)) in
  let s := SoundMeter.startRecording
             {| SoundMeter.isRecording := false;
                SoundMeter.currentDecibels := 0;
                SoundMeter.averageDecibels := 0;
                SoundMeter.hasPermission := true;
                SoundMeter.decibelHistory := [3; 4]%Z;
                SoundMeter.rawSoundLevel := 0 |} in
  SoundMeter.decibelHistory s = []
  /\ SoundMeter.decibelHistory
       (SoundMeter_run (repeat quiet 50 ++ [loud]) s)
     = (repeat 10 49 ++ [90])%Z
  /\ SoundMeter.averageDecibels
       (SoundMeter_run (repeat quiet 50 ++ [loud]) s) = 12%Z.
Proof.
  intros quiet loud s.
  assert (H : SoundMeter.decibelHistory s = []) by reflexivity.
  pose proof (C10_history_keeps_last_50_readings (repeat quiet 50) loud s H)
    as [Hh [_ [Ha _]]].
  split; [exact H|]. split.
  - rewrite Hh. reflexivity.
  - rewrite Ha. reflexivity.
Defined.

(** * Further properties of the components *)

(** ** Means and sums *)

Section Means.

Import Js.

Lemma len_cons {A : Type} (x : A) (l : list A) : len (x :: l) == len l + 1.
Proof.
  unfold len. cbn [length]. rewrite Nat2Z.inj_succ, <- Z.add_1_r.
  rewrite inject_Z_plus. reflexivity.
Qed.

Lemma len_nonneg {A : Type} (l : list A) : 0 <= len l.
Proof.
  unfold len. change 0 with (inject_Z 0). rewrite <- Zle_Qle. lia.
Qed.

Lemma len_pos {A : Type} (l : list A) : l <> [] -> 0 < len l.
Proof.
  intro H. unfold len. change 0 with (inject_Z 0). rewrite <- Zlt_Qlt.
  destruct l; [congruence | cbn [length]; lia].
Qed.

Lemma fold_plus_bounds (lo hi : Q) (l : list Q) :
  Forall (fun x => lo <= x <= hi) l ->
  forall a : Q,
    a + lo * len l <= fold_left Qplus l a <= a + hi * len l.
Proof.
  induction 1 as [|x l Hx Hl IH]; intro a.
  - cbn. unfold len. cbn. change (inject_Z 0) with 0. lra.
  - cbn [fold_left]. specialize (IH (a + x)).
    rewrite (len_cons x l).
    setoid_replace (lo * (len l + 1)) with (lo * len l + lo) by ring.
    setoid_replace (hi * (len l + 1)) with (hi * len l + hi) by ring.
    generalize dependent (lo * len l). generalize (hi * len l).
    intros u v IH. lra.
Qed.

(** A mean lies between any two bounds of the values. *)
Lemma mean_bounds (lo hi : Q) (l : list Q) :
  l <> [] ->
  Forall (fun x => lo <= x <= hi) l ->
  lo <= mean l <= hi.
Proof.
  intros Hne Hall. pose proof (len_pos l Hne) as Hlen.
  pose proof (fold_plus_bounds lo hi l Hall 0) as [Hlo Hhi].
  unfold mean, sum. split.
  - apply Qle_shift_div_l; [exact Hlen | lra].
  - apply Qle_shift_div_r; [exact Hlen | lra].
Qed.

End Means.

(** ** Values stay on the display scale *)

Section Bounded.

Import Js.

Lemma mean_of_levels_bounds (lo hi : Q) (points : list Point) :
  points <> [] ->
  Forall (fun p => lo <= py p <= hi) points ->
  lo <= sum (map py points) / len points <= hi.
Proof.
  intros Hne Hall.
  assert (E : sum (map py points) / len points = mean (map py points)).
  { unfold mean, len. now rewrite length_map. }
  rewrite E. apply mean_bounds.
  - destruct points; [congruence | discriminate].
  - now rewrite Forall_map.
Qed.

Lemma SimGraph_do_bounded (duration : Q) (s : SimGraph.State)
    (a : SimGraph_action) :
  match SimGraph_input a with Some dB => dB <= 0 | None => True end ->
  SimGraph_bounded 50 s -> SimGraph_bounded 50 (SimGraph_do duration s a).
Proof.
  intros Hin (Ha & Hc & Ht & Hw).
  destruct a as [perm started now | now dB | now |]; cbn in Hin.
  - destruct perm, started; cbn; unfold SimGraph_bounded; cbn;
      repeat split; try tauto; lra.
  - cbn [SimGraph_do]. unfold SimGraph.tick.
    destruct (negb (SimGraph.running s)); [now repeat split|].
    destruct (truthy duration && _).
    + cbn. unfold SimGraph_bounded. cbn. repeat split; try tauto;
        destruct (ltb (SimGraph.activeSpeechTimeRef s) 1); lra.
    + pose proof (processAudioData_nonneg dB) as Hlo.
      pose proof (processAudioData_upper dB Hin) as Hhi.
      unfold SimGraph_bounded.
      cbn [SimGraph.pushSample SimGraph.averageDB SimGraph.currentDB
           SimGraph.activeSpeechTimeRef SimGraph.waveformData].
      assert (Hw' : Forall (fun p => 0 <= py p <= 50)
                      (SimGraph.updated duration
                         (seconds_since (SimGraph.startTimeRef s) now)
                         (mkPoint (seconds_since (SimGraph.startTimeRef s) now)
                                  (SimGraph.processAudioData dB))
                         (SimGraph.waveformData s))).
      { unfold SimGraph.updated. apply Forall_filter_stays.
        apply Forall_app. split; [exact Hw|].
        constructor; [now split | constructor]. }
      split; [|split; [|split; [|exact Hw']]].
      * destruct (0 <? length _)%nat eqn:E; [|lra].
        apply positive_length in E.
        apply mean_of_levels_bounds; [exact E|].
        unfold SimGraph.validPoints. now apply Forall_filter_stays.
      * destruct (_ || _); [now split | exact Hc].
      * destruct (gtb (SimGraph.processAudioData dB) 10); lra.
  - cbn. unfold SimGraph_bounded. cbn. repeat split; try tauto;
      destruct (ltb (SimGraph.activeSpeechTimeRef s) 1); lra.
  - unfold SimGraph_bounded. cbn. repeat split; try lra. constructor.
Qed.

End Bounded.

Section AnyPayload.

Import Js.

Lemma DbGraphRaw_average_on_scale (window : list Sample) :
  Forall (fun p => level_or_NaN (sy p)) window ->
  DbGraphRaw.activePoints window <> [] ->
  on_scale 0 100
    (JsNum.over (DbGraphRaw.sum (DbGraphRaw.activePoints window))
                (len (DbGraphRaw.activePoints window))).
Proof.
  intros Hw Hne.
  destruct (activePoints_are_numbers level_or_NaN window Hw)
    as [levels [E Hl]].
  assert (Elen : len (DbGraphRaw.activePoints window) = len levels).
  { unfold len. f_equal. f_equal.
    rewrite <- (length_map sy), E. apply length_map. }
  unfold DbGraphRaw.sum. rewrite E, JsNum_sum_of_numbers, Elen.
  cbn [JsNum.over on_scale].
  assert (Hne' : levels <> []).
  { intro H0. subst levels. cbn in E. apply map_eq_nil in E. contradiction. }
  assert (Hl' : Forall (fun q => 8 <= q <= 100) levels).
  { eapply Forall_impl; [|exact Hl]. cbn. intros q [H8 [_ H100]]. now split. }
  pose proof (mean_bounds 8 100 levels Hne' Hl') as Hm.
  unfold mean, sum in Hm. lra.
Qed.

Lemma DbGraphRaw_onData_bounded (duration : Q) (now : Z) (db : JsNumber)
    (s : DbGraphRaw.State) :
  DbGraphRaw_bounded s ->
  DbGraphRaw_bounded (DbGraphRaw.onData duration now db s).
Proof.
  intros (Ha & Hc & Ht & Hw). unfold DbGraphRaw_bounded.
  cbn [DbGraphRaw.onData DbGraphRaw.averageDB DbGraphRaw.currentDB
       DbGraphRaw.activeSpeechTimeRef DbGraphRaw.waveformData].
  pose proof (DbGraph_normalizedDB_level db) as Hn.
  assert (Hw' : Forall (fun p => level_or_NaN (sy p))
                  (DbGraphRaw.filteredForDisplay duration
                     (seconds_since (DbGraphRaw.startTimeRef s) now)
                     (mkSample (seconds_since (DbGraphRaw.startTimeRef s) now)
                               (DbGraph_normalizedDB db))
                     (DbGraphRaw.waveformData s))).
  { unfold DbGraphRaw.filteredForDisplay. apply Forall_filter_stays.
    apply Forall_app. split; [exact Hw|]. constructor; [exact Hn|constructor]. }
  split; [|split; [exact Hn|split; [|exact Hw']]].
  - destruct (0 <? length _)%nat eqn:E; [|exact Ha].
    apply positive_length in E.
    now apply DbGraphRaw_average_on_scale.
  - destruct (JsNum.gtb (DbGraph_normalizedDB db) (Num 12)); lra.
Qed.

Lemma DbGraphRaw_do_bounded (duration : Q) (s : DbGraphRaw.State)
    (a : DbGraphRaw_action) :
  DbGraphRaw_bounded s -> DbGraphRaw_bounded (DbGraphRaw_do duration s a).
Proof.
  intros H. destruct a as [perm started now | now db | captured stopped now |].
  - destruct H as (Ha & Hc & Ht & Hw).
    destruct perm, started; cbn; unfold DbGraphRaw_bounded; cbn;
      repeat split; try tauto; try lra; try constructor.
  - now apply DbGraphRaw_onData_bounded.
  - destruct H as (Ha & Hc & Ht & Hw).
    destruct stopped; cbn; unfold DbGraphRaw_bounded; cbn;
      repeat split; try tauto;
      destruct (ltb (DbGraphRaw.activeSpeechTimeRef s) 1); cbn;
      try tauto; lra.
  - unfold DbGraphRaw_bounded. cbn. repeat split; try lra. constructor.
Qed.

(** On an event whose buffer is not empty the handler on any payload is the
    handler of [DbGraph]. *)
Lemma DbGraphRaw_onData_of_numbers (duration : Q) (now : Z) (db : Q)
    (s : DbGraph.State) :
  DbGraphRaw.onData duration now (Num db) (DbGraphRaw.of_numbers s)
  = DbGraphRaw.of_numbers (DbGraph.onData duration now db s).
Proof.
  set (e := fun p => mkSample (px p) (Num (py p))).
  assert (Ew : DbGraphRaw.filteredForDisplay duration
                 (seconds_since (DbGraph.startTimeRef s) now)
                 (mkSample (seconds_since (DbGraph.startTimeRef s) now)
                           (Num (DbGraph.normalize db)))
                 (map e (DbGraph.waveformData s))
               = map e (DbGraph.filteredForDisplay duration
                          (seconds_since (DbGraph.startTimeRef s) now)
                          (mkPoint (seconds_since (DbGraph.startTimeRef s) now)
                                   (DbGraph.normalize db))
                          (DbGraph.waveformData s))).
  { unfold DbGraphRaw.filteredForDisplay, DbGraph.filteredForDisplay.
    change [mkSample (seconds_since (DbGraph.startTimeRef s) now)
                     (Num (DbGraph.normalize db))]
      with (map e [mkPoint (seconds_since (DbGraph.startTimeRef s) now)
                           (DbGraph.normalize db)]).
    rewrite <- map_app. apply filter_map_comm. }
  assert (Ea : forall window : list Point,
             DbGraphRaw.activePoints (map e window)
             = map e (DbGraph.activePoints window)).
  { intro window. unfold DbGraphRaw.activePoints, DbGraph.activePoints.
    apply filter_map_comm. }
  assert (Es : forall points : list Point,
             DbGraphRaw.sum (map e points) = Num (sum (map py points))).
  { intro points. unfold DbGraphRaw.sum, sum.
    rewrite map_map. cbn [sy e]. rewrite <- (map_map py Num).
    apply JsNum_sum_of_numbers. }
  unfold DbGraphRaw.onData, DbGraph.onData, DbGraphRaw.of_numbers.
  cbn [DbGraph.waveformData DbGraph.running DbGraph.time DbGraph.averageDB
       DbGraph.currentDB DbGraph.recordingDuration DbGraph.isPaused
       DbGraph.startTimeRef DbGraph.timeoutRef DbGraph.activeSpeechTimeRef
       DbGraphRaw.waveformData DbGraphRaw.running DbGraphRaw.time
       DbGraphRaw.averageDB DbGraphRaw.currentDB
       DbGraphRaw.recordingDuration DbGraphRaw.isPaused
       DbGraphRaw.startTimeRef DbGraphRaw.timeoutRef
       DbGraphRaw.activeSpeechTimeRef].
  change (DbGraph_normalizedDB (Num db)) with (Num (DbGraph.normalize db)).
  fold e. rewrite Ew, Ea, Es. unfold len. rewrite !length_map.
  cbn [JsNum.over JsNum.gtb].
  destruct (0 <? length _)%nat; reflexivity.
Qed.

(** Every handler of [DbGraph] is the handler on any payload at a number. *)
Lemma DbGraphRaw_do_of_numbers (duration : Q) (s : DbGraph.State)
    (a : DbGraph_action) :
  DbGraphRaw_do duration (DbGraphRaw.of_numbers s) (DbGraphRaw_of_action a)
  = DbGraphRaw.of_numbers (DbGraph_do duration s a).
Proof.
  destruct a as [perm started now | now db | stopped now |].
  - destruct perm, started; reflexivity.
  - apply DbGraphRaw_onData_of_numbers.
  - destruct stopped; cbn; [|reflexivity].
    unfold DbGraphRaw.of_numbers. cbn.
    destruct (ltb (DbGraph.activeSpeechTimeRef s) 1); reflexivity.
  - reflexivity.
Qed.

Lemma DbGraphRaw_trace_of_numbers (duration : Q)
    (actions : list DbGraph_action) :
  DbGraphRaw_trace duration (map DbGraphRaw_of_action actions)
  = DbGraphRaw.of_numbers (DbGraph_trace duration actions).
Proof.
  unfold DbGraphRaw_trace, DbGraph_trace.
  change DbGraphRaw.initial with (DbGraphRaw.of_numbers DbGraph.initial).
  generalize DbGraph.initial.
  induction actions as [|a actions IH]; intro s; [reflexivity|].
  cbn [map fold_left]. rewrite DbGraphRaw_do_of_numbers. apply IH.
Qed.

End AnyPayload.

(** X1.  Whatever sequence of starts, audio events, stops and clears a
    DbGraph component goes through, and whatever the payloads of the events
    (an empty buffer, whose decibel value is NaN, and an all-zero buffer,
    whose decibel value is -Infinity, included), its running average is a
    number between 0 and 100, its current level and every level held in the
    window are between 0 and 100 or NaN, and its active speech time is
    never negative. *)
Theorem DbGraph_average_stays_on_scale :
  forall (duration : Q) (actions : list DbGraphRaw_action),
    DbGraphRaw_bounded (DbGraphRaw_trace duration actions).
Proof.
  intros duration actions. unfold DbGraphRaw_trace.
  assert (H0 : DbGraphRaw_bounded DbGraphRaw.initial).
  { unfold DbGraphRaw_bounded. cbn. repeat split; try lra. constructor. }
  revert H0. generalize DbGraphRaw.initial.
  induction actions as [|a actions IH]; intros s Hs; [exact Hs|].
  cbn [fold_left]. apply IH. now apply DbGraphRaw_do_bounded.
Qed.

(** X2.  As long as every tick of the simulated graph carries a decibel
    value of at most 0 (an amplitude of at most full scale, as the
    simulated amplitudes are), its running average, its current level and
    every level in the window stay between 0 and 50, the range its
    indicators cover, through any sequence of starts, ticks, stops and
    clears. *)
Theorem SimGraph_values_stay_within_50 :
  forall (duration : Q) (actions : list SimGraph_action),
    SimGraph_inputs_at_most 0 actions ->
    SimGraph_bounded 50 (SimGraph_trace duration actions).
Proof.
  intros duration actions. unfold SimGraph_trace, SimGraph_inputs_at_most.
  assert (H0 : SimGraph_bounded 50 SimGraph.initial).
  { unfold SimGraph_bounded. cbn. repeat split; try lra. constructor. }
  revert H0. generalize SimGraph.initial.
  induction actions as [|a actions IH]; intros s Hs Hin; [exact Hs|].
  cbn [fold_left]. inversion Hin as [|a' l' Ha Hl]; subst.
  apply IH; [|exact Hl]. now apply SimGraph_do_bounded.
Qed.

Lemma SimGraph_values_stay_within_50_witness :
  let actions := [SimStart true Js.Resolved 0; SimTick 50 (-10);
                  SimTick 100 (-45); SimStop 150; SimClear] in
  SimGraph_inputs_at_most 0 actions
  /\ SimGraph_bounded 50 (SimGraph_trace 5 actions).
Proof.
  intro actions.
  assert (H : SimGraph_inputs_at_most 0 actions).
  { unfold SimGraph_inputs_at_most. repeat constructor; cbn; lra. }
  exact (conj H (SimGraph_values_stay_within_50 5 actions H)).
Defined.

(** ** Short sessions report silence *)

Section ActiveTime.

Import Js.

Lemma count_above_cons (level : Q -> Q) (threshold : Q) (e : Event)
    (events : list Event) :
  count_above level threshold (e :: events)
  = ((if gtb (level (snd e)) threshold then 1 else 0)
     + count_above level threshold events)%nat.
Proof.
  unfold count_above. cbn [filter].
  now destruct (gtb (level (snd e)) threshold).
Qed.

Lemma nat_to_Q_succ (n : nat) :
  inject_Z (Z.of_nat (S n)) == inject_Z (Z.of_nat n) + 1.
Proof.
  rewrite Nat2Z.inj_succ, <- Z.add_1_r, inject_Z_plus. reflexivity.
Qed.

(** Each loud event adds a tenth of a second, the others nothing. *)
Lemma DbGraph_run_active (duration : Q) (events : list Event)
    (s : DbGraph.State) :
  DbGraph.activeSpeechTimeRef (DbGraph_run duration events s)
  == DbGraph.activeSpeechTimeRef s
     + (1 # 10) * inject_Z (Z.of_nat (count_above DbGraph.normalize 12 events)).
Proof.
  unfold DbGraph_run. revert s.
  induction events as [|e events IH]; intro s.
  - cbn. change (inject_Z 0) with 0. lra.
  - cbn [fold_left]. rewrite IH, count_above_cons.
    cbn [DbGraph.onData DbGraph.activeSpeechTimeRef].
    destruct (gtb (DbGraph.normalize (snd e)) 12).
    + change (1 + count_above DbGraph.normalize 12 events)%nat
        with (S (count_above DbGraph.normalize 12 events)).
      rewrite nat_to_Q_succ. lra.
    + cbn [Nat.add]. lra.
Qed.

(** A tick adds a twentieth of a second at most, and only when loud. *)
Lemma SimGraph_ticks_active (duration : Q) (events : list Event)
    (s : SimGraph.State) :
  SimGraph.activeSpeechTimeRef (SimGraph_ticks duration events s)
  <= SimGraph.activeSpeechTimeRef s
     + (5 # 100)
       * inject_Z (Z.of_nat (count_above SimGraph.processAudioData 10 events)).
Proof.
  unfold SimGraph_ticks. revert s.
  induction events as [|e events IH]; intro s.
  - cbn. change (inject_Z 0) with 0. lra.
  - cbn [fold_left]. eapply Qle_trans; [apply IH|].
    rewrite count_above_cons.
    assert (Hn : 0 <= inject_Z (Z.of_nat
                   (count_above SimGraph.processAudioData 10 events))).
    { change 0 with (inject_Z 0). rewrite <- Zle_Qle. lia. }
    assert (Hstep :
      SimGraph.activeSpeechTimeRef (SimGraph.tick duration (fst e) (snd e) s)
      <= SimGraph.activeSpeechTimeRef s
         + (if gtb (SimGraph.processAudioData (snd e)) 10
            then 5 # 100 else 0)).
    { unfold SimGraph.tick.
      destruct (negb (SimGraph.running s));
        [destruct (gtb _ 10); lra|].
      destruct (truthy duration && _); cbn;
        destruct (gtb (SimGraph.processAudioData (snd e)) 10); lra. }
    destruct (gtb (SimGraph.processAudioData (snd e)) 10).
    + change (1 + count_above SimGraph.processAudioData 10 events)%nat
        with (S (count_above SimGraph.processAudioData 10 events)).
      rewrite nat_to_Q_succ. lra.
    + cbn [Nat.add]. lra.
Qed.

Lemma small_count_below (tick bound : Q) (n limit : nat) :
  0 <= tick ->
  tick * inject_Z (Z.of_nat limit) <= bound ->
  (n <= limit)%nat ->
  tick * inject_Z (Z.of_nat n) <= bound.
Proof.
  intros Ht Hb Hn.
  assert (H : inject_Z (Z.of_nat n) <= inject_Z (Z.of_nat limit))
    by (rewrite <- Zle_Qle; lia).
  eapply Qle_trans; [|exact Hb].
  rewrite !(Qmult_comm tick). now apply Qmult_le_compat_r.
Qed.

End ActiveTime.

(** X3.  A DbGraph session in which fewer than ten samples were above the
    activity level 12 ends with a final average of exactly 0, whatever was
    measured: [stopAudio] returns 0 and the state's average is 0. *)
Theorem DbGraph_short_session_reports_zero :
  forall (duration : Q) (start stop : Z) (events : list Event)
         (s : DbGraph.State),
    (count_above DbGraph.normalize 12 events < 10)%nat ->
    let session := fst (DbGraph.startAudio true Js.Resolved duration start s) in
    let stopped :=
      DbGraph.stopAudio Js.Resolved stop (DbGraph_run duration events session) in
    snd stopped = 0 /\ DbGraph.averageDB (fst stopped) = 0.
Proof.
  intros duration start stop events s Hn session stopped.
  assert (Hlt : DbGraph.activeSpeechTimeRef (DbGraph_run duration events session)
                < 1).
  { rewrite DbGraph_run_active. subst session. cbn [DbGraph.startAudio negb fst
                                                     DbGraph.activeSpeechTimeRef].
    assert (H9 : (1 # 10) * inject_Z (Z.of_nat
                    (count_above DbGraph.normalize 12 events)) <= 9 # 10).
    { apply (small_count_below (1 # 10) (9 # 10) _ 9%nat);
        [discriminate | discriminate | lia]. }
    lra. }
  apply ltb_lt in Hlt. subst stopped.
  cbn [DbGraph.stopAudio snd fst DbGraph.averageDB]. now rewrite Hlt.
Qed.

Lemma DbGraph_short_session_reports_zero_witness :
  let events : list Event := [(100%Z, 50); (200%Z, 70); (300%Z, 5)] in
  (count_above DbGraph.normalize 12 events < 10)%nat
  /\ DbGraph.averageDB (DbGraph_run 5 events DbGraph_session) == 60
  /\ snd (DbGraph.stopAudio Js.Resolved 400
            (DbGraph_run 5 events DbGraph_session)) = 0.
Proof.
  intro events.
  assert (H : (count_above DbGraph.normalize 12 events < 10)%nat)
    by (vm_compute; lia).
  pose proof (DbGraph_short_session_reports_zero 5 0 400 events
                DbGraph.initial H) as [Hz _].
  split; [exact H|]. split; [reflexivity | exact Hz].
Defined.

(** X4.  A session of the simulated graph in which fewer than twenty ticks
    were above the activity level 10 ends with a final average of exactly
    0, also when the interval stopped it by itself in between. *)
Theorem SimGraph_short_session_reports_zero :
  forall (duration : Q) (start stop : Z) (events : list Event)
         (s : SimGraph.State),
    (count_above SimGraph.processAudioData 10 events < 20)%nat ->
    let session := fst (SimGraph.startAudio true Js.Resolved duration start s) in
    let stopped :=
      SimGraph.stopAudio stop (SimGraph_ticks duration events session) in
    snd stopped = 0 /\ SimGraph.averageDB (fst stopped) = 0.
Proof.
  intros duration start stop events s Hn session stopped.
  assert (Hlt : SimGraph.activeSpeechTimeRef
                  (SimGraph_ticks duration events session) < 1).
  { eapply Qle_lt_trans; [apply SimGraph_ticks_active|].
    subst session. cbn [SimGraph.startAudio negb fst
                        SimGraph.activeSpeechTimeRef].
    assert (H19 : (5 # 100) * inject_Z (Z.of_nat
                     (count_above SimGraph.processAudioData 10 events))
                  <= 95 # 100).
    { apply (small_count_below (5 # 100) (95 # 100) _ 19%nat);
        [discriminate | discriminate | lia]. }
    lra. }
  apply ltb_lt in Hlt. subst stopped.
  cbn [SimGraph.stopAudio snd fst SimGraph.averageDB]. now rewrite Hlt.
Qed.

Lemma SimGraph_short_session_reports_zero_witness :
  let events : list Event := [(50%Z, -10); (100%Z, -5); (150%Z, -45)] in
  (count_above SimGraph.processAudioData 10 events < 20)%nat
  /\ SimGraph.averageDB (SimGraph_ticks 5 events (SimGraph_session 5))
     == 85 # 2
  /\ snd (SimGraph.stopAudio 200
            (SimGraph_ticks 5 events (SimGraph_session 5))) = 0.
Proof.
  intro events.
  assert (H : (count_above SimGraph.processAudioData 10 events < 20)%nat)
    by (vm_compute; lia).
  pose proof (SimGraph_short_session_reports_zero 5 0 200 events
                SimGraph.initial H) as [Hz _].
  split; [exact H|]. split; [reflexivity | exact Hz].
Defined.

(** ** The window of the simulated graph never evicts *)

Section SimGraphWindow.

Import Js.

Lemma since_all (from : Q) (points : list Point) :
  Forall (fun p => from <= px p) points -> since from points = points.
Proof.
  intro H. unfold since. induction H as [|p points Hp Hall IH]; [reflexivity|].
  cbn [filter].
  assert (E : geb (px p) from = true) by (unfold geb; now apply leb_le).
  now rewrite E, IH.
Qed.

Lemma SimGraph_tick_pushes (duration : Q) (now : Z) (dB : Q)
    (g : SimGraph.State) :
  SimGraph.running g = true ->
  seconds_since (SimGraph.startTimeRef g) now < duration ->
  SimGraph.tick duration now dB g = SimGraph.pushSample duration now dB g.
Proof.
  intros Hrun Ht. unfold SimGraph.tick. rewrite Hrun. cbn [negb].
  assert (E : geb (seconds_since (SimGraph.startTimeRef g) now) duration
              = false) by (unfold geb; now apply leb_gt).
  now rewrite E, andb_false_r.
Qed.

Lemma SimGraph_tick_halts (duration : Q) (now : Z) (dB : Q)
    (g : SimGraph.State) :
  SimGraph.running g = true ->
  ~ duration == 0 ->
  duration <= seconds_since (SimGraph.startTimeRef g) now ->
  SimGraph.tick duration now dB g = fst (SimGraph.stopAudio now g).
Proof.
  intros Hrun Hd Ht. unfold SimGraph.tick. rewrite Hrun. cbn [negb].
  apply truthy_nonzero in Hd. rewrite Hd.
  assert (E : geb (seconds_since (SimGraph.startTimeRef g) now) duration
              = true) by (unfold geb; now apply leb_le).
  now rewrite E.
Qed.

Lemma SimGraph_push_appends (duration : Q) (now : Z) (dB : Q)
    (g : SimGraph.State) :
  0 <= seconds_since (SimGraph.startTimeRef g) now < duration ->
  Forall (fun p => 0 <= px p) (SimGraph.waveformData g) ->
  SimGraph.waveformData (SimGraph.pushSample duration now dB g)
  = SimGraph.waveformData g
      ++ [mkPoint (seconds_since (SimGraph.startTimeRef g) now)
                  (SimGraph.processAudioData dB)].
Proof.
  intros [Ht0 Htd] Hw. cbn [SimGraph.pushSample SimGraph.waveformData].
  unfold SimGraph.updated.
  apply (since_all (seconds_since (SimGraph.startTimeRef g) now - duration)).
  apply Forall_app. split.
  - eapply Forall_impl; [|exact Hw]. cbn beta. intros p Hp. lra.
  - constructor; [cbn [px]; lra | constructor].
Qed.

End SimGraphWindow.

(** X5.  While the simulated graph is recording with a duration other than
    0, a tick at or after the start of the session either stops the session
    (once the duration has elapsed) and leaves the window as it is, or
    appends its sample to the window without evicting any sample: the
    trailing-window filter never removes a point. *)
Theorem SimGraph_tick_stops_or_appends :
  forall (duration : Q) (now : Z) (dB : Q) (g : SimGraph.State),
    SimGraph.running g = true ->
    ~ duration == 0 ->
    (SimGraph.startTimeRef g <= now)%Z ->
    Forall (fun p => 0 <= px p) (SimGraph.waveformData g) ->
    let t := Js.seconds_since (SimGraph.startTimeRef g) now in
    let g' := SimGraph.tick duration now dB g in
    (duration <= t
     /\ SimGraph.running g' = false
     /\ SimGraph.waveformData g' = SimGraph.waveformData g)
    \/ (t < duration
        /\ SimGraph.running g' = true
        /\ SimGraph.waveformData g'
           = SimGraph.waveformData g
               ++ [mkPoint t (SimGraph.processAudioData dB)]).
Proof.
  intros duration now dB g Hrun Hd Hnow Hw t g'.
  pose proof (seconds_since_nonneg _ _ Hnow) as Ht0. fold t in Ht0.
  destruct (Qlt_le_dec t duration) as [Hlt | Hge].
  - right. subst g'. rewrite SimGraph_tick_pushes by assumption.
    split; [exact Hlt|]. split.
    + cbn. exact Hrun.
    + apply SimGraph_push_appends; [split; assumption | exact Hw].
  - left. subst g'. rewrite SimGraph_tick_halts by assumption.
    split; [exact Hge|]. split; reflexivity.
Qed.

Lemma SimGraph_tick_stops_or_appends_witness :
  let g := SimGraph_recording 0 40 in
  (SimGraph.running g = true /\ ~ 5 == 0
   /\ (SimGraph.startTimeRef g <= 600)%Z
   /\ Forall (fun p => 0 <= px p) (SimGraph.waveformData g))
  /\ length (SimGraph.waveformData (SimGraph.tick 5 600 (-10) g)) = 2%nat
  /\ SimGraph.running (SimGraph.tick 5 6000 (-10) g) = false.
Proof.
  intro g.
  assert (H1 : SimGraph.running g = true) by reflexivity.
  assert (H2 : ~ 5 == 0) by discriminate.
  assert (H3 : (SimGraph.startTimeRef g <= 600)%Z) by (cbn; lia).
  assert (H3' : (SimGraph.startTimeRef g <= 6000)%Z) by (cbn; lia).
  assert (H4 : Forall (fun p => 0 <= px p) (SimGraph.waveformData g))
    by (repeat constructor; cbn; discriminate).
  pose proof (SimGraph_tick_stops_or_appends 5 600 (-10) g H1 H2 H3 H4) as Ha.
  pose proof (SimGraph_tick_stops_or_appends 5 6000 (-10) g H1 H2 H3' H4) as Hb.
  split; [tauto|]. split.
  - destruct Ha as [[_ [Hr _]] | [_ [_ Hw]]].
    + discriminate Hr.
    + rewrite Hw. reflexivity.
  - destruct Hb as [[_ [Hr _]] | [_ [Hr _]]].
    + exact Hr.
    + reflexivity.
Defined.

(** X6.  Clearing the simulated graph while it records resets the start of
    the session to 0, so the next tick measures the elapsed time from the
    epoch of the clock: for a clock reading of at least [duration] seconds
    that tick stops the recording, with an empty window and an average
    of 0. *)
Theorem SimGraph_clear_while_recording_stops :
  forall (duration : Q) (now : Z) (dB : Q) (g : SimGraph.State),
    SimGraph.running g = true ->
    0 < duration ->
    duration * 1000 <= inject_Z now ->
    let g' := SimGraph.tick duration now dB (SimGraph.clearData g) in
    SimGraph.running g' = false
    /\ SimGraph.waveformData g' = []
    /\ SimGraph.averageDB g' = 0.
Proof.
  intros duration now dB g Hrun Hd Hnow g'.
  assert (Ht : duration
               <= Js.seconds_since
                    (SimGraph.startTimeRef (SimGraph.clearData g)) now).
  { cbn [SimGraph.clearData SimGraph.startTimeRef]. unfold Js.seconds_since.
    rewrite Z.sub_0_r. apply Qle_shift_div_l; [reflexivity | exact Hnow]. }
  subst g'. rewrite SimGraph_tick_halts; [| exact Hrun | lra | exact Ht].
  repeat split.
Qed.

Lemma SimGraph_clear_while_recording_stops_witness :
  let g := SimGraph_recording (3 # 2) 40 in
  (SimGraph.running g = true /\ 0 < 5 /\ 5 * 1000 <= inject_Z 1700000000000)
  /\ SimGraph.running
       (SimGraph.tick 5 1700000000000 (-10) (SimGraph.clearData g)) = false.
Proof.
  intro g.
  assert (H1 : SimGraph.running g = true) by reflexivity.
  assert (H2 : 0 < 5) by reflexivity.
  assert (H3 : 5 * 1000 <= inject_Z 1700000000000) by discriminate.
  pose proof (SimGraph_clear_while_recording_stops 5 1700000000000 (-10) g
                H1 H2 H3) as [Hr _].
  split; [tauto | exact Hr].
Defined.

(** X7.  Starting the simulated graph again does not empty the window: after
    the first tick of the new session the window holds the samples of the
    previous session followed by the new sample. *)
Theorem SimGraph_restart_keeps_old_samples :
  forall (duration : Q) (start now : Z) (dB : Q) (g : SimGraph.State),
    (start <= now)%Z ->
    Js.seconds_since start now < duration ->
    Forall (fun p => 0 <= px p) (SimGraph.waveformData g) ->
    let session := fst (SimGraph.startAudio true Js.Resolved duration start g) in
    let g' := SimGraph.tick duration now dB session in
    SimGraph.waveformData session = SimGraph.waveformData g
    /\ SimGraph.waveformData g'
       = SimGraph.waveformData g
           ++ [mkPoint (Js.seconds_since start now)
                       (SimGraph.processAudioData dB)].
Proof.
  intros duration start now dB g Hnow Ht Hw session g'.
  split; [reflexivity|]. subst g'.
  rewrite SimGraph_tick_pushes; [| reflexivity | exact Ht].
  apply (SimGraph_push_appends duration now dB session).
  - split; [now apply seconds_since_nonneg | exact Ht].
  - exact Hw.
Qed.

Lemma SimGraph_restart_keeps_old_samples_witness :
  let g := fst (SimGraph.stopAudio 900 (SimGraph_recording (3 # 2) 40)) in
  ((1000 <= 1050)%Z /\ Js.seconds_since 1000 1050 < 5
   /\ Forall (fun p => 0 <= px p) (SimGraph.waveformData g))
  /\ map py (SimGraph.waveformData
               (SimGraph.tick 5 1050 (-20)
                  (fst (SimGraph.startAudio true Js.Resolved 5 1000 g))))
     = [40; 30].
Proof.
  intro g.
  assert (H1 : (1000 <= 1050)%Z) by lia.
  assert (H2 : Js.seconds_since 1000 1050 < 5) by reflexivity.
  assert (H3 : Forall (fun p => 0 <= px p) (SimGraph.waveformData g))
    by (repeat constructor; cbn; discriminate).
  pose proof (SimGraph_restart_keeps_old_samples 5 1000 1050 (-20) g H1 H2 H3)
    as [_ Hw].
  split; [tauto|]. rewrite Hw. reflexivity.
Defined.

(** ** The window of DbGraph.jsx at its edges *)

Section DbGraphWindow.

Import Js.

Lemma since_none (from : Q) (points : list Point) :
  Forall (fun p => px p < from) points -> since from points = [].
Proof.
  intro H. unfold since. induction H as [|p points Hp Hall IH]; [reflexivity|].
  cbn [filter].
  assert (E : geb (px p) from = false) by (unfold geb; now apply leb_gt).
  now rewrite E, IH.
Qed.

Lemma or_else_nonneg (duration : Q) : 0 <= duration -> 0 <= or_else duration 30.
Proof.
  intro H. unfold or_else. destruct (truthy duration); lra.
Qed.

Lemma windowStart_at_most_now (duration t : Q) :
  0 <= duration -> 0 <= t -> DbGraph.windowStart duration t <= t.
Proof.
  intros Hd Ht. unfold DbGraph.windowStart.
  pose proof (or_else_nonneg duration Hd). clamp_cases; lra.
Qed.

Lemma windowStart_after_now (duration t : Q) :
  duration < 0 -> 0 <= t -> t < DbGraph.windowStart duration t.
Proof.
  intros Hd Ht. unfold DbGraph.windowStart.
  rewrite or_else_nonzero by lra. clamp_cases; lra.
Qed.

End DbGraphWindow.

(** X8.  With a duration that is not negative, a sample handled by
    DbGraph.jsx at or after the start of the session is never evicted by
    its own push: it is the newest point of the window, behind the earlier
    points still within the window, so the window is not empty, and the
    current level and the elapsed time are those of that point. *)
Theorem DbGraph_newest_sample_is_kept :
  forall (duration : Q) (now : Z) (db : Q) (s : DbGraph.State),
    0 <= duration ->
    (DbGraph.startTimeRef s <= now)%Z ->
    let t := Js.seconds_since (DbGraph.startTimeRef s) now in
    let s' := DbGraph.onData duration now db s in
    DbGraph.waveformData s'
    = since (DbGraph.windowStart duration t) (DbGraph.waveformData s)
        ++ [mkPoint (DbGraph.time s') (DbGraph.currentDB s')]
    /\ DbGraph.waveformData s' <> []
    /\ DbGraph.time s' = t.
Proof.
  intros duration now db s Hd Hnow t s'.
  pose proof (seconds_since_nonneg _ _ Hnow) as Ht. fold t in Ht.
  assert (E : DbGraph.waveformData s'
              = since (DbGraph.windowStart duration t) (DbGraph.waveformData s)
                  ++ [mkPoint (DbGraph.time s') (DbGraph.currentDB s')]).
  { subst s'. cbn [DbGraph.onData DbGraph.waveformData DbGraph.time
                   DbGraph.currentDB].
    unfold DbGraph.filteredForDisplay.
    apply (since_snoc_kept (DbGraph.windowStart duration t)).
    cbn [px]. now apply windowStart_at_most_now. }
  split; [exact E|]. split; [|reflexivity].
  rewrite E. intro Hnil. apply app_eq_nil in Hnil. destruct Hnil as [_ Hnil].
  discriminate Hnil.
Qed.

Lemma DbGraph_newest_sample_is_kept_witness :
  (0 <= 5 /\ (DbGraph.startTimeRef DbGraph_after_2000 <= 9000)%Z)
  /\ DbGraph.waveformData (DbGraph.onData 5 9000 30 DbGraph_after_2000)
     = [DbGraph_point 0 (9000%Z, 30)].
Proof.
  assert (H1 : 0 <= 5) by discriminate.
  assert (H2 : (DbGraph.startTimeRef DbGraph_after_2000 <= 9000)%Z)
    by (cbn; lia).
  pose proof (DbGraph_newest_sample_is_kept 5 9000 30 DbGraph_after_2000 H1 H2)
    as [Hw _].
  split; [tauto|]. rewrite Hw. reflexivity.
Defined.

(** X9.  With a negative duration DbGraph.jsx evicts every sample at once,
    the newest included: after a sample handled at or after the start of
    the session, with no point of the window later than it, the window is
    empty and the running average is the one before. *)
Theorem DbGraph_negative_duration_empties_window :
  forall (duration : Q) (now : Z) (db : Q) (s : DbGraph.State),
    duration < 0 ->
    (DbGraph.startTimeRef s <= now)%Z ->
    Forall (fun p => px p <= Js.seconds_since (DbGraph.startTimeRef s) now)
           (DbGraph.waveformData s) ->
    let s' := DbGraph.onData duration now db s in
    DbGraph.waveformData s' = []
    /\ DbGraph.averageDB s' = DbGraph.averageDB s.
Proof.
  intros duration now db s Hd Hnow Hw s'.
  pose proof (seconds_since_nonneg _ _ Hnow) as Ht.
  pose proof (windowStart_after_now duration _ Hd Ht) as Hstart.
  assert (E : DbGraph.filteredForDisplay duration
                (Js.seconds_since (DbGraph.startTimeRef s) now)
                (mkPoint (Js.seconds_since (DbGraph.startTimeRef s) now)
                         (DbGraph.normalize db))
                (DbGraph.waveformData s) = []).
  { unfold DbGraph.filteredForDisplay.
    apply (since_none (DbGraph.windowStart duration
                         (Js.seconds_since (DbGraph.startTimeRef s) now))).
    apply Forall_app. split.
    - eapply Forall_impl; [|exact Hw]. cbn beta. intros p Hp. lra.
    - constructor; [cbn [px]; exact Hstart | constructor]. }
  subst s'. cbn [DbGraph.onData DbGraph.waveformData DbGraph.averageDB].
  rewrite E. split; reflexivity.
Qed.

Lemma DbGraph_negative_duration_empties_window_witness :
  (-5 < 0 /\ (DbGraph.startTimeRef DbGraph_after_2000 <= 2500)%Z
   /\ Forall (fun p => px p
                       <= Js.seconds_since
                            (DbGraph.startTimeRef DbGraph_after_2000) 2500)
             (DbGraph.waveformData DbGraph_after_2000))
  /\ DbGraph.waveformData (DbGraph.onData (-5) 2500 70 DbGraph_after_2000) = []
  /\ DbGraph.averageDB (DbGraph.onData (-5) 2500 70 DbGraph_after_2000)
     = DbGraph.averageDB DbGraph_after_2000.
Proof.
  assert (H1 : -5 < 0) by reflexivity.
  assert (H2 : (DbGraph.startTimeRef DbGraph_after_2000 <= 2500)%Z)
    by (cbn; lia).
  assert (H3 : Forall (fun p => px p
                         <= Js.seconds_since
                              (DbGraph.startTimeRef DbGraph_after_2000) 2500)
                 (DbGraph.waveformData DbGraph_after_2000))
    by (repeat constructor; cbn; discriminate).
  pose proof (DbGraph_negative_duration_empties_window (-5) 2500 70
                DbGraph_after_2000 H1 H2 H3) as [Hw Ha].
  split; [tauto|]. split; [exact Hw | exact Ha].
Defined.

(** X10.  [clearData] of DbGraph.jsx sets the start of the session to 0 and
    leaves the component recording: the next sample is stamped with the
    clock reading itself, in seconds, instead of the time since the session
    started; it is alone in the window, and the auto-stop timer is no longer
    armed. *)
Theorem DbGraph_clear_while_recording_restamps :
  forall (duration : Q) (now : Z) (db : Q) (s : DbGraph.State),
    0 <= duration ->
    (0 <= now)%Z ->
    let s' := DbGraph.onData duration now db (DbGraph.clearData s) in
    DbGraph.time s' == inject_Z now / 1000
    /\ DbGraph.waveformData s' = [mkPoint (DbGraph.time s') (DbGraph.normalize db)]
    /\ DbGraph.running s' = DbGraph.running s
    /\ DbGraph.timeoutRef s' = None.
Proof.
  intros duration now db s Hd Hnow s'.
  split; [|split; [|split; reflexivity]].
  - subst s'. cbn [DbGraph.onData DbGraph.clearData DbGraph.time
                   DbGraph.startTimeRef].
    unfold Js.seconds_since. now rewrite Z.sub_0_r.
  - subst s'. cbn [DbGraph.onData DbGraph.clearData DbGraph.time
                   DbGraph.startTimeRef DbGraph.waveformData].
    unfold DbGraph.filteredForDisplay. cbn [app].
    apply (since_snoc_kept (DbGraph.windowStart duration
                              (Js.seconds_since 0 now)) []).
    cbn [px]. apply windowStart_at_most_now; [exact Hd|].
    now apply seconds_since_nonneg.
Qed.

Lemma DbGraph_clear_while_recording_restamps_witness :
  (0 <= 5 /\ (0 <= 1700000000000)%Z)
  /\ DbGraph.time
       (DbGraph.onData 5 1700000000000 30 (DbGraph.clearData DbGraph_after_2000))
     == 1700000000
  /\ DbGraph.running
       (DbGraph.onData 5 1700000000000 30 (DbGraph.clearData DbGraph_after_2000))
     = true.
Proof.
  assert (H1 : 0 <= 5) by discriminate.
  assert (H2 : (0 <= 1700000000000)%Z) by lia.
  pose proof (DbGraph_clear_while_recording_restamps 5 1700000000000 30
                DbGraph_after_2000 H1 H2) as [Ht [_ [Hr _]]].
  split; [tauto|]. split; [rewrite Ht; reflexivity | exact Hr].
Defined.

(** ** The chart of DbGraph.jsx *)

Section DbGraphPath.

Import Js.

Variables graphWidth graphHeight timeWindow startTime : Q.

Let step := DbGraphChart.addPoint graphWidth graphHeight timeWindow startTime.

(** What the loop of [createPath] has built so far: nothing, or a path
    that can be drawn. *)
Lemma addPoint_well_formed (acc : list PathCommand * bool) (point : Point) :
  (acc = ([], false) \/ (snd acc = true /\ well_formed_path (fst acc))) ->
  step acc point = ([], false)
  \/ (snd (step acc point) = true /\ well_formed_path (fst (step acc point))).
Proof.
  unfold step, DbGraphChart.addPoint.
  intros [-> | [Hs Hwf]].
  - destruct (geb _ 0 && leb _ graphWidth); [|now left].
    right. cbn. split; [reflexivity|]. eexists _, _, []. split;
      [reflexivity | constructor].
  - destruct acc as [pathData hasStarted]. cbn in Hs, Hwf. subst hasStarted.
    destruct (geb _ 0 && leb _ graphWidth); [|right; now split].
    right. cbn. split; [reflexivity|].
    destruct Hwf as (x & y & rest & -> & Hrest).
    eexists x, y, (rest ++ [_]). split; [reflexivity|].
    apply Forall_app. split; [exact Hrest|]. repeat constructor.
Qed.

Lemma fold_addPoint_well_formed (points : list Point)
    (acc : list PathCommand * bool) :
  (acc = ([], false) \/ (snd acc = true /\ well_formed_path (fst acc))) ->
  fold_left step points acc = ([], false)
  \/ (snd (fold_left step points acc) = true
      /\ well_formed_path (fst (fold_left step points acc))).
Proof.
  revert acc. induction points as [|p points IH]; intros acc H; [exact H|].
  cbn [fold_left]. apply IH. now apply addPoint_well_formed.
Qed.

(** Points whose abscissa falls within the chart are all drawn. *)
Lemma fold_addPoint_all (points : list Point) (pathData : list PathCommand) :
  Forall (fun p => 0 <= DbGraphChart.plotX graphWidth timeWindow startTime (px p)
                     <= graphWidth) points ->
  fold_left step points (pathData, true)
  = (pathData
       ++ map (fun p => LineTo
                 (DbGraphChart.plotX graphWidth timeWindow startTime (px p))
                 (DbGraphChart.plotY graphHeight (py p))) points,
     true).
Proof.
  intro H. revert pathData.
  induction H as [|p points [Hlo Hhi] Hall IH]; intro pathData.
  - cbn. now rewrite app_nil_r.
  - cbn [fold_left map]. unfold step at 2, DbGraphChart.addPoint.
    assert (E : geb (DbGraphChart.plotX graphWidth timeWindow startTime (px p)) 0
                && leb (DbGraphChart.plotX graphWidth timeWindow startTime (px p))
                       graphWidth = true).
    { apply andb_true_iff. split; [unfold geb|]; now apply leb_le. }
    rewrite E. cbn [negb]. rewrite IH, <- app_assoc. reflexivity.
Qed.

Lemma fold_addPoint_from_start (points : list Point) :
  Forall (fun p => 0 <= DbGraphChart.plotX graphWidth timeWindow startTime (px p)
                     <= graphWidth) points ->
  points <> [] ->
  fold_left step points ([], false)
  = (path_through
       (fun p => DbGraphChart.plotX graphWidth timeWindow startTime (px p))
       (fun p => DbGraphChart.plotY graphHeight (py p)) points,
     true).
Proof.
  intros H Hne. destruct points as [|p points]; [congruence|].
  inversion H as [|p' l' [Hlo Hhi] Hall]; subst.
  cbn [fold_left path_through]. unfold step at 2, DbGraphChart.addPoint.
  assert (E : geb (DbGraphChart.plotX graphWidth timeWindow startTime (px p)) 0
              && leb (DbGraphChart.plotX graphWidth timeWindow startTime (px p))
                     graphWidth = true).
  { apply andb_true_iff. split; [unfold geb|]; now apply leb_le. }
  rewrite E. cbn [negb app].
  assert (Em : Math_max 0 (DbGraphChart.plotX graphWidth timeWindow startTime
                             (px p))
               = DbGraphChart.plotX graphWidth timeWindow startTime (px p)).
  { unfold Math_max. apply leb_le in Hlo. now rewrite Hlo. }
  rewrite Em. now rewrite fold_addPoint_all.
Qed.

(** The abscissa of a point of the window is within the chart. *)
Lemma plotX_in_range (x : Q) :
  0 < timeWindow ->
  0 <= graphWidth ->
  startTime <= x ->
  x - startTime <= timeWindow ->
  0 <= DbGraphChart.plotX graphWidth timeWindow startTime x <= graphWidth.
Proof.
  intros Htw Hgw Hlo Hhi. unfold DbGraphChart.plotX.
  assert (H0 : 0 <= (x - startTime) / timeWindow)
    by (apply Qle_shift_div_l; [exact Htw | lra]).
  assert (H1 : (x - startTime) / timeWindow <= 1)
    by (apply Qle_shift_div_r; [exact Htw | lra]).
  split.
  - now apply Qmult_le_0_compat.
  - setoid_replace graphWidth with (1 * graphWidth) at 2 by ring.
    now apply Qmult_le_compat_r.
Qed.

End DbGraphPath.

(** X11.  [createPath] of DbGraph.jsx always returns a path that can be
    drawn: one move-to command followed by line-to commands only, whatever
    the window, the elapsed time and the dimensions of the chart. *)
Theorem DbGraph_createPath_is_well_formed :
  forall (duration graphWidth graphHeight time : Q) (waveformData : list Point),
    well_formed_path
      (DbGraphChart.createPath duration graphWidth graphHeight time
                               waveformData).
Proof.
  intros duration graphWidth graphHeight time waveformData.
  assert (Hbase : well_formed_path
                    (DbGraphChart.baseline graphWidth graphHeight)).
  { eexists _, _, [_]. split; [reflexivity|]. repeat constructor. }
  unfold DbGraphChart.createPath.
  destruct (length waveformData <? 2)%nat; [exact Hbase|].
  destruct (fold_addPoint_well_formed graphWidth graphHeight
              (Js.or_else duration 30)
              (Js.Math_max 0 (time - Js.or_else duration 30))
              waveformData ([], false) (or_introl eq_refl)) as [E | [Hs Hwf]].
  - rewrite E. exact Hbase.
  - destruct (fold_left _ waveformData ([], false)) as [pathData hasStarted].
    cbn in Hs, Hwf. subst hasStarted. exact Hwf.
Qed.

Section DbGraphRender.

Import Js.

Lemma or_else_pos (duration : Q) : 0 <= duration -> 0 < or_else duration 30.
Proof.
  intro H. unfold or_else. destruct (truthy duration) eqn:E; [|reflexivity].
  apply truthy_nonzero in E.
  destruct (Qlt_le_dec 0 duration) as [Hpos | Hle]; [exact Hpos|].
  exfalso. apply E. lra.
Qed.

Lemma windowStart_lower (duration t : Q) :
  t - or_else duration 30 <= DbGraph.windowStart duration t.
Proof. unfold DbGraph.windowStart. clamp_cases; lra. Qed.

Lemma path_through_length (X Y : Point -> Q) (points : list Point) :
  length (path_through X Y points) = length points.
Proof.
  destruct points as [|p points]; [reflexivity|].
  cbn. now rewrite length_map.
Qed.

End DbGraphRender.

(** X12.  After DbGraph.jsx has handled a sample that no point of the window
    is later than, the chart draws every point of the window, in order: as
    soon as the window holds two points, the path is a move to the oldest
    point followed by a line to each of the others, so it has as many
    commands as the window has points. *)
Theorem DbGraph_chart_draws_every_window_point :
  forall (duration graphWidth graphHeight : Q) (now : Z) (db : Q)
         (s : DbGraph.State),
    0 <= duration ->
    0 <= graphWidth ->
    (DbGraph.startTimeRef s <= now)%Z ->
    Forall (fun p => px p <= Js.seconds_since (DbGraph.startTimeRef s) now)
           (DbGraph.waveformData s) ->
    let s' := DbGraph.onData duration now db s in
    (2 <= length (DbGraph.waveformData s'))%nat ->
    DbGraphChart.render duration graphWidth graphHeight s'
    = path_through
        (fun p => DbGraphChart.plotX graphWidth (Js.or_else duration 30)
                    (DbGraph.windowStart duration (DbGraph.time s')) (px p))
        (fun p => DbGraphChart.plotY graphHeight (py p))
        (DbGraph.waveformData s')
    /\ length (DbGraphChart.render duration graphWidth graphHeight s')
       = length (DbGraph.waveformData s').
Proof.
  intros duration graphWidth graphHeight now db s Hd Hgw Hnow Hw s' Hlen.
  set (t := Js.seconds_since (DbGraph.startTimeRef s) now) in *.
  assert (Htime : DbGraph.time s' = t) by reflexivity.
  assert (Hin : Forall (fun p => DbGraph.windowStart duration t <= px p <= t)
                  (DbGraph.waveformData s')).
  { subst s'. cbn [DbGraph.onData DbGraph.waveformData].
    unfold DbGraph.filteredForDisplay. fold t.
    apply Forall_forall. intros p Hp. apply filter_In in Hp.
    destruct Hp as [Hp Hkeep]. unfold Js.geb in Hkeep. apply leb_le in Hkeep.
    split; [exact Hkeep|]. apply in_app_or in Hp. destruct Hp as [Hp | Hp].
    - rewrite Forall_forall in Hw. now apply Hw.
    - destruct Hp as [<- | []]. cbn [px]. lra. }
  assert (Hrange :
    Forall (fun p => 0 <= DbGraphChart.plotX graphWidth (Js.or_else duration 30)
                           (DbGraph.windowStart duration t) (px p)
                     <= graphWidth) (DbGraph.waveformData s')).
  { eapply Forall_impl; [|exact Hin]. cbn beta. intros p [Hlo Hhi].
    apply plotX_in_range; [now apply or_else_pos | exact Hgw | exact Hlo |].
    pose proof (windowStart_lower duration t). lra. }
  assert (E : DbGraphChart.render duration graphWidth graphHeight s'
              = path_through
                  (fun p => DbGraphChart.plotX graphWidth
                              (Js.or_else duration 30)
                              (DbGraph.windowStart duration (DbGraph.time s'))
                              (px p))
                  (fun p => DbGraphChart.plotY graphHeight (py p))
                  (DbGraph.waveformData s')).
  { unfold DbGraphChart.render, DbGraphChart.createPath.
    replace (length (DbGraph.waveformData s') <? 2)%nat with false
      by (symmetry; apply Nat.ltb_ge; exact Hlen).
    rewrite Htime.
    change (Js.Math_max 0 (t - Js.or_else duration 30))
      with (DbGraph.windowStart duration t).
    rewrite fold_addPoint_from_start; [reflexivity | exact Hrange |].
    intro Hnil. rewrite Hnil in Hlen. cbn in Hlen. lia. }
  split; [exact E|]. rewrite E. apply path_through_length.
Qed.

Lemma DbGraph_chart_draws_every_window_point_witness :
  let s := DbGraph_after_100 in
  (0 <= 5 /\ 0 <= 300 /\ (DbGraph.startTimeRef s <= 600)%Z
   /\ Forall (fun p => px p <= Js.seconds_since (DbGraph.startTimeRef s) 600)
             (DbGraph.waveformData s)
   /\ (2 <= length (DbGraph.waveformData (DbGraph.onData 5 600 70 s)))%nat)
  /\ length (DbGraphChart.render 5 300 100 (DbGraph.onData 5 600 70 s)) = 2%nat.
Proof.
  intro s.
  assert (H1 : 0 <= 5) by discriminate.
  assert (H2 : 0 <= 300) by discriminate.
  assert (H3 : (DbGraph.startTimeRef s <= 600)%Z) by (cbn; lia).
  assert (H4 : Forall (fun p => px p
                         <= Js.seconds_since (DbGraph.startTimeRef s) 600)
                 (DbGraph.waveformData s))
    by (repeat constructor; cbn; discriminate).
  assert (H5 : (2 <= length (DbGraph.waveformData (DbGraph.onData 5 600 70 s)))%nat)
    by (vm_compute; lia).
  pose proof (DbGraph_chart_draws_every_window_point 5 300 100 600 70 s
                H1 H2 H3 H4 H5) as [_ Hl].
  split; [tauto|]. rewrite Hl. reflexivity.
Defined.

Section DbGraphScale.

Import Js.

Lemma plotY_as_product (graphHeight level : Q) :
  DbGraphChart.plotY graphHeight level
  == graphHeight * ((80 - level) * (1 # 80)).
Proof.
  unfold DbGraphChart.plotY, DbGraphChart.maxDB, Qdiv.
  change (/ 80) with (1 # 80). ring.
Qed.

Lemma normalize_above_80 (db : Q) : 80 < DbGraph.normalize db <-> 80 < db.
Proof.
  unfold DbGraph.normalize. split; intro H; clamp_cases; lra.
Qed.

End DbGraphScale.

(** X13.  DbGraph.jsx clamps a level to 100 but scales the chart to 80: for
    a chart of positive height, a sample is plotted above the top edge of
    the chart (at a negative ordinate) exactly when its raw value exceeds
    80 dB; it is never plotted below the bottom edge, and never more than a
    quarter of the height above the top. *)
Theorem DbGraph_levels_above_80_leave_the_chart :
  forall (graphHeight db : Q),
    0 < graphHeight ->
    (DbGraphChart.plotY graphHeight (DbGraph.normalize db) < 0 <-> 80 < db)
    /\ - (1 # 4) * graphHeight
       <= DbGraphChart.plotY graphHeight (DbGraph.normalize db)
       <= graphHeight.
Proof.
  intros graphHeight db Hgh.
  pose proof (DbGraph_normalize_range db) as [Hlo Hhi].
  pose proof (normalize_above_80 db) as H80.
  rewrite plotY_as_product.
  set (k := (80 - DbGraph.normalize db) * (1 # 80)).
  assert (Hk : - (1 # 4) <= k <= 1) by (unfold k; lra).
  split; [split; intro H|split].
  - apply H80. destruct (Qlt_le_dec 80 (DbGraph.normalize db)) as [Hgt | Hle];
      [exact Hgt|].
    exfalso. assert (Hk0 : 0 <= k) by (unfold k; lra).
    pose proof (Qmult_le_0_compat graphHeight k (Qlt_le_weak _ _ Hgh) Hk0). lra.
  - apply H80 in H. assert (Hk0 : 0 < - k) by (unfold k; lra).
    pose proof (Qmult_lt_0_compat graphHeight (- k) Hgh Hk0) as Hp.
    setoid_replace (graphHeight * - k) with (- (graphHeight * k)) in Hp by ring.
    lra.
  - setoid_replace (- (1 # 4) * graphHeight) with (graphHeight * - (1 # 4))
      by ring.
    rewrite !(Qmult_comm graphHeight).
    apply Qmult_le_compat_r; [tauto | now apply Qlt_le_weak].
  - setoid_replace graphHeight with (graphHeight * 1) at 2 by ring.
    rewrite !(Qmult_comm graphHeight).
    apply Qmult_le_compat_r; [tauto | now apply Qlt_le_weak].
Qed.

Lemma DbGraph_levels_above_80_leave_the_chart_witness :
  0 < 110
  /\ DbGraphChart.plotY 110 (DbGraph.normalize 95) < 0
  /\ 0 <= DbGraphChart.plotY 110 (DbGraph.normalize 60).
Proof.
  assert (H : 0 < 110) by reflexivity.
  pose proof (DbGraph_levels_above_80_leave_the_chart 110 95 H) as [[_ Ha] _].
  split; [exact H|]. split; [apply Ha; reflexivity | discriminate].
Defined.

(** ** The range indicators of DbGraph.jsx *)

(** Settles on which side of a band limit a value lies. *)
Ltac band_side :=
  match goal with
  | |- Js.leb _ _ = false => apply leb_gt; lra
  | |- Js.leb _ _ = true => apply leb_le; lra
  | |- _ => lra
  end.

Section Indicators.

Import Js.

Lemma getColorForRange_index (averageDB : Q) (rangeIndex : Z) :
  DbGraphChart.getColorForRange averageDB rangeIndex <> cardBg ->
  rangeIndex = 0%Z \/ rangeIndex = 1%Z \/ rangeIndex = 2%Z.
Proof.
  destruct rangeIndex as [|p|p]; cbn.
  - now left.
  - destruct p as [p|p|]; try congruence.
    + destruct p; try congruence. intros _. right. now right.
    + intros _. right. now left.
  - congruence.
Qed.

End Indicators.

(** X14.  The three range indicators of DbGraph.jsx and the colour of the
    average agree: an indicator that is lit has the colour of the average,
    at most one indicator is lit, and none is lit exactly when the average
    has the fallback colour, which happens exactly for an average that is
    negative or strictly between 25 and 26 or strictly between 50 and
    51. *)
Theorem DbGraph_indicators_agree_with_average_colour :
  forall (averageDB : Q),
    (forall i : Z,
       DbGraphChart.getColorForRange averageDB i <> cardBg ->
       DbGraphChart.getColorForRange averageDB i
       = DbGraphChart.getAverageDbColor averageDB)
    /\ (forall i j : Z,
       DbGraphChart.getColorForRange averageDB i <> cardBg ->
       DbGraphChart.getColorForRange averageDB j <> cardBg ->
       i = j)
    /\ ((forall i : Z, DbGraphChart.getColorForRange averageDB i = cardBg)
        <-> DbGraphChart.getAverageDbColor averageDB = accent)
    /\ (DbGraphChart.getAverageDbColor averageDB = accent
        <-> averageDB < 0 \/ 25 < averageDB < 26 \/ 50 < averageDB < 51).
Proof.
  intro a.
  assert (Hcases :
    (a < 0 /\ Js.geb a 0 = false /\ Js.geb a 26 = false /\ Js.geb a 51 = false)
    \/ (0 <= a <= 25 /\ Js.geb a 0 = true /\ Js.leb a 25 = true
        /\ Js.geb a 26 = false /\ Js.geb a 51 = false)
    \/ (25 < a < 26 /\ Js.leb a 25 = false /\ Js.geb a 26 = false
        /\ Js.geb a 51 = false)
    \/ (26 <= a <= 50 /\ Js.leb a 25 = false /\ Js.geb a 26 = true
        /\ Js.leb a 50 = true /\ Js.geb a 51 = false)
    \/ (50 < a < 51 /\ Js.leb a 25 = false /\ Js.leb a 50 = false
        /\ Js.geb a 51 = false)
    \/ (51 <= a /\ Js.leb a 25 = false /\ Js.leb a 50 = false
        /\ Js.geb a 51 = true)).
  { unfold Js.geb.
    destruct (Qlt_le_dec a 0); [left; repeat split; band_side|].
    right.
    destruct (Qlt_le_dec 25 a); [|left; repeat split; band_side].
    right.
    destruct (Qlt_le_dec a 26); [left; repeat split; band_side|].
    right.
    destruct (Qlt_le_dec 50 a); [|left; repeat split; band_side].
    right.
    destruct (Qlt_le_dec a 51); [left; repeat split; band_side|].
    right. repeat split; band_side. }
  assert (Hidx := getColorForRange_index a).
  unfold DbGraphChart.getAverageDbColor.
  destruct Hcases as
    [(Hr & E0 & E26 & E51)
    |[(Hr & E0 & E25 & E26 & E51)
    |[(Hr & E25 & E26 & E51)
    |[(Hr & E25 & E26 & E50 & E51)
    |[(Hr & E25 & E50 & E51)
    |(Hr & E25 & E50 & E51)]]]]].
  all: repeat split.
  all: try (intros i Hi; destruct (Hidx i Hi) as [-> | [-> | ->]];
            revert Hi; cbn;
            rewrite ?E0, ?E25, ?E26, ?E50, ?E51, ?andb_false_r; cbn;
            congruence).
  all: try (intros i j Hi Hj;
            destruct (Hidx i Hi) as [-> | [-> | ->]];
            destruct (Hidx j Hj) as [-> | [-> | ->]];
            revert Hi Hj; cbn;
            rewrite ?E0, ?E25, ?E26, ?E50, ?E51, ?andb_false_r; cbn;
            congruence).
  all: rewrite ?E0, ?E25, ?E26, ?E50, ?E51, ?andb_false_r; cbn.
  all: try (intro H; first [discriminate H | lra | reflexivity]).
  all: try (intros _; first [reflexivity | lra | tauto]).
  all: try (intros H; exfalso; first
              [ specialize (H 0%Z); revert H; cbn;
                rewrite ?E0, ?E25, ?E26, ?E50, ?E51; cbn; congruence
              | specialize (H 1%Z); revert H; cbn;
                rewrite ?E0, ?E25, ?E26, ?E50, ?E51; cbn; congruence
              | specialize (H 2%Z); revert H; cbn;
                rewrite ?E0, ?E25, ?E26, ?E50, ?E51; cbn; congruence ]).
  all: try (intros _ i; destruct i as [|[[?|?|]|[?|?|]|]|?]; cbn;
            rewrite ?E0, ?E25, ?E26, ?E50, ?E51, ?andb_false_r; reflexivity).
Qed.

Lemma DbGraph_indicators_agree_with_average_colour_witness :
  DbGraphChart.getColorForRange 30 1 <> cardBg
  /\ DbGraphChart.getColorForRange 30 1 = DbGraphChart.getAverageDbColor 30
  /\ (25 < (51 # 2) < 26
      /\ DbGraphChart.getAverageDbColor (51 # 2) = accent
      /\ DbGraphChart.getColorForRange (51 # 2) 0 = cardBg).
Proof.
  assert (H : DbGraphChart.getColorForRange 30 1 <> cardBg)
    by (vm_compute; discriminate).
  assert (Hgap : 25 < (51 # 2) < 26) by (split; reflexivity).
  pose proof (DbGraph_indicators_agree_with_average_colour 30) as [Ha _].
  pose proof (DbGraph_indicators_agree_with_average_colour (51 # 2))
    as [_ [_ [Hnone Hacc]]].
  assert (Hc : DbGraphChart.getAverageDbColor (51 # 2) = accent)
    by (apply Hacc; right; left; exact Hgap).
  split; [exact H|]. split; [exact (Ha 1%Z H)|].
  split; [exact Hgap|]. split; [exact Hc|].
  apply Hnone. exact Hc.
Defined.

(** ** The simulated inputs *)

(** X15.  The amplitude the simulated graph draws is at least 0.1 and below
    0.8 for random numbers in [0, 1), so the fallback [rms || 0.0001] of
    [processAudioData] never replaces it. *)
Theorem SimGraph_simulated_amplitude_range :
  forall r1 r2 : Q,
    0 <= r1 < 1 ->
    (1 # 10) <= SimGraph_simulatedAmplitude r1 r2 < 8 # 10
    /\ Js.or_else (SimGraph_simulatedAmplitude r1 r2) (1 # 10000)
       = SimGraph_simulatedAmplitude r1 r2.
Proof.
  intros r1 r2 [Hlo Hhi].
  assert (Hr : (1 # 10) <= SimGraph_simulatedAmplitude r1 r2 < 8 # 10).
  { unfold SimGraph_simulatedAmplitude.
    destruct (Js.gtb r2 (7 # 10)); lra. }
  split; [exact Hr|]. apply or_else_nonzero. lra.
Qed.

Lemma SimGraph_simulated_amplitude_range_witness :
  0 <= (1 # 2) < 1
  /\ (1 # 10) <= SimGraph_simulatedAmplitude (1 # 2) (9 # 10) < 8 # 10.
Proof.
  assert (H : 0 <= (1 # 2) < 1) by (split; [discriminate | reflexivity]).
  pose proof (SimGraph_simulated_amplitude_range (1 # 2) (9 # 10) H) as [Hr _].
  exact (conj H Hr).
Defined.

(** X16.  [generateDBValue] of SimpleDBGraph returns, for random numbers in
    [0, 1) and a [maxDB] that is not negative, a value between 0 and
    [maxDB] that is also below 55. *)
Theorem SimpleDBGraph_generated_value_range :
  forall maxDB r1 r2 r3 : Q,
    0 <= maxDB ->
    0 <= r1 < 1 ->
    0 <= r3 < 1 ->
    0 <= SimpleDBChart.generateDBValue maxDB r1 r2 r3 <= maxDB
    /\ SimpleDBChart.generateDBValue maxDB r1 r2 r3 < 55.
Proof.
  intros maxDB r1 r2 r3 Hm [H1 H1'] [H3 H3'].
  unfold SimpleDBChart.generateDBValue.
  destruct (Js.gtb r2 (7 # 10)); clamp_cases; repeat split; lra.
Qed.

Lemma SimpleDBGraph_generated_value_range_witness :
  (0 <= 100 /\ 0 <= (1 # 2) < 1 /\ 0 <= (3 # 4) < 1)
  /\ SimpleDBChart.generateDBValue 100 (1 # 2) (9 # 10) (3 # 4) < 55.
Proof.
  assert (Hm : 0 <= 100) by discriminate.
  assert (H1 : 0 <= (1 # 2) < 1) by (split; [discriminate | reflexivity]).
  assert (H3 : 0 <= (3 # 4) < 1) by (split; [discriminate | reflexivity]).
  pose proof (SimpleDBGraph_generated_value_range 100 (1 # 2) (9 # 10) (3 # 4)
                Hm H1 H3) as [_ Hlt].
  split; [tauto | exact Hlt].
Defined.

(** ** The chart of SimpleDBGraph *)

Section SimplePath.

Import Js.

Lemma filter_twice {A : Type} (f : A -> bool) (l : list A) :
  filter f (filter f l) = filter f l.
Proof.
  induction l as [|x l IH]; [reflexivity|].
  cbn [filter]. destruct (f x) eqn:E; [|exact IH].
  cbn [filter]. now rewrite E, IH.
Qed.

Lemma unit_interval_scaled (ratio size : Q) :
  0 <= ratio <= 1 -> 0 <= size -> 0 <= size - ratio * size <= size.
Proof.
  intros [Hlo Hhi] Hs.
  assert (H0 : 0 <= ratio * size) by now apply Qmult_le_0_compat.
  assert (H1 : ratio * size <= 1 * size) by now apply Qmult_le_compat_r.
  lra.
Qed.

End SimplePath.

(** X17.  Right after a tick of SimpleDBGraph the chart draws every point of
    the window: the filter of [createSmoothPath] keeps them all, and as soon
    as the window holds two points the path is a move to the oldest point
    followed by a line to each of the others. *)
Theorem SimpleDBGraph_chart_draws_every_window_point :
  forall (duration maxDB graphWidth graphHeight : Q) (now : Z) (dbValue : Q)
         (s : SimpleDBGraph.State),
    let s' := SimpleDBGraph.tick duration now dbValue s in
    let startTime :=
      Js.Math_max 0 (SimpleDBGraph.elapsedTime s' - duration) in
    (2 <= length (SimpleDBGraph.waveformData s'))%nat ->
    SimpleDBChart.render duration maxDB graphWidth graphHeight s'
    = path_through
        (fun p => ((px p - startTime) / duration) * graphWidth)
        (fun p => graphHeight - (py p / maxDB) * graphHeight)
        (SimpleDBGraph.waveformData s')
    /\ length (SimpleDBChart.render duration maxDB graphWidth graphHeight s')
       = length (SimpleDBGraph.waveformData s').
Proof.
  intros duration maxDB graphWidth graphHeight now dbValue s s' startTime Hlen.
  assert (E : SimpleDBChart.render duration maxDB graphWidth graphHeight s'
              = path_through
                  (fun p => ((px p - startTime) / duration) * graphWidth)
                  (fun p => graphHeight - (py p / maxDB) * graphHeight)
                  (SimpleDBGraph.waveformData s')).
  { unfold SimpleDBChart.render, SimpleDBChart.createSmoothPath.
    replace (length (SimpleDBGraph.waveformData s') <? 2)%nat with false
      by (symmetry; apply Nat.ltb_ge; exact Hlen).
    fold startTime. unfold SimpleDBChart.points.
    assert (Ekeep : filter (fun p => Js.geb (px p) startTime)
                      (SimpleDBGraph.waveformData s')
                    = SimpleDBGraph.waveformData s').
    { subst s' startTime.
      cbn [SimpleDBGraph.tick SimpleDBGraph.waveformData
           SimpleDBGraph.elapsedTime].
      unfold SimpleDBGraph.filtered. apply filter_twice. }
    rewrite Ekeep.
    destruct (SimpleDBGraph.waveformData s') as [|first rest];
      [cbn in Hlen; lia|].
    cbn [map path_through px py]. f_equal. now rewrite map_map. }
  split; [exact E|]. rewrite E. apply path_through_length.
Qed.

Lemma SimpleDBGraph_chart_draws_every_window_point_witness :
  let s := SimpleDBGraph.tick 30 100 12
             {| SimpleDBGraph.waveformData := [];
                SimpleDBGraph.isRecording := true;
                SimpleDBGraph.currentDB := 0;
                SimpleDBGraph.elapsedTime := 0;
                SimpleDBGraph.startTimeRef := 0 |} in
  (2 <= length (SimpleDBGraph.waveformData (SimpleDBGraph.tick 30 150 40 s)))%nat
  /\ length (SimpleDBChart.render 30 100 280 110
               (SimpleDBGraph.tick 30 150 40 s)) = 2%nat.
Proof.
  intro s.
  assert (H : (2 <= length (SimpleDBGraph.waveformData
                              (SimpleDBGraph.tick 30 150 40 s)))%nat)
    by (vm_compute; lia).
  pose proof (SimpleDBGraph_chart_draws_every_window_point 30 100 280 110 150 40
                s H) as [_ Hl].
  split; [exact H|]. rewrite Hl. reflexivity.
Defined.

(** X18.  When every level of the window is between 0 and [maxDB], as the
    values of [generateDBValue] are, and the chart has a height that is not
    negative, every point [createSmoothPath] draws lies within the height
    of the chart. *)
Theorem SimpleDBGraph_points_within_chart_height :
  forall (duration maxDB graphWidth graphHeight startTime : Q)
         (waveformData : list Point),
    0 < maxDB ->
    0 <= graphHeight ->
    Forall (fun p => 0 <= py p <= maxDB) waveformData ->
    Forall (fun q => 0 <= py q <= graphHeight)
           (SimpleDBChart.points duration maxDB graphWidth graphHeight
                                 startTime waveformData).
Proof.
  intros duration maxDB graphWidth graphHeight startTime waveformData
         Hm Hgh Hall.
  unfold SimpleDBChart.points. rewrite Forall_map.
  apply Forall_filter_stays. eapply Forall_impl; [|exact Hall].
  cbn beta. intros p [Hlo Hhi]. cbn [py].
  apply unit_interval_scaled; [|exact Hgh]. split.
  - apply Qle_shift_div_l; [exact Hm | lra].
  - apply Qle_shift_div_r; [exact Hm | lra].
Qed.

Lemma SimpleDBGraph_points_within_chart_height_witness :
  let window := [mkPoint 1 0; mkPoint 2 55; mkPoint 3 100] in
  (0 < 100 /\ 0 <= 110 /\ Forall (fun p => 0 <= py p <= 100) window)
  /\ Forall (fun q => 0 <= py q <= 110)
            (SimpleDBChart.points 30 100 280 110 0 window).
Proof.
  intro window.
  assert (H1 : 0 < 100) by reflexivity.
  assert (H2 : 0 <= 110) by discriminate.
  assert (H3 : Forall (fun p => 0 <= py p <= 100) window)
    by (repeat constructor; cbn; discriminate).
  exact (conj (conj H1 (conj H2 H3))
              (SimpleDBGraph_points_within_chart_height 30 100 280 110 0 window
                 H1 H2 H3)).
Defined.

(** ** The App.js meter beyond its window of 50 *)

Section Meter.

Import Js.

Lemma lastn_app_long {A : Type} (n : nat) (older recent : list A) :
  (n <= length recent)%nat -> lastn n (older ++ recent) = lastn n recent.
Proof.
  intro H. unfold lastn. rewrite length_app, skipn_app.
  replace (length older + length recent - n - length older)%nat
    with (length recent - n)%nat by lia.
  rewrite skipn_all2 by lia. reflexivity.
Qed.

Lemma Math_round_integer (z : Z) (q : Q) : q == inject_Z z -> Math_round q = z.
Proof.
  intro H.
  assert (Hb : (z <= Math_round q <= z)%Z)
    by (apply Math_round_between; rewrite H; split; apply Qle_refl).
  lia.
Qed.

Lemma average_singleton (p : Z) : SoundMeter.average [p] == inject_Z p.
Proof.
  unfold SoundMeter.average, SoundMeter.total, len. cbn.
  unfold Qdiv. change (/ inject_Z 1) with 1. ring.
Qed.

Lemma average_between (lo hi : Z) (history : list Z) :
  history <> [] ->
  Forall (fun x => lo <= x <= hi)%Z history ->
  inject_Z lo <= SoundMeter.average history <= inject_Z hi.
Proof.
  intros Hne Hall. rewrite average_is_mean. apply mean_bounds.
  - destruct history; [congruence | discriminate].
  - rewrite Forall_map. eapply Forall_impl; [|exact Hall].
    cbn beta. intros x [Hlo Hhi]. rewrite <- !Zle_Qle. now split.
Qed.

End Meter.

(** X19.  During a monitoring session of the App.js meter the number of
    readings held is the number of frames received, up to 50, and stays
    at 50 from then on. *)
Theorem SoundMeter_history_length :
  forall (frames : list SoundMeter.Frame) (s : SoundMeter.State),
    SoundMeter.decibelHistory s = [] ->
    length (SoundMeter.decibelHistory (SoundMeter_run frames s))
    = Nat.min 50 (length frames).
Proof.
  intros frames s Hs.
  now rewrite SoundMeter_run_history, lastn_length, length_map.
Qed.

Lemma SoundMeter_history_length_witness :
  let quiet := SoundMeter.mkFrame (Some 8) None in
  let s := SoundMeter.startRecording
             {| SoundMeter.isRecording := false;
                SoundMeter.currentDecibels := 0;
                SoundMeter.averageDecibels := 0;
                SoundMeter.hasPermission := true;
                SoundMeter.decibelHistory := [];
                SoundMeter.rawSoundLevel := 0 |} in
  SoundMeter.decibelHistory s = []
  /\ length (SoundMeter.decibelHistory (SoundMeter_run (repeat quiet 7) s))
     = 7%nat
  /\ length (SoundMeter.decibelHistory (SoundMeter_run (repeat quiet 60) s))
     = 50%nat.
Proof.
  intros quiet s.
  assert (H : SoundMeter.decibelHistory s = []) by reflexivity.
  split; [exact H|]. split.
  - rewrite (SoundMeter_history_length (repeat quiet 7) s H). reflexivity.
  - rewrite (SoundMeter_history_length (repeat quiet 60) s H). reflexivity.
Defined.

(** X20.  The average of the App.js meter forgets what is older than 50
    frames: once at least 50 frames have come in whose readings all lie
    between two values, the average lies between these values too,
    whatever the frames before them were. *)
Theorem SoundMeter_average_follows_last_50 :
  forall (older recent : list SoundMeter.Frame) (s : SoundMeter.State)
         (lo hi : Z),
    SoundMeter.decibelHistory s = [] ->
    (50 <= length recent)%nat ->
    Forall (fun data => lo <= SoundMeter_reading data <= hi)%Z recent ->
    let s' := SoundMeter_run (older ++ recent) s in
    SoundMeter.decibelHistory s' = lastn 50 (map SoundMeter_reading recent)
    /\ (lo <= SoundMeter.averageDecibels s' <= hi)%Z.
Proof.
  intros older recent s lo hi Hs Hlen Hall s'.
  assert (Hh : SoundMeter.decibelHistory s'
               = lastn 50 (map SoundMeter_reading recent)).
  { subst s'. rewrite SoundMeter_run_history by exact Hs.
    rewrite map_app. apply lastn_app_long. now rewrite length_map. }
  split; [exact Hh|].
  destruct recent as [|data recent] using rev_ind; [cbn in Hlen; lia|].
  clear IHrecent.
  assert (Ha : SoundMeter.averageDecibels s'
               = Js.Math_round (SoundMeter.average
                                  (SoundMeter.decibelHistory s'))).
  { subst s'. unfold SoundMeter_run. rewrite app_assoc, fold_left_app.
    reflexivity. }
  rewrite Ha. apply Math_round_between, average_between.
  - intro E. apply (f_equal (@length Z)) in E.
    rewrite Hh, lastn_length, length_map in E. cbn [length] in E. lia.
  - rewrite Hh. apply Forall_forall. intros x Hx.
    apply lastn_In, in_map_iff in Hx. destruct Hx as [f [<- Hf]].
    rewrite Forall_forall in Hall. now apply Hall.
Qed.

Lemma SoundMeter_average_follows_last_50_witness :
  let quiet := SoundMeter.mkFrame (Some 8) None in
  let loud := SoundMeter.mkFrame (Some 72) None in
  let s := SoundMeter.initial in
  (SoundMeter.decibelHistory s = []
   /\ (50 <= length (repeat quiet 50))%nat
   /\ Forall (fun data => 10 <= SoundMeter_reading data <= 10)%Z
             (repeat quiet 50))
  /\ SoundMeter.averageDecibels
       (SoundMeter_run (repeat loud 30 ++ repeat quiet 50) s) = 10%Z.
Proof.
  intros quiet loud s.
  assert (H1 : SoundMeter.decibelHistory s = []) by reflexivity.
  assert (H2 : (50 <= length (repeat quiet 50))%nat) by (cbn; lia).
  assert (H3 : Forall (fun data => 10 <= SoundMeter_reading data <= 10)%Z
                 (repeat quiet 50)).
  { apply Forall_forall. intros data Hin. apply repeat_spec in Hin.
    subst data. vm_compute. split; discriminate. }
  pose proof (SoundMeter_average_follows_last_50 (repeat loud 30)
                (repeat quiet 50) s 10 10 H1 H2 H3) as [_ Ha].
  split; [tauto | lia].
Defined.

(** X21.  The percentage of the App.js meter is 1.25 times the sound level,
    rounded to the nearest integer, for levels from 0 to 80: it differs
    from 1.25 times the level by at most one half.  It is 0 for every
    level that is not positive and 100 for every level of 80 or more. *)
Theorem SoundMeter_percentage_accuracy :
  forall soundLevel : Q,
    (soundLevel <= 0 -> SoundMeter.soundLevelToPercentage soundLevel = 0%Z)
    /\ (80 <= soundLevel ->
        SoundMeter.soundLevelToPercentage soundLevel = 100%Z)
    /\ (0 <= soundLevel <= 80 ->
        soundLevel * (5 # 4) - (1 # 2)
        <= inject_Z (SoundMeter.soundLevelToPercentage soundLevel)
        <= soundLevel * (5 # 4) + (1 # 2)).
Proof.
  intro soundLevel. unfold SoundMeter.soundLevelToPercentage.
  assert (Hscale : soundLevel / 80 * 100 == soundLevel * (5 # 4)).
  { unfold Qdiv. change (/ 80) with (1 # 80). ring. }
  split; [|split].
  - intro H. apply leb_le in H. now rewrite H.
  - intro H. assert (E : Js.leb soundLevel 0 = false) by (apply leb_gt; lra).
    rewrite E.
    assert (Ec : Js.Math_min 100 (Js.Math_max 0 (soundLevel / 80 * 100)) = 100).
    { unfold Js.Math_min.
      assert (El : Js.leb 100 (Js.Math_max 0 (soundLevel / 80 * 100)) = true).
      { apply leb_le. clamp_cases; rewrite ?Hscale in *; lra. }
      now rewrite El. }
    rewrite Ec. reflexivity.
  - intros [Hlo Hhi]. destruct (Js.leb soundLevel 0) eqn:E.
    + apply leb_le in E. change (inject_Z 0) with 0. lra.
    + apply leb_gt in E.
      assert (Ec : Js.Math_min 100 (Js.Math_max 0 (soundLevel / 80 * 100))
                   == soundLevel * (5 # 4)).
      { clamp_cases; rewrite ?Hscale in *; lra. }
      unfold Js.Math_round. rewrite Ec.
      pose proof (Qfloor_le (soundLevel * (5 # 4) + (1 # 2))) as Hf.
      pose proof (Qlt_floor (soundLevel * (5 # 4) + (1 # 2))) as Hc.
      rewrite inject_Z_plus in Hc. change (inject_Z 1) with 1 in Hc.
      split; lra.
Qed.

Lemma SoundMeter_percentage_accuracy_witness :
  ((-3) <= 0 /\ 80 <= 120 /\ 0 <= 30 <= 80)
  /\ SoundMeter.soundLevelToPercentage (-3) = 0%Z
  /\ SoundMeter.soundLevelToPercentage 120 = 100%Z
  /\ inject_Z (SoundMeter.soundLevelToPercentage 30) <= 30 * (5 # 4) + (1 # 2).
Proof.
  assert (H1 : (-3) <= 0) by discriminate.
  assert (H2 : 80 <= 120) by discriminate.
  assert (H3 : 0 <= 30 <= 80) by (split; discriminate).
  pose proof (SoundMeter_percentage_accuracy (-3)) as [Ha _].
  pose proof (SoundMeter_percentage_accuracy 120) as [_ [Hb _]].
  pose proof (SoundMeter_percentage_accuracy 30) as [_ [_ Hc]].
  split; [tauto|]. split; [exact (Ha H1)|]. split; [exact (Hb H2)|].
  exact (proj2 (Hc H3)).
Defined.

(** X22.  On an idle App.js meter that has the permission, pressing the
    button starts monitoring with an empty history; the first frame then
    makes the average equal to its own reading, whatever average the
    previous session left; pressing the button again stops monitoring and
    sets the current level to 0 but keeps the average and the history. *)
Theorem SoundMeter_session_through_the_button :
  forall (data : SoundMeter.Frame) (s : SoundMeter.State),
    SoundMeter.hasPermission s = true ->
    SoundMeter.isRecording s = false ->
    let started := SoundMeter_handleStartStop s in
    let measured := SoundMeter.onNewFrame data started in
    let stopped := SoundMeter_handleStartStop measured in
    (SoundMeter.isRecording started = true
     /\ SoundMeter.decibelHistory started = []
     /\ SoundMeter.averageDecibels started = SoundMeter.averageDecibels s)
    /\ (SoundMeter.decibelHistory measured = [SoundMeter_reading data]
        /\ SoundMeter.averageDecibels measured = SoundMeter_reading data)
    /\ (SoundMeter.isRecording stopped = false
        /\ SoundMeter.currentDecibels stopped = 0%Z
        /\ SoundMeter.averageDecibels stopped = SoundMeter_reading data
        /\ SoundMeter.decibelHistory stopped = [SoundMeter_reading data]).
Proof.
  intros data s Hperm Hidle started measured stopped.
  assert (Es : started
               = {| SoundMeter.isRecording := true;
                    SoundMeter.currentDecibels := SoundMeter.currentDecibels s;
                    SoundMeter.averageDecibels := SoundMeter.averageDecibels s;
                    SoundMeter.hasPermission := SoundMeter.hasPermission s;
                    SoundMeter.decibelHistory := [];
                    SoundMeter.rawSoundLevel := SoundMeter.rawSoundLevel s |}).
  { subst started. unfold SoundMeter_handleStartStop, SoundMeter.startRecording.
    now rewrite Hidle, Hperm. }
  assert (Ea : SoundMeter.averageDecibels measured = SoundMeter_reading data).
  { subst measured. rewrite Es.
    cbn [SoundMeter.onNewFrame SoundMeter.averageDecibels
         SoundMeter.decibelHistory].
    apply Math_round_integer. apply average_singleton. }
  assert (Eh : SoundMeter.decibelHistory measured = [SoundMeter_reading data]).
  { subst measured. rewrite Es. reflexivity. }
  split; [rewrite Es; repeat split|]. split; [split; assumption|].
  subst stopped. unfold SoundMeter_handleStartStop.
  assert (Er : SoundMeter.isRecording measured = true)
    by (subst measured; rewrite Es; reflexivity).
  rewrite Er. cbn. repeat split; assumption.
Qed.

Lemma SoundMeter_session_through_the_button_witness :
  let s := {| SoundMeter.isRecording := false;
              SoundMeter.currentDecibels := 0;
              SoundMeter.averageDecibels := 77;
              SoundMeter.hasPermission := true;
              SoundMeter.decibelHistory := [70; 84]%Z;
              SoundMeter.rawSoundLevel := 0 |} in
  (SoundMeter.hasPermission s = true /\ SoundMeter.isRecording s = false)
  /\ SoundMeter.averageDecibels
       (SoundMeter.onNewFrame (SoundMeter.mkFrame (Some 8) None)
          (SoundMeter_handleStartStop s)) = 10%Z.
Proof.
  intro s.
  pose proof (SoundMeter_session_through_the_button
                (SoundMeter.mkFrame (Some 8) None) s eq_refl eq_refl)
    as [_ [[_ Ha] _]].
  split; [split; reflexivity | exact Ha].
Defined.

(** ** The line chart of the simulated graph *)

Section ChartData.

Import Js.

Lemma assign_length (data : list Q) (index : nat) (v : Q) :
  length (SimGraphChart.assign data index v) = length data.
Proof.
  revert index. induction data as [|d data IH]; intro index; [reflexivity|].
  destruct index; cbn; [reflexivity | now rewrite IH].
Qed.

Lemma assign_Forall (P : Q -> Prop) (data : list Q) (index : nat) (v : Q) :
  P v -> Forall P data -> Forall P (SimGraphChart.assign data index v).
Proof.
  intros Hv H. revert index.
  induction H as [|d data Hd Hall IH]; intro index; [constructor|].
  destruct index; cbn; constructor; auto.
Qed.

Lemma plot_length (interval : Z) (data : list Q) (point : Point) :
  length (SimGraphChart.plot interval data point) = length data.
Proof.
  unfold SimGraphChart.plot.
  destruct (_ <? _)%Z; [|reflexivity].
  destruct (0 <=? _)%Z; [apply assign_length | reflexivity].
Qed.

Lemma fold_plot_length (interval : Z) (points : list Point) (data : list Q) :
  length (fold_left (SimGraphChart.plot interval) points data) = length data.
Proof.
  revert data. induction points as [|p points IH]; intro data; [reflexivity|].
  cbn [fold_left]. now rewrite IH, plot_length.
Qed.

Lemma fold_plot_Forall (P : Q -> Prop) (interval : Z) (points : list Point)
    (data : list Q) :
  Forall (fun p => P (py p)) points ->
  Forall P data ->
  Forall P (fold_left (SimGraphChart.plot interval) points data).
Proof.
  intro Hp. revert data.
  induction Hp as [|p points Hpy Hall IH]; intros data Hd; [exact Hd|].
  cbn [fold_left]. apply IH. unfold SimGraphChart.plot.
  destruct (_ <? _)%Z; [|exact Hd].
  destruct (0 <=? _)%Z; [now apply assign_Forall | exact Hd].
Qed.

Variable maxTime : Q.
Variable interval : Z.
Hypothesis interval_pos : (1 <= interval)%Z.

Lemma labelsFrom_length_le (fuel n : nat) (i : Z) :
  maxTime < inject_Z (i + Z.of_nat n * interval) ->
  (length (SimGraphChart.labelsFrom fuel i interval maxTime) <= n)%nat.
Proof.
  revert n i. induction fuel as [|fuel IH]; intros n i H; cbn; [lia|].
  destruct (leb (inject_Z i) maxTime) eqn:E; [|cbn; lia].
  apply leb_le in E. destruct n as [|n].
  - exfalso. cbn in H. rewrite Z.add_0_r in H. lra.
  - cbn [length]. apply le_n_S. apply IH.
    replace (i + interval + Z.of_nat n * interval)%Z
      with (i + Z.of_nat (S n) * interval)%Z by lia.
    exact H.
Qed.

Lemma labelsFrom_enough_fuel (fuel extra : nat) (i : Z) :
  (Qfloor maxTime + 1 - i <= Z.of_nat fuel)%Z ->
  SimGraphChart.labelsFrom (fuel + extra) i interval maxTime
  = SimGraphChart.labelsFrom fuel i interval maxTime.
Proof.
  revert i. induction fuel as [|fuel IH]; intros i H.
  - cbn [Nat.add SimGraphChart.labelsFrom].
    destruct extra; [reflexivity|]. cbn [SimGraphChart.labelsFrom].
    assert (E : leb (inject_Z i) maxTime = false).
    { apply leb_gt. pose proof (Qlt_floor maxTime) as Hf.
      assert (Hi : inject_Z (Qfloor maxTime + 1) <= inject_Z i)
        by (rewrite <- Zle_Qle; cbn in H; lia).
      lra. }
    now rewrite E.
  - cbn [Nat.add SimGraphChart.labelsFrom].
    destruct (leb (inject_Z i) maxTime); [|reflexivity].
    f_equal. apply IH. lia.
Qed.

Lemma labelsFrom_within (fuel : nat) (i : Z) :
  Forall (fun label => inject_Z label <= maxTime)
         (SimGraphChart.labelsFrom fuel i interval maxTime).
Proof.
  revert i. induction fuel as [|fuel IH]; intro i; cbn; [constructor|].
  destruct (leb (inject_Z i) maxTime) eqn:E; [|constructor].
  constructor; [now apply leb_le | apply IH].
Qed.

End ChartData.

Section ChartInterval.

Import Js.

Lemma labelInterval_pos (maxTime : Q) :
  (1 <= SimGraphChart.labelInterval maxTime)%Z.
Proof. unfold SimGraphChart.labelInterval. lia. Qed.

Lemma labelInterval_twenty (maxTime : Q) :
  maxTime < inject_Z (0 + Z.of_nat 20 * SimGraphChart.labelInterval maxTime).
Proof.
  pose proof (Qlt_floor (maxTime / 10)) as Hf.
  unfold SimGraphChart.labelInterval.
  remember (Qfloor (maxTime / 10)) as f eqn:Ef. clear Ef.
  assert (Hm : maxTime < 10 * inject_Z (f + 1)).
  { unfold Qdiv in Hf. change (/ 10) with (1 # 10) in Hf. lra. }
  assert (Hz : (10 * (f + 1) <= 0 + Z.of_nat 20 * Z.max 1 f)%Z) by lia.
  rewrite Zle_Qle, inject_Z_mult in Hz. change (inject_Z 10) with 10 in Hz.
  lra.
Qed.

Lemma labelInterval_within (maxTime : Q) :
  1 <= maxTime -> inject_Z (SimGraphChart.labelInterval maxTime) <= maxTime.
Proof.
  intro H. unfold SimGraphChart.labelInterval.
  destruct (Z.max_spec 1 (Qfloor (maxTime / 10))) as [[_ ->] | [_ ->]].
  - pose proof (Qfloor_le (maxTime / 10)) as Hf.
    assert (Hd : maxTime / 10 <= maxTime).
    { apply Qle_shift_div_r; [reflexivity | lra]. }
    lra.
  - exact H.
Qed.

End ChartInterval.

(** X23.  The line chart of the simulated graph always receives as many data
    points as labels, and every data point is 0 or the level of a sample of
    the window. *)
Theorem SimGraph_chart_data_matches_labels :
  forall (duration time : Q) (waveformData : list Point),
    length (SimGraphChart.chartDataPoints duration time waveformData)
    = length (SimGraphChart.chartLabels duration time waveformData)
    /\ Forall (fun v => v = 0 \/ In v (map py waveformData))
              (SimGraphChart.chartDataPoints duration time waveformData).
Proof.
  intros duration time waveformData.
  destruct waveformData as [|p rest].
  - split; [reflexivity|]. repeat constructor.
  - cbn [SimGraphChart.chartDataPoints SimGraphChart.chartLabels]. split.
    + now rewrite fold_plot_length, repeat_length.
    + apply fold_plot_Forall.
      * apply Forall_forall. intros q Hq. right. now apply in_map.
      * apply Forall_forall. intros v Hv. apply repeat_spec in Hv. now left.
Qed.

(** X24.  With samples in the window and a larger of duration and elapsed
    time of at least 1, the chart of the simulated graph has between 2 and
    20 labels, none beyond that time; the loop that builds them ends by
    its own condition, so that more iterations would add nothing. *)
Theorem SimGraph_chart_label_count :
  forall (duration time : Q) (waveformData : list Point),
    waveformData <> [] ->
    1 <= Js.Math_max duration time ->
    let maxTime := Js.Math_max duration time in
    let labels := SimGraphChart.chartLabels duration time waveformData in
    (2 <= length labels <= 20)%nat
    /\ Forall (fun label => inject_Z label <= maxTime) labels
    /\ (forall extra : nat,
          SimGraphChart.labelsFrom (SimGraphChart.loopBound maxTime + extra) 0
            (SimGraphChart.labelInterval maxTime) maxTime
          = labels).
Proof.
  intros duration time waveformData Hne Hmax maxTime labels.
  destruct waveformData as [|p rest]; [congruence|].
  subst labels. cbn [SimGraphChart.chartLabels]. fold maxTime.
  pose proof (labelInterval_pos maxTime) as Hpos.
  split; [split|split].
  - assert (Hfuel : exists fuel,
              SimGraphChart.loopBound maxTime = S (S fuel)).
    { unfold SimGraphChart.loopBound.
      assert (Hfl : (1 <= Qfloor maxTime)%Z).
      { rewrite <- (Qfloor_Z 1). now apply Qfloor_resp_le. }
      exists (Z.to_nat (Qfloor maxTime + 1) - 2)%nat. lia. }
    destruct Hfuel as [fuel ->]. cbn [SimGraphChart.labelsFrom].
    assert (E0 : Js.leb (inject_Z 0) maxTime = true)
      by (apply leb_le; change (inject_Z 0) with 0; fold maxTime in Hmax; lra).
    assert (E1 : Js.leb (inject_Z (0 + SimGraphChart.labelInterval maxTime))
                        maxTime = true).
    { apply leb_le. rewrite Z.add_0_l. now apply labelInterval_within. }
    rewrite E0, E1. cbn [length]. lia.
  - apply labelsFrom_length_le. apply labelInterval_twenty.
  - apply labelsFrom_within.
  - intro extra. apply labelsFrom_enough_fuel; [exact Hpos|].
    unfold SimGraphChart.loopBound.
    assert (Hfl : (0 <= Qfloor maxTime)%Z).
    { rewrite <- (Qfloor_Z 0). apply Qfloor_resp_le.
      change (inject_Z 0) with 0. fold maxTime in Hmax. lra. }
    lia.
Qed.

Lemma SimGraph_chart_label_count_witness :
  let window := [mkPoint (1 # 20) 40; mkPoint (1 # 10) 45] in
  (window <> [] /\ 1 <= Js.Math_max 50 (1 # 10))
  /\ SimGraphChart.chartLabels 50 (1 # 10) window
     = [0; 5; 10; 15; 20; 25; 30; 35; 40; 45; 50]%Z
  /\ SimGraphChart.chartDataPoints 50 (1 # 10) window
     = [45; 0; 0; 0; 0; 0; 0; 0; 0; 0; 0].
Proof.
  intro window.
  assert (H1 : window <> []) by discriminate.
  assert (H2 : 1 <= Js.Math_max 50 (1 # 10)) by discriminate.
  pose proof (SimGraph_chart_label_count 50 (1 # 10) window H1 H2)
    as [_ [_ Hloop]].
  split; [tauto|]. split; [|reflexivity].
  rewrite <- (Hloop 0%nat). reflexivity.
Defined.

Section ChartEdges.

Import Js.

Lemma Qfloor_unit_interval (q : Q) : 0 <= q < 1 -> Qfloor q = 0%Z.
Proof.
  intros [Hlo Hhi].
  assert (H0 : (0 <= Qfloor q)%Z)
    by (rewrite <- (Qfloor_Z 0); now apply Qfloor_resp_le).
  pose proof (Qfloor_le q) as Hf.
  assert (H1 : inject_Z (Qfloor q) < inject_Z 1)
    by (change (inject_Z 1) with 1; lra).
  rewrite <- Zlt_Qlt in H1. lia.
Qed.

Lemma Qfloor_negative (q : Q) : q < 0 -> (Qfloor q < 0)%Z.
Proof.
  intro H. pose proof (Qfloor_le q) as Hf.
  assert (H1 : inject_Z (Qfloor q) < inject_Z 0)
    by (change (inject_Z 0) with 0; lra).
  now rewrite <- Zlt_Qlt in H1.
Qed.

End ChartEdges.

(** X25.  When the window holds samples but the larger of duration and
    elapsed time is below 1, the chart of the simulated graph gets a single
    label, 0, and a single data point; when that time is negative it gets
    no label and no data point at all. *)
Theorem SimGraph_chart_short_time_has_one_label :
  forall (duration time : Q) (waveformData : list Point),
    waveformData <> [] ->
    let maxTime := Js.Math_max duration time in
    (0 <= maxTime < 1 ->
       SimGraphChart.chartLabels duration time waveformData = [0%Z]
       /\ length (SimGraphChart.chartDataPoints duration time waveformData)
          = 1%nat)
    /\ (maxTime < 0 ->
       SimGraphChart.chartLabels duration time waveformData = []
       /\ SimGraphChart.chartDataPoints duration time waveformData = []).
Proof.
  intros duration time waveformData Hne maxTime.
  destruct waveformData as [|p rest]; [congruence|].
  split; intro H.
  - assert (El : SimGraphChart.chartLabels duration time (p :: rest) = [0%Z]).
    { cbn [SimGraphChart.chartLabels]. fold maxTime.
      unfold SimGraphChart.loopBound. rewrite (Qfloor_unit_interval _ H).
      change (Z.to_nat (0 + 1)) with 1%nat. cbn [SimGraphChart.labelsFrom].
      assert (E : Js.leb (inject_Z 0) maxTime = true)
        by (apply leb_le; change (inject_Z 0) with 0; tauto).
      now rewrite E. }
    split; [exact El|].
    cbn [SimGraphChart.chartDataPoints].
    now rewrite fold_plot_length, repeat_length, El.
  - assert (El : SimGraphChart.chartLabels duration time (p :: rest) = []).
    { cbn [SimGraphChart.chartLabels]. fold maxTime.
      unfold SimGraphChart.loopBound.
      pose proof (Qfloor_negative _ H) as Hf.
      replace (Z.to_nat (Qfloor maxTime + 1)) with 0%nat by lia.
      reflexivity. }
    split; [exact El|].
    assert (Hlen : length (SimGraphChart.chartDataPoints duration time
                             (p :: rest)) = 0%nat).
    { cbn [SimGraphChart.chartDataPoints].
      now rewrite fold_plot_length, repeat_length, El. }
    now apply length_zero_iff_nil.
Qed.

Lemma SimGraph_chart_short_time_has_one_label_witness :
  let window := [mkPoint (1 # 20) 40] in
  (window <> [] /\ 0 <= Js.Math_max (1 # 2) (1 # 20) < 1
   /\ Js.Math_max (-1) (-2) < 0)
  /\ SimGraphChart.chartLabels (1 # 2) (1 # 20) window = [0%Z]
  /\ SimGraphChart.chartLabels (-1) (-2) window = [].
Proof.
  intro window.
  assert (H1 : window <> []) by discriminate.
  assert (H2 : 0 <= Js.Math_max (1 # 2) (1 # 20) < 1)
    by (split; [discriminate | reflexivity]).
  assert (H3 : Js.Math_max (-1) (-2) < 0) by reflexivity.
  pose proof (SimGraph_chart_short_time_has_one_label (1 # 2) (1 # 20) window H1)
    as [Ha _].
  pose proof (SimGraph_chart_short_time_has_one_label (-1) (-2) window H1)
    as [_ Hb].
  split; [tauto|]. split; [exact (proj1 (Ha H2)) | exact (proj1 (Hb H3))].
Defined.
